(** * ClawHub: publish quality gate and comment moderation

    A shallow embedding of [convex/comments.handlers.ts] (the comment
    moderation handlers) and of the quality gate of the publish path
    ([stripFrontmatter], [tokenizeWords], [wordBucket],
    [toStructuralFingerprint], [scoreQuality], [evaluateQuality]).

    Conventions of the embedding.
    - A JavaScript [number] that holds a count, a timestamp or a score is
      an integer of [Z]; [uniqueWordRatio], the only
      fractional signal, is a rational of [Q] (the quotient of two array
      lengths; [NaN] and the infinities are not represented).
    - A JavaScript string is a [string] whose characters are read as the
      code units U+0000..U+00FF.
    - An optional document field is an [option]; JavaScript truthiness of
      an optional number is [truthy].
    - The handlers run in the monad [M]: a state over the [World] (the
      tables, plus the trace of every database operation performed) with
      exceptions. *)

From Stdlib Require Import ZArith QArith.QArith_base QArith.Qround String Ascii List Lia
  Bool Sorted.
From stdpp Require Import gmap strings list.

Local Open Scope string_scope.
Local Open Scope Z_scope.

(* ===================================================================== *)
(** * Part I: definitions                                                  *)
(* ===================================================================== *)

(** ** Quality signals and trust tiers *)

Inductive TrustTier := low | medium | trusted.

Record QualitySignals := mkSignals {
  bodyChars : Z;
  bodyWords : Z;
  uniqueWordRatio : Q;
  headingCount : Z;
  bulletCount : Z;
  templateMarkerHits : Z;
  genericSummary : bool;
  structuralFingerprint : string
}.

(** [Omit<QualitySignals, 'structuralFingerprint'>]. *)
Record ReportedSignals := mkReportedSignals {
  rs_bodyChars : Z;
  rs_bodyWords : Z;
  rs_uniqueWordRatio : Q;
  rs_headingCount : Z;
  rs_bulletCount : Z;
  rs_templateMarkerHits : Z;
  rs_genericSummary : bool
}.

Inductive Verdict := pass | quarantine | reject.

Record QualityAssessment := mkAssessment {
  score : Z;
  decision : Verdict;
  reason : string;
  trustTier : TrustTier;
  similarRecentCount : Z;
  signals : ReportedSignals
}.

(** [a < b] on rationals, as a boolean. *)
Definition Qltb (a b : Q) : bool := negb (Qle_bool b a).

(** [scoreQuality]: the score is a mutable local, updated statement by
    statement. *)
Definition scoreQuality (signals : QualitySignals) : Z :=
  let score := 100 in
  let score := if bodyChars signals <? 250 then score - 28 else score in
  let score := if bodyWords signals <? 80 then score - 24 else score in
  let score := if Qltb (uniqueWordRatio signals) (45 # 100) then score - 14 else score in
  let score := if headingCount signals <? 2 then score - 10 else score in
  let score := if bulletCount signals <? 3 then score - 8 else score in
  let score := score - Z.min 28 (templateMarkerHits signals * 9) in
  let score := if genericSummary signals then score - 20 else score in
  Z.max 0 score.

Definition reportSignals (signals : QualitySignals) : ReportedSignals :=
  {| rs_bodyChars := bodyChars signals;
     rs_bodyWords := bodyWords signals;
     rs_uniqueWordRatio := uniqueWordRatio signals;
     rs_headingCount := headingCount signals;
     rs_bulletCount := bulletCount signals;
     rs_templateMarkerHits := templateMarkerHits signals;
     rs_genericSummary := genericSummary signals |}.

Definition REASON_SPAM : string :=
  "Skill appears to be repeated template spam from this account.".
Definition REASON_THIN : string :=
  "Skill content is too thin or templated. Add meaningful, specific documentation.".
Definition REASON_LOW : string :=
  "Skill quality is low and requires moderation review before being listed.".
Definition REASON_PASS : string := "Quality checks passed.".

(** [evaluateQuality]. *)
Definition evaluateQuality (signals : QualitySignals) (trustTier : TrustTier)
    (similarRecentCount : Z) : QualityAssessment :=
  let score := scoreQuality signals in
  let rejectWordsThreshold :=
    match trustTier with low => 45 | medium => 35 | trusted => 28 end in
  let rejectCharsThreshold :=
    match trustTier with low => 260 | medium => 180 | trusted => 140 end in
  let quarantineScoreThreshold :=
    match trustTier with low => 72 | medium => 60 | trusted => 50 end in
  let similarityRejectThreshold :=
    match trustTier with low => 5 | medium => 8 | trusted => 12 end in
  let hardReject :=
    (bodyWords signals <? rejectWordsThreshold)
    || (bodyChars signals <? rejectCharsThreshold)
    || ((templateMarkerHits signals >=? 3) && (bodyWords signals <? 120))
    || (similarRecentCount >=? similarityRejectThreshold) in
  if hardReject then
    let reason :=
      if similarRecentCount >=? similarityRejectThreshold
      then REASON_SPAM else REASON_THIN in
    mkAssessment score reject reason trustTier similarRecentCount
                 (reportSignals signals)
  else if score <? quarantineScoreThreshold then
    mkAssessment score quarantine REASON_LOW trustTier similarRecentCount
                 (reportSignals signals)
  else
    mkAssessment score pass REASON_PASS trustTier similarRecentCount
                 (reportSignals signals).

(** The tier tables and the penalty sum, written after the prose of the
    specification; the theorems of Part II compare them with the code. *)
Definition wordFloor (t : TrustTier) : Z :=
  match t with low => 45 | medium => 35 | trusted => 28 end.
Definition charFloor (t : TrustTier) : Z :=
  match t with low => 260 | medium => 180 | trusted => 140 end.
Definition duplicateCeiling (t : TrustTier) : Z :=
  match t with low => 5 | medium => 8 | trusted => 12 end.
Definition scoreCeiling (t : TrustTier) : Z :=
  match t with low => 72 | medium => 60 | trusted => 50 end.

#[local] Instance Qlt_decision (a b : Q) : Decision (a < b)%Q :=
  match Qlt_le_dec a b with
  | left H => left H
  | right H => right (Qle_not_lt _ _ H)
  end.

Definition penalty (P : Prop) `{Decision P} (p : Z) : Z :=
  if decide P then p else 0.

Definition penaltySum (s : QualitySignals) : Z :=
  penalty (bodyChars s < 250) 28
  + penalty (bodyWords s < 80) 24
  + penalty (uniqueWordRatio s < 45 # 100)%Q 14
  + penalty (headingCount s < 2) 10
  + penalty (bulletCount s < 3) 8
  + Z.min 28 (9 * templateMarkerHits s)
  + penalty (genericSummary s = true) 20.

(** ** JavaScript strings

    The string operations the fingerprinter uses, on lists of code units.
    [\s] of a regular expression and [String.prototype.trim] agree on the
    code units below U+0100: TAB, LF, VT, FF, CR, SPACE and NBSP. *)

Definition code (c : ascii) : N := N_of_ascii c.

Definition isSpace (c : ascii) : bool :=
  let n := code c in
  (((9 <=? n) && (n <=? 13)) || (n =? 32) || (n =? 160))%N.

(** The line terminators after which [^] matches under the [m] flag. *)
Definition isLineTerminator (c : ascii) : bool :=
  ((code c =? 10) || (code c =? 13))%N.

Definition isNewline (c : ascii) : bool := (code c =? 10)%N.

Definition isDigit (c : ascii) : bool :=
  ((48 <=? code c) && (code c <=? 57))%N.

Definition isLowerAlnum (c : ascii) : bool :=
  (((97 <=? code c) && (code c <=? 122)) || isDigit c)%N.

(** [[a-z0-9'-]]. *)
Definition isWordChar (c : ascii) : bool :=
  (isLowerAlnum c || (code c =? 39) || (code c =? 45))%N.

Definition lowerChar (c : ascii) : ascii :=
  let n := code c in
  if (((65 <=? n) && (n <=? 90))
      || ((192 <=? n) && (n <=? 222) && negb (n =? 215)))%N
  then ascii_of_N (n + 32) else c.

Definition toLowerCase (l : list ascii) : list ascii := map lowerChar l.

Fixpoint skipSpaces (l : list ascii) : list ascii :=
  match l with
  | c :: l' => if isSpace c then skipSpaces l' else l
  | [] => []
  end.

Definition trimChars (l : list ascii) : list ascii :=
  rev (skipSpaces (rev (skipSpaces l))).

(** [s.trim()]. *)
Definition trim (s : string) : string :=
  string_of_list_ascii (trimChars (list_ascii_of_string s)).

(** [s.split('\n')], with the line being read kept in reverse in [cur]. *)
Fixpoint splitLines (cur : list ascii) (l : list ascii) : list (list ascii) :=
  match l with
  | [] => [rev cur]
  | c :: l' =>
      if isNewline c then rev cur :: splitLines [] l'
      else splitLines (c :: cur) l'
  end.

(** [l] without its prefix [p], when it has it ([startsWith] and [slice]). *)
Fixpoint dropPrefix (p l : list ascii) : option (list ascii) :=
  match p, l with
  | [], _ => Some l
  | a :: p', b :: l' => if Ascii.eqb a b then dropPrefix p' l' else None
  | _ :: _, [] => None
  end.

(** What follows the leftmost occurrence of [p] in [l]. *)
Fixpoint afterFirst (p l : list ascii) : option (list ascii) :=
  match dropPrefix p l with
  | Some r => Some r
  | None => match l with
            | [] => None
            | _ :: l' => afterFirst p l'
            end
  end.

Definition chars (s : string) : list ascii := list_ascii_of_string s.

Definition nl : string := String "010" EmptyString.

(** ** The regular expression of [stripFrontmatter]

    [/^---\s*\n[\s\S]*?\n---\s*\n?/m], one attempt at a given position.
    [closeFence] is the tail [[\s\S]*?\n---\s*\n?]: the lazy star stops
    at the leftmost [\n---], then [\s*] is greedy and leaves nothing for
    [\n?].  [openFence] is [\s*\n] followed by that tail: the greedy
    [\s*] first tries to take the next space, and gives it back to [\n]
    when the rest fails.  Each returns the text after the match. *)
Definition closeFence (l : list ascii) : option (list ascii) :=
  match afterFirst (chars (nl ++ "---")) l with
  | Some rest => Some (skipSpaces rest)
  | None => None
  end.

Fixpoint openFence (l : list ascii) : option (list ascii) :=
  match l with
  | c :: l' =>
      if isSpace c then
        match openFence l' with
        | Some rest => Some rest
        | None => if isNewline c then closeFence l' else None
        end
      else None
  | [] => None
  end.

Definition matchBlock (l : list ascii) : option (list ascii) :=
  match dropPrefix (chars "---") l with
  | Some r => openFence r
  | None => None
  end.

(** [raw.replace(re, '')] without the [g] flag: the leftmost match is
    removed.  Under the [m] flag [^] holds at the start of the text and
    after every line terminator; [atLineStart] tells whether it holds at
    the head of [l]. *)
Fixpoint stripScan (atLineStart : bool) (l : list ascii) : list ascii :=
  match (if atLineStart then matchBlock l else None) with
  | Some rest => rest
  | None => match l with
            | [] => []
            | c :: l' => c :: stripScan (isLineTerminator c) l'
            end
  end.

Definition stripFrontmatter (raw : list ascii) : list ascii :=
  stripScan true raw.

(** ** Words and buckets *)

(** [text.match(/[a-z0-9][a-z0-9'-]*/g)]: [cur] is the word being
    matched, in reverse, and is empty between two words. *)
Fixpoint scanWords (cur : list ascii) (l : list ascii) : list (list ascii) :=
  match l with
  | [] => match cur with [] => [] | _ => [rev cur] end
  | c :: l' =>
      match cur with
      | [] => if isLowerAlnum c then scanWords [c] l' else scanWords [] l'
      | _ => if isWordChar c then scanWords (c :: cur) l'
             else rev cur :: scanWords [] l'
      end
  end.

Definition tokenizeWords (text : list ascii) : list (list ascii) :=
  filter (fun word => (1 <? length word)%nat = true)
         (scanWords [] (toLowerCase text)).

Definition wordBucket (text : list ascii) : string :=
  let words := length (tokenizeWords text) in
  if (words <=? 2)%nat then "s"
  else if (words <=? 6)%nat then "m"
  else "l".

(** [/^[-*]\s+/]: what follows the marker and its spaces. *)
Definition bulletRest (line : list ascii) : option (list ascii) :=
  match line with
  | c :: s :: rest =>
      if ((code c =? 45) || (code c =? 42))%N && isSpace s
      then Some (skipSpaces rest) else None
  | _ => None
  end.

Fixpoint skipDigits (l : list ascii) : list ascii :=
  match l with
  | c :: l' => if isDigit c then skipDigits l' else l
  | [] => []
  end.

(** [/^\d+\.\s+/]. *)
Definition numberedRest (line : list ascii) : option (list ascii) :=
  match line with
  | d :: l' =>
      if isDigit d then
        match skipDigits l' with
        | dot :: s :: rest =>
            if (code dot =? 46)%N && isSpace s
            then Some (skipSpaces rest) else None
        | _ => None
        end
      else None
  | [] => None
  end.

(** The callback of [lines.map] in [toStructuralFingerprint]. *)
Definition lineToken (line : list ascii) : string :=
  match dropPrefix (chars "### ") line with
  | Some rest => "h3:" ++ wordBucket rest
  | None =>
  match dropPrefix (chars "## ") line with
  | Some rest => "h2:" ++ wordBucket rest
  | None =>
  match dropPrefix (chars "# ") line with
  | Some rest => "h1:" ++ wordBucket rest
  | None =>
  match bulletRest line with
  | Some rest => "b:" ++ wordBucket rest
  | None =>
  match numberedRest line with
  | Some rest => "n:" ++ wordBucket rest
  | None => "p:" ++ wordBucket line
  end end end end end.

Definition nonEmpty (line : list ascii) : bool :=
  match line with [] => false | _ => true end.

(** The pipeline after the metadata block is gone:
    [split('\n').map(trim).filter(Boolean).slice(0, 80).map(..).join('|')]. *)
Definition fingerprintOfBody (body : list ascii) : string :=
  let lines :=
    take 80 (filter (fun line => nonEmpty line = true)
                    (map trimChars (splitLines [] body))) in
  String.concat "|" (map lineToken lines).

Definition toStructuralFingerprint (markdown : string) : string :=
  fingerprintOfBody (stripFrontmatter (chars markdown)).

(** The fingerprint as the specification words it: only a metadata block
    that leads the document is removed. *)
Definition stripLeadingMetadata (raw : list ascii) : list ascii :=
  match matchBlock raw with
  | Some rest => rest
  | None => raw
  end.

Definition fingerprintSpec (markdown : string) : string :=
  fingerprintOfBody (stripLeadingMetadata (chars markdown)).

(** Whether a line of [l] opens a block: [matchBlock] succeeds at a place
    where [^] holds. *)
Fixpoint blockStarts (atLineStart : bool) (l : list ascii) : bool :=
  (if atLineStart then bool_decide (is_Some (matchBlock l)) else false)
  || match l with
     | [] => false
     | c :: l' => blockStarts (isLineTerminator c) l'
     end.

(** A document with two horizontal rules and no metadata block. *)
Definition ruledDocument : string :=
  "# Title" ++ nl ++ "---" ++ nl ++ "body text here" ++ nl ++ "---" ++ nl ++ "end".

(** A document that opens with a metadata block. *)
Definition frontedDocument : string :=
  "---" ++ nl ++ "name: demo" ++ nl ++ "---" ++ nl ++
  "## Usage notes" ++ nl ++ nl ++
  "- first step of the installation guide for everyone" ++ nl ++
  "1. run it" ++ nl ++ "plain words follow here".

(** ** The comment tables *)

Abbreviation Id := nat (only parsing).

Inductive CommentStatus := active | hidden | removed.

#[global] Instance CommentStatus_eq_dec : EqDecision CommentStatus.
Proof. solve_decision. Defined.

Record Comment := mkComment {
  c_skillId : Id;
  c_userId : Id;
  c_body : string;
  c_createdAt : Z;
  c_softDeletedAt : option Z;
  c_deletedBy : option Id;
  c_moderationStatus : option CommentStatus;
  c_moderationReason : option string;
  c_moderationNotes : option string;
  c_reportCount : option Z;
  c_lastReportedAt : option Z;
  c_hiddenAt : option Z;
  c_lastReviewedAt : option Z
}.

Inductive Role := roleUser | roleModerator | roleAdmin.

Record User := mkUser {
  u_id : Id;
  u_role : Role;
  u_deletedAt : option Z;
  u_deactivatedAt : option Z
}.

Record Report := mkReport {
  r_id : Id;
  r_commentId : Id;
  r_skillId : Id;
  r_userId : Id;
  r_reason : string;
  r_createdAt : Z
}.

Record Metadata := mkMetadata {
  m_skillId : Id;
  m_reportCount : option Z
}.

Record AuditLog := mkAuditLog {
  a_actorUserId : Id;
  a_action : string;
  a_targetType : string;
  a_targetId : Id;
  a_metadata : Metadata;
  a_createdAt : Z
}.

Inductive StatKind := statComment | statUncomment.

Record StatEvent := mkStatEvent {
  e_skillId : Id;
  e_kind : StatKind
}.

(** The tables the handlers touch, and the events handed to the stat
    aggregator ([insertStatEvent] of [./skillStatEvents], which is outside
    the modelled files: it is taken to record the event and return). *)
Record Db := mkDb {
  comments : gmap nat Comment;
  users : gmap nat User;
  commentReports : list Report;
  auditLogs : list AuditLog;
  statEvents : list StatEvent;
  nextReportId : Id
}.

(** Every call on [ctx.db] and on the stat aggregator, in program order. *)
Inductive Op :=
  | GetComment (id : Id)
  | GetUser (id : Id)
  | QueryByCommentUser (commentId userId : Id)
  | QueryByUser (userId : Id)
  | QueryByComment (commentId : Id)
  | InsertReport (r : Report)
  | PatchComment (id : Id)
  | DeleteReport (id : Id)
  | DeleteComment (id : Id)
  | InsertAuditLog (a : AuditLog)
  | InsertStatEvent (e : StatEvent).

Definition isWrite (op : Op) : bool :=
  match op with
  | GetComment _ | GetUser _ | QueryByCommentUser _ _ | QueryByUser _
  | QueryByComment _ => false
  | _ => true
  end.

Record World := mkWorld {
  db : Db;
  trace : list Op
}.

Inductive Error :=
  | Unauthorized          (* thrown by requireUser *)
  | Forbidden             (* thrown by assertModerator / assertAdmin *)
  | CommentNotFound       (* 'Comment not found' *)
  | AlreadyHidden         (* 'Comment is already hidden.' *)
  | ReasonRequired        (* 'Report reason required.' *)
  | ReportLimitReached    (* 'Report limit reached. Please wait ...' *)
  | NotUnique             (* .unique() over several documents *)
  | MissingDocument.      (* patch of an absent document *)

Inductive Outcome (A : Type) :=
  | Returned (a : A)
  | Threw (e : Error).
Arguments Returned {A} a.
Arguments Threw {A} e.

(** ** The monad of the handlers *)

Definition M (A : Type) : Type := World -> Outcome A * World.

#[global] Instance M_ret : MRet M := fun A a w => (Returned a, w).

#[global] Instance M_bind : MBind M := fun A B k m w =>
  match m w with
  | (Returned a, w') => k a w'
  | (Threw e, w') => (Threw e, w')
  end.

Definition throw {A} (e : Error) : M A := fun w => (Threw e, w).

Definition readDb {A} (f : Db -> A) : M A := fun w => (Returned (f (db w)), w).

Definition log (op : Op) : M unit :=
  fun w => (Returned tt, mkWorld (db w) (trace w ++ [op])).

Definition modifyDb (f : Db -> Db) : M unit :=
  fun w => (Returned tt, mkWorld (f (db w)) (trace w)).

Definition setComments (f : gmap nat Comment -> gmap nat Comment) (d : Db) : Db :=
  mkDb (f (comments d)) (users d) (commentReports d) (auditLogs d)
       (statEvents d) (nextReportId d).

Definition setReports (f : list Report -> list Report) (d : Db) : Db :=
  mkDb (comments d) (users d) (f (commentReports d)) (auditLogs d)
       (statEvents d) (nextReportId d).

(** [ctx.db.get(id)] on the two tables that are read by id. *)
Definition getComment (id : Id) : M (option Comment) :=
  _ ← log (GetComment id); readDb (fun d => comments d !! id).

Definition getUser (id : Id) : M (option User) :=
  _ ← log (GetUser id); readDb (fun d => users d !! id).

(** [query('commentReports').withIndex(..).collect()], in creation order. *)
Definition collectByUser (userId : Id) : M (list Report) :=
  _ ← log (QueryByUser userId);
  readDb (fun d => filter (fun r => r_userId r = userId) (commentReports d)).

Definition collectByComment (commentId : Id) : M (list Report) :=
  _ ← log (QueryByComment commentId);
  readDb (fun d => filter (fun r => r_commentId r = commentId) (commentReports d)).

(** [.withIndex('by_comment_user', ..).unique()]: the document, [null]
    when there is none, an exception when there are several. *)
Definition uniqueByCommentUser (commentId userId : Id) : M (option Report) :=
  _ ← log (QueryByCommentUser commentId userId);
  found ← readDb (fun d =>
    filter (fun r => r_commentId r = commentId ∧ r_userId r = userId)
           (commentReports d));
  match found with
  | [] => mret None
  | [r] => mret (Some r)
  | _ => throw NotUnique
  end.

(** [ctx.db.insert('commentReports', doc)]: the table gives the id. *)
Definition insertReport (commentId skillId userId : Id) (reason : string)
    (createdAt : Z) : M unit :=
  id ← readDb nextReportId;
  let r := mkReport id commentId skillId userId reason createdAt in
  _ ← log (InsertReport r);
  modifyDb (fun d =>
    mkDb (comments d) (users d) (commentReports d ++ [r]) (auditLogs d)
         (statEvents d) (S (nextReportId d))).

(** [ctx.db.patch(id, fields)]: [f] overwrites the fields of the patch. *)
Definition patchComment (id : Id) (f : Comment -> Comment) : M unit :=
  _ ← log (PatchComment id);
  stored ← readDb (fun d => comments d !! id);
  match stored with
  | Some c => modifyDb (setComments (insert id (f c)))
  | None => throw MissingDocument
  end.

Definition deleteReport (id : Id) : M unit :=
  _ ← log (DeleteReport id);
  modifyDb (setReports (filter (fun r => r_id r ≠ id))).

Definition deleteComment (id : Id) : M unit :=
  _ ← log (DeleteComment id);
  modifyDb (setComments (delete id)).

Definition insertAuditLog (a : AuditLog) : M unit :=
  _ ← log (InsertAuditLog a);
  modifyDb (fun d =>
    mkDb (comments d) (users d) (commentReports d) (auditLogs d ++ [a])
         (statEvents d) (nextReportId d)).

Definition insertStatEvent (e : StatEvent) : M unit :=
  _ ← log (InsertStatEvent e);
  modifyDb (fun d =>
    mkDb (comments d) (users d) (commentReports d) (auditLogs d)
         (statEvents d ++ [e]) (nextReportId d)).

(** ** Access gates

    [./lib/access] is outside the modelled files.  [requireUser] yields the
    signed-in user of the request or throws; the two role gates are
    parameters of the handlers ([true]: the gate lets the user through). *)
Record Ctx := mkCtx {
  session : option User;
  now : Z                       (* Date.now() *)
}.

Record Access := mkAccess {
  moderatorGate : User -> bool;
  adminGate : User -> bool
}.

(** [const { userId, user } = await requireUser(ctx)]: [userId] is
    [u_id user]. *)
Definition requireUser (ctx : Ctx) : M User :=
  match session ctx with
  | Some user => mret user
  | None => throw Unauthorized
  end.

Definition assertModerator (acc : Access) (user : User) : M unit :=
  if moderatorGate acc user then mret tt else throw Forbidden.

Definition assertAdmin (acc : Access) (user : User) : M unit :=
  if adminGate acc user then mret tt else throw Forbidden.

(** ** comments.handlers.ts *)

Definition MAX_ACTIVE_REPORTS_PER_USER : Z := 20.
Definition AUTO_HIDE_REPORT_THRESHOLD : Z := 3.

(** Truthiness of an optional number: [undefined] and [0] are falsy. *)
Definition truthy (x : option Z) : bool :=
  match x with
  | Some n => negb (n =? 0)
  | None => false
  end.

Definition getCommentStatus (comment : Comment) : CommentStatus :=
  match c_moderationStatus comment with
  | Some status => status
  | None => if truthy (c_softDeletedAt comment) then hidden else active
  end.

Definition isActive (s : CommentStatus) : bool :=
  match s with active => true | _ => false end.

Definition isRemoved (s : CommentStatus) : bool :=
  match s with removed => true | _ => false end.

Definition isCommentVisible (comment : Comment) : bool :=
  negb (truthy (c_softDeletedAt comment)) && isActive (getCommentStatus comment).

(** The patch of [removeHandler]. *)
Definition removePatch (now : Z) (userId : Id) (isOwner : bool) (c : Comment) : Comment :=
  {| c_skillId := c_skillId c;
     c_userId := c_userId c;
     c_body := c_body c;
     c_createdAt := c_createdAt c;
     c_softDeletedAt := Some now;
     c_deletedBy := Some userId;
     c_moderationStatus := Some removed;
     c_moderationReason :=
       Some (if isOwner then "manual.user_delete" else "manual.moderator_delete");
     c_moderationNotes := None;
     c_reportCount := c_reportCount c;
     c_lastReportedAt := c_lastReportedAt c;
     c_hiddenAt := c_hiddenAt c;
     c_lastReviewedAt := Some now |}.

Definition removeHandler (acc : Access) (ctx : Ctx) (commentId : Id) : M unit :=
  user ← requireUser ctx;
  comment ← getComment commentId;
  match comment with
  | None => throw CommentNotFound
  | Some comment =>
      if negb (isCommentVisible comment) then mret tt
      else
        let isOwner := Nat.eqb (c_userId comment) (u_id user) in
        _ ← (if negb isOwner then assertModerator acc user else mret tt);
        let now := now ctx in
        _ ← patchComment commentId (removePatch now (u_id user) isOwner);
        _ ← insertStatEvent (mkStatEvent (c_skillId comment) statUncomment);
        insertAuditLog
          (mkAuditLog (u_id user) "comment.delete" "comment" commentId
                      (mkMetadata (c_skillId comment) None) now)
  end.

(** The loop of [countActiveReportsForUser], from the current [count]. *)
Fixpoint countActiveLoop (reports : list Report) (count : Z) : M Z :=
  match reports with
  | [] => mret count
  | report :: rest =>
      comment ← getComment (r_commentId report);
      match comment with
      | None => countActiveLoop rest count
      | Some comment =>
          if negb (isCommentVisible comment) then countActiveLoop rest count
          else
            owner ← getUser (c_userId comment);
            match owner with
            | None => countActiveLoop rest count
            | Some owner =>
                if truthy (u_deletedAt owner) || truthy (u_deactivatedAt owner)
                then countActiveLoop rest count
                else
                  let count := count + 1 in
                  if count >=? MAX_ACTIVE_REPORTS_PER_USER then mret count
                  else countActiveLoop rest count
            end
      end
  end.

Definition countActiveReportsForUser (userId : Id) : M Z :=
  reports ← collectByUser userId;
  countActiveLoop reports 0.

Record ReportResult := mkReportResult {
  ok : bool;
  reported : bool;
  alreadyReported : bool
}.

(** The patch of [reportHandler]: the counter and the stamp, and the
    fields of the auto-hide when [shouldAutoHide]. *)
Definition reportPatch (now nextReportCount : Z) (shouldAutoHide : bool)
    (c : Comment) : Comment :=
  if shouldAutoHide then
    {| c_skillId := c_skillId c;
       c_userId := c_userId c;
       c_body := c_body c;
       c_createdAt := c_createdAt c;
       c_softDeletedAt := Some now;
       c_deletedBy := None;
       c_moderationStatus := Some hidden;
       c_moderationReason := Some "auto.reports";
       c_moderationNotes := Some "Auto-hidden after 4 unique reports.";
       c_reportCount := Some nextReportCount;
       c_lastReportedAt := Some now;
       c_hiddenAt := Some now;
       c_lastReviewedAt := Some now |}
  else
    {| c_skillId := c_skillId c;
       c_userId := c_userId c;
       c_body := c_body c;
       c_createdAt := c_createdAt c;
       c_softDeletedAt := c_softDeletedAt c;
       c_deletedBy := c_deletedBy c;
       c_moderationStatus := c_moderationStatus c;
       c_moderationReason := c_moderationReason c;
       c_moderationNotes := c_moderationNotes c;
       c_reportCount := Some nextReportCount;
       c_lastReportedAt := Some now;
       c_hiddenAt := c_hiddenAt c;
       c_lastReviewedAt := c_lastReviewedAt c |}.

Definition isEmpty (s : string) : bool :=
  match s with EmptyString => true | _ => false end.

Definition reportHandler (ctx : Ctx) (commentId : Id) (reason : string)
    : M ReportResult :=
  user ← requireUser ctx;
  let userId := u_id user in
  comment ← getComment commentId;
  match comment with
  | None => throw CommentNotFound
  | Some comment =>
      if isRemoved (getCommentStatus comment) then throw CommentNotFound
      else if negb (isCommentVisible comment) then throw AlreadyHidden
      else
        let reason := trim reason in
        if isEmpty reason then throw ReasonRequired
        else
          existing ← uniqueByCommentUser commentId userId;
          match existing with
          | Some _ => mret (mkReportResult true false true)
          | None =>
              activeReports ← countActiveReportsForUser userId;
              if activeReports >=? MAX_ACTIVE_REPORTS_PER_USER
              then throw ReportLimitReached
              else
                let now := now ctx in
                _ ← insertReport commentId (c_skillId comment) userId
                      (substring 0 500 reason) now;
                let nextReportCount := default 0 (c_reportCount comment) + 1 in
                let shouldAutoHide :=
                  (nextReportCount >? AUTO_HIDE_REPORT_THRESHOLD)
                  && isCommentVisible comment in
                _ ← patchComment commentId
                      (reportPatch now nextReportCount shouldAutoHide);
                _ ← (if shouldAutoHide then
                       _ ← insertStatEvent
                             (mkStatEvent (c_skillId comment) statUncomment);
                       insertAuditLog
                         (mkAuditLog userId "comment.auto_hide" "comment" commentId
                            (mkMetadata (c_skillId comment) (Some nextReportCount))
                            now)
                     else mret tt);
                mret (mkReportResult true true false)
          end
  end.

(** The two patches of [setSoftDeletedHandler]. *)
Definition softDeletePatch (now : Z) (userId : Id) (deleted : bool)
    (c : Comment) : Comment :=
  if deleted then
    {| c_skillId := c_skillId c;
       c_userId := c_userId c;
       c_body := c_body c;
       c_createdAt := c_createdAt c;
       c_softDeletedAt := Some now;
       c_deletedBy := Some userId;
       c_moderationStatus := Some hidden;
       c_moderationReason := Some "manual.moderation";
       c_moderationNotes := Some "Hidden by moderator.";
       c_reportCount := c_reportCount c;
       c_lastReportedAt := c_lastReportedAt c;
       c_hiddenAt := Some now;
       c_lastReviewedAt := Some now |}
  else
    {| c_skillId := c_skillId c;
       c_userId := c_userId c;
       c_body := c_body c;
       c_createdAt := c_createdAt c;
       c_softDeletedAt := None;
       c_deletedBy := None;
       c_moderationStatus := Some active;
       c_moderationReason := None;
       c_moderationNotes := None;
       c_reportCount := c_reportCount c;
       c_lastReportedAt := c_lastReportedAt c;
       c_hiddenAt := None;
       c_lastReviewedAt := Some now |}.

Definition setSoftDeletedHandler (acc : Access) (ctx : Ctx) (commentId : Id)
    (deleted : bool) : M unit :=
  user ← requireUser ctx;
  _ ← assertModerator acc user;
  comment ← getComment commentId;
  match comment with
  | None => throw CommentNotFound
  | Some comment =>
      let beforeVisible := isCommentVisible comment in
      let now := now ctx in
      let afterVisible := negb deleted in
      _ ← patchComment commentId (softDeletePatch now (u_id user) deleted);
      _ ← (if beforeVisible && negb afterVisible then
             insertStatEvent (mkStatEvent (c_skillId comment) statUncomment)
           else if negb beforeVisible && afterVisible then
             insertStatEvent (mkStatEvent (c_skillId comment) statComment)
           else mret tt);
      insertAuditLog
        (mkAuditLog (u_id user)
                    (if deleted then "comment.hide" else "comment.restore")
                    "comment" commentId
                    (mkMetadata (c_skillId comment) None) now)
  end.

Fixpoint deleteReports (reports : list Report) : M unit :=
  match reports with
  | [] => mret tt
  | report :: rest => _ ← deleteReport (r_id report); deleteReports rest
  end.

Record HardDeleteResult := mkHardDeleteResult { deleted : bool }.

Definition hardDeleteHandler (acc : Access) (ctx : Ctx) (commentId : Id)
    : M HardDeleteResult :=
  user ← requireUser ctx;
  _ ← assertAdmin acc user;
  comment ← getComment commentId;
  match comment with
  | None => mret (mkHardDeleteResult false)
  | Some comment =>
      let beforeVisible := isCommentVisible comment in
      reports ← collectByComment commentId;
      _ ← deleteReports reports;
      _ ← deleteComment commentId;
      _ ← (if beforeVisible then
             insertStatEvent (mkStatEvent (c_skillId comment) statUncomment)
           else mret tt);
      _ ← insertAuditLog
            (mkAuditLog (u_id user) "comment.hard_delete" "comment" commentId
               (mkMetadata (c_skillId comment)
                           (Some (Z.of_nat (length reports))))
               (now ctx));
      mret (mkHardDeleteResult true)
  end.

(** ** Sequences of report calls, and the active reports of a reporter *)

Record ReportCall := mkCall {
  call_ctx : Ctx;
  call_reason : string
}.

(** The calls of [calls], one after the other, against one comment. *)
Fixpoint runReports (commentId : Id) (calls : list ReportCall) (w : World)
    : list (Outcome ReportResult) * World :=
  match calls with
  | [] => ([], w)
  | call :: rest =>
      let step := reportHandler (call_ctx call) commentId (call_reason call) w in
      let tail := runReports commentId rest (snd step) in
      (fst step :: fst tail, snd tail)
  end.

(** A report is active when its target comment is still visible and the
    author of that comment is neither deleted nor deactivated (the wording
    of the specification; a purged comment or author counts as gone). *)
Definition activeReport (d : Db) (r : Report) : bool :=
  match comments d !! r_commentId r with
  | Some c =>
      isCommentVisible c &&
      match users d !! c_userId c with
      | Some author =>
          negb (truthy (u_deletedAt author)) && negb (truthy (u_deactivatedAt author))
      | None => false
      end
  | None => false
  end.

Definition reportsOf (d : Db) (userId : Id) : list Report :=
  filter (fun r => r_userId r = userId) (commentReports d).

Definition activeReportCount (d : Db) (userId : Id) : nat :=
  length (filter (fun r => activeReport d r = true) (reportsOf d userId)).

Definition reportsOfPair (d : Db) (commentId userId : Id) : list Report :=
  filter (fun r => r_commentId r = commentId ∧ r_userId r = userId)
         (commentReports d).

Definition ALREADY_REPORTED : ReportResult := mkReportResult true false true.
Definition REPORTED : ReportResult := mkReportResult true true false.

(** ** Vocabulary of the statements *)

(** [w] with the same tables and [ops] added to its trace. *)
Definition logged (w : World) (ops : list Op) : World :=
  mkWorld (db w) (trace w ++ ops).

(** No operation of [ops] writes. *)
Definition readOnly (ops : list Op) : Prop :=
  Forall (fun op => isWrite op = false) ops.

(** The report, the counter, the stat event and the audit entry that
    [reportHandler] builds for a report of [userId] on the comment [c]. *)
Definition newReport (d : Db) (commentId : Id) (c : Comment) (userId : Id)
    (reason : string) (now : Z) : Report :=
  mkReport (nextReportId d) commentId (c_skillId c) userId
           (substring 0 500 (trim reason)) now.

Definition nextCount (c : Comment) : Z := default 0 (c_reportCount c) + 1.

Definition crossesThreshold (c : Comment) : bool :=
  nextCount c >? AUTO_HIDE_REPORT_THRESHOLD.

Definition autoHideStat (c : Comment) : StatEvent :=
  mkStatEvent (c_skillId c) statUncomment.

Definition autoHideAudit (userId commentId : Id) (c : Comment) (now : Z) : AuditLog :=
  mkAuditLog userId "comment.auto_hide" "comment" commentId
             (mkMetadata (c_skillId c) (Some (nextCount c))) now.


(** What a report that goes through does to the world [w], giving [w']. *)
Definition reportEffects (ctx : Ctx) (user : User) (commentId : Id)
    (c : Comment) (reason : string) (w w' : World) : Prop :=
  let r := newReport (db w) commentId c (u_id user) reason (now ctx) in
  let hide := crossesThreshold c in
  (exists t,
     readOnly t /\
     trace w' =
       (trace w ++
        [GetComment commentId; QueryByCommentUser commentId (u_id user);
         QueryByUser (u_id user)] ++ t ++
        [InsertReport r; PatchComment commentId] ++
        (if hide then [InsertStatEvent (autoHideStat c);
                       InsertAuditLog (autoHideAudit (u_id user) commentId c (now ctx))]
         else []))%list) /\
  comments (db w') =
    <[commentId := reportPatch (now ctx) (nextCount c) hide c]> (comments (db w)) /\
  users (db w') = users (db w) /\
  commentReports (db w') = (commentReports (db w) ++ [r])%list /\
  statEvents (db w') =
    (statEvents (db w) ++ if hide then [autoHideStat c] else [])%list /\
  auditLogs (db w') =
    (auditLogs (db w) ++
     if hide then [autoHideAudit (u_id user) commentId c (now ctx)] else [])%list.

(** The uniqueness invariant of the report table: at most one report per
    comment and reporter. *)
Definition uniquePairs (d : Db) : Prop :=
  forall commentId userId : Id,
    (length (reportsOfPair d commentId userId) <= 1)%nat.


Definition authenticated (call : ReportCall) : Prop :=
  is_Some (session (call_ctx call)).

(** ** Example worlds *)

Definition plainComment (skill author : Id) (count : option Z) : Comment :=
  mkComment skill author "nice skill" 1000 None None (Some active) None None
            count None None None.

Definition plainUser (id : Id) : User := mkUser id roleUser None None.

Definition callBy (userId : Id) (reason : string) (time : Z) : ReportCall :=
  mkCall (mkCtx (Some (plainUser userId)) time) reason.

(** One visible comment, number 1, on skill 7 by author 100; no report yet. *)
Definition freshWorld : World :=
  mkWorld (mkDb {[ 1%nat := plainComment 7 100 None ]}
                {[ 100%nat := plainUser 100 ]} [] [] [] 0) [].

(** The role gates, decided by the role of the user, for the examples. *)
Definition roleAccess : Access :=
  mkAccess (fun u => match u_role u with roleUser => false | _ => true end)
           (fun u => match u_role u with roleAdmin => true | _ => false end).

Definition moderatorCtx (time : Z) : Ctx :=
  mkCtx (Some (mkUser 50 roleModerator None None)) time.

Definition adminCtx (time : Z) : Ctx :=
  mkCtx (Some (mkUser 60 roleAdmin None None)) time.

(** Four reports by four users, at times 1 to 4. *)
Definition fourReports : list ReportCall :=
  [callBy 11 "spam" 1; callBy 12 "malware loader" 2;
   callBy 13 " abuse " 3; callBy 14 "scam" 4].

(** Reporter 9 holds 20 reports, on the visible comments 101..120. *)
Definition busyWorld : World :=
  mkWorld
    (mkDb (list_to_map
             ((1%nat, plainComment 7 100 None)
              :: map (fun i => (i, plainComment 7 100 (Some 1))) (seq 101 20)))
          {[ 100%nat := plainUser 100 ]}
          (map (fun i => mkReport i (101 + i) 7 9 "spam" 5) (seq 0 20))
          [] [] 20)
    [].

(** The same, and reporter 9 has reported comment 1 as well. *)
Definition busyRepeatWorld : World :=
  mkWorld
    (mkDb (comments (db busyWorld)) (users (db busyWorld))
          (commentReports (db busyWorld) ++ [mkReport 20 1 7 9 "spam" 6])
          [] [] 21)
    [].

Definition threeReports : list ReportCall := take 3 fourReports.

(** Comment 1 of [freshWorld] after the first three reports of [fourReports]. *)
Definition thriceReported : Comment :=
  mkComment 7 100 "nice skill" 1000 None None (Some active) None None
            (Some 3) (Some 3) None None.


(** ** The rest of the quality gate *)

Definition TRUST_TIER_ACCOUNT_AGE_LOW_MS : Z := 30 * 24 * 60 * 60 * 1000.
Definition TRUST_TIER_ACCOUNT_AGE_MEDIUM_MS : Z := 90 * 24 * 60 * 60 * 1000.
Definition TRUST_TIER_SKILLS_LOW : Z := 10.
Definition TRUST_TIER_SKILLS_MEDIUM : Z := 50.

Definition getTrustTier (accountAgeMs totalSkills : Z) : TrustTier :=
  if (accountAgeMs <? TRUST_TIER_ACCOUNT_AGE_LOW_MS)
     || (totalSkills <? TRUST_TIER_SKILLS_LOW)
  then low
  else if (accountAgeMs <? TRUST_TIER_ACCOUNT_AGE_MEDIUM_MS)
          || (totalSkills <? TRUST_TIER_SKILLS_MEDIUM)
  then medium
  else trusted.

Definition TEMPLATE_MARKERS : list string :=
  ["expert guidance for"; "practical skill guidance"; "step-by-step tutorials";
   "tips and techniques"; "project ideas"; "resource recommendations";
   "help with this skill"; "learning guidance"].

(** [text.includes(marker)]. *)
Definition includes (text : list ascii) (marker : string) : bool :=
  match afterFirst (chars marker) text with
  | Some _ => true
  | None => false
  end.

Definition isHash (c : ascii) : bool := (code c =? 35)%N.

(** [/^#{1,3}\s+/] after the first [#]: at most [budget] more, then a space. *)
Fixpoint headingAfter (budget : nat) (l : list ascii) : bool :=
  match l with
  | c :: l' =>
      if isSpace c then true
      else if isHash c then
        match budget with
        | S b => headingAfter b l'
        | O => false
        end
      else false
  | [] => false
  end.

Definition isHeadingLine (line : list ascii) : bool :=
  match line with
  | c :: l' => isHash c && headingAfter 2 l'
  | [] => false
  end.

Definition isBulletLine (line : list ascii) : bool :=
  match bulletRest line with
  | Some _ => true
  | None => false
  end.

Definition isSlugChar (c : ascii) : bool := (isLowerAlnum c || (code c =? 45))%N.

Fixpoint skipSlug (l : list ascii) : list ascii :=
  match l with
  | c :: l' => if isSlugChar c then skipSlug l' else l
  | [] => []
  end.

(** [/^expert guidance for [a-z0-9-]+\.?$/]. *)
Definition isGenericSummary (summary : list ascii) : bool :=
  match dropPrefix (chars "expert guidance for ") summary with
  | Some (c :: rest) =>
      isSlugChar c &&
      match skipSlug rest with
      | [] => true
      | [dot] => (code dot =? 46)%N
      | _ => false
      end
  | _ => false
  end.

(** [computeQualitySignals]; [summary] is [None] for [null] and [undefined]. *)
Definition computeQualitySignals (readmeText : string) (summary : option string)
    : QualitySignals :=
  let body := stripFrontmatter (chars readmeText) in
  let bodyChars := length (filter (fun c => isSpace c = false) body) in
  let words := tokenizeWords body in
  let uniqueWordRatio :=
    match length words with
    | O => 0%Q
    | S _ => Z.of_nat (length (remove_dups words)) # Pos.of_nat (length words)
    end in
  let lines := splitLines [] body in
  let headingCount :=
    length (filter (fun line => isHeadingLine (trimChars line) = true) lines) in
  let bulletCount :=
    length (filter (fun line => isBulletLine (trimChars line) = true) lines) in
  let bodyLower := toLowerCase body in
  let templateMarkerHits :=
    length (filter (fun marker => includes bodyLower marker = true) TEMPLATE_MARKERS) in
  let summary := toLowerCase (trimChars (chars (default "" summary))) in
  let genericSummary := isGenericSummary summary in
  {| bodyChars := Z.of_nat bodyChars;
     bodyWords := Z.of_nat (length words);
     uniqueWordRatio := uniqueWordRatio;
     headingCount := Z.of_nat headingCount;
     bulletCount := Z.of_nat bulletCount;
     templateMarkerHits := Z.of_nat templateMarkerHits;
     genericSummary := genericSummary;
     structuralFingerprint := toStructuralFingerprint readmeText |}.

(** Orders on tiers, verdicts and signals: a higher tier is more trusted,
    a higher verdict is better, and [signalsLe s s'] says that [s'] is at
    least as good as [s] on every signal. *)
Definition tierRank (t : TrustTier) : Z :=
  match t with low => 0 | medium => 1 | trusted => 2 end.

Definition verdictRank (v : Verdict) : Z :=
  match v with reject => 0 | quarantine => 1 | pass => 2 end.

Definition signalsLe (s s' : QualitySignals) : Prop :=
  bodyChars s <= bodyChars s' /\
  bodyWords s <= bodyWords s' /\
  (uniqueWordRatio s <= uniqueWordRatio s')%Q /\
  headingCount s <= headingCount s' /\
  bulletCount s <= bulletCount s' /\
  templateMarkerHits s' <= templateMarkerHits s /\
  (genericSummary s' = true -> genericSummary s = true).

Definition thinReadme : string :=
  "---" ++ nl ++ "description: Expert guidance for cats." ++ nl ++ "---" ++ nl ++
  "# Cats" ++ nl ++ "Expert guidance for cats. Tips and techniques, project ideas.".

(** ** The mutations of comments.ts

    [remove], [report], [setSoftDeleted] and [hardDelete], each with its
    arguments; [mutation] runs the handler of a request.  ([add] needs the
    skills table and is not modelled.) *)
Inductive Request :=
  | ReqRemove (commentId : Id)
  | ReqReport (commentId : Id) (reason : string)
  | ReqSetSoftDeleted (commentId : Id) (deleted : bool)
  | ReqHardDelete (commentId : Id).

Inductive Response :=
  | RespVoid
  | RespReport (r : ReportResult)
  | RespHardDelete (r : HardDeleteResult).

Definition mutation (acc : Access) (ctx : Ctx) (req : Request) : M Response :=
  match req with
  | ReqRemove commentId =>
      _ ← removeHandler acc ctx commentId; mret RespVoid
  | ReqReport commentId reason =>
      r ← reportHandler ctx commentId reason; mret (RespReport r)
  | ReqSetSoftDeleted commentId deleted =>
      _ ← setSoftDeletedHandler acc ctx commentId deleted; mret RespVoid
  | ReqHardDelete commentId =>
      r ← hardDeleteHandler acc ctx commentId; mret (RespHardDelete r)
  end.

(** The requests of [reqs], each with its context, one after the other. *)
Fixpoint runMutations (acc : Access) (reqs : list (Ctx * Request)) (w : World)
    : World :=
  match reqs with
  | [] => w
  | (ctx, req) :: rest => runMutations acc rest (snd (mutation acc ctx req w))
  end.

(** The tables after a delete, a moderator hide or restore, and a hard
    delete of the comment [c] stored under [commentId]. *)
Definition removeAudit (user : User) (commentId : Id) (c : Comment) (now : Z)
    : AuditLog :=
  mkAuditLog (u_id user) "comment.delete" "comment" commentId
             (mkMetadata (c_skillId c) None) now.

Definition afterRemove (d : Db) (commentId : Id) (c : Comment) (user : User)
    (now : Z) : Db :=
  mkDb (<[commentId := removePatch now (u_id user)
                          (Nat.eqb (c_userId c) (u_id user)) c]> (comments d))
       (users d) (commentReports d)
       (auditLogs d ++ [removeAudit user commentId c now])
       (statEvents d ++ [mkStatEvent (c_skillId c) statUncomment])
       (nextReportId d).

Definition softDeleteAudit (user : User) (commentId : Id) (c : Comment)
    (deleted : bool) (now : Z) : AuditLog :=
  mkAuditLog (u_id user) (if deleted then "comment.hide" else "comment.restore")
             "comment" commentId (mkMetadata (c_skillId c) None) now.

Definition softDeleteStats (c : Comment) (deleted : bool) : list StatEvent :=
  if isCommentVisible c && deleted
  then [mkStatEvent (c_skillId c) statUncomment]
  else if negb (isCommentVisible c) && negb deleted
  then [mkStatEvent (c_skillId c) statComment]
  else [].

Definition afterSoftDelete (d : Db) (commentId : Id) (c : Comment) (user : User)
    (deleted : bool) (now : Z) : Db :=
  mkDb (<[commentId := softDeletePatch now (u_id user) deleted c]> (comments d))
       (users d) (commentReports d)
       (auditLogs d ++ [softDeleteAudit user commentId c deleted now])
       (statEvents d ++ softDeleteStats c deleted)
       (nextReportId d).

Definition reportsOfComment (d : Db) (commentId : Id) : list Report :=
  filter (fun r => r_commentId r = commentId) (commentReports d).

Definition hardDeleteAudit (d : Db) (user : User) (commentId : Id) (c : Comment)
    (now : Z) : AuditLog :=
  mkAuditLog (u_id user) "comment.hard_delete" "comment" commentId
    (mkMetadata (c_skillId c)
                (Some (Z.of_nat (length (reportsOfComment d commentId)))))
    now.

Definition afterHardDelete (d : Db) (commentId : Id) (c : Comment) (user : User)
    (now : Z) : Db :=
  mkDb (delete commentId (comments d))
       (users d)
       (filter (fun r => r_id r ∉ map r_id (reportsOfComment d commentId))
               (commentReports d))
       (auditLogs d ++ [hardDeleteAudit d user commentId c now])
       (statEvents d ++
        if isCommentVisible c then [mkStatEvent (c_skillId c) statUncomment] else [])
       (nextReportId d).

(** The ids the report table hands out are distinct and below the next
    one. *)
Definition uniqueIds (d : Db) : Prop :=
  NoDup (map r_id (commentReports d)) /\
  Forall (fun r => (r_id r < nextReportId d)%nat) (commentReports d).

(** The number of visible comments of a skill, and the count the stat
    aggregator derives from the events it has received. *)
Definition visibleOfSkill (skill : Id) (entry : nat * Comment) : Prop :=
  isCommentVisible (snd entry) = true /\ c_skillId (snd entry) = skill.

Definition visibleCount (d : Db) (skill : Id) : Z :=
  Z.of_nat (size (filter (visibleOfSkill skill) (comments d))).

Definition statDelta (skill : Id) (e : StatEvent) : Z :=
  if decide (e_skillId e = skill) then
    match e_kind e with statComment => 1 | statUncomment => -1 end
  else 0.

Fixpoint statNet (skill : Id) (events : list StatEvent) : Z :=
  match events with
  | [] => 0
  | e :: rest => statDelta skill e + statNet skill rest
  end.

Definition counted (skill : Id) (c : Comment) : Z :=
  if decide (isCommentVisible c = true /\ c_skillId c = skill) then 1 else 0.

(** A step that only read: the tables are the same and the trace has
    grown by reads. *)
Definition quiet (w w' : World) : Prop :=
  exists t, readOnly t /\ w' = logged w t.

(** What a mutation that wrote has done to the tables. *)
Definition mutationEffect (ctx : Ctx) (req : Request) (w w' : World) : Prop :=
  exists user c,
    session ctx = Some user /\
    match req with
    | ReqRemove commentId =>
        comments (db w) !! commentId = Some c /\
        isCommentVisible c = true /\
        db w' = afterRemove (db w) commentId c user (now ctx)
    | ReqReport commentId reason =>
        comments (db w) !! commentId = Some c /\
        isCommentVisible c = true /\
        reportsOfPair (db w) commentId (u_id user) = [] /\
        nextReportId (db w') = S (nextReportId (db w)) /\
        reportEffects ctx user commentId c reason w w'
    | ReqSetSoftDeleted commentId deleted =>
        comments (db w) !! commentId = Some c /\
        db w' = afterSoftDelete (db w) commentId c user deleted (now ctx)
    | ReqHardDelete commentId =>
        comments (db w) !! commentId = Some c /\
        db w' = afterHardDelete (db w) commentId c user (now ctx)
    end.

(** The non-blank lines of a body, trimmed: what the fingerprint is made
    of, before the cut at 80. *)
Definition nonBlankLines (body : list ascii) : list (list ascii) :=
  filter (fun line => nonEmpty line = true) (map trimChars (splitLines [] body)).

Definition nonSpaces (l : list ascii) : nat :=
  length (filter (fun c => isSpace c = false) l).

(** A code unit that [toLowerCase] neither produces nor changes. *)
Definition caseless (a : ascii) : Prop :=
  forall c, Ascii.eqb a (lowerChar c) = Ascii.eqb a c.

Definition eightyBullets : string :=
  String.concat nl (replicate 80 "- item").

(** ** mergeSourceIntoMetadata

    [metadata] is [unknown]: an object with its own fields, or anything
    else ([null], [undefined], a primitive, an array).  The values of the
    result are the values of the input, the source record and the quality
    record. *)
Record Source := mkSource {
  src_kind : string;
  src_url : string;
  src_repo : string;
  src_ref : string;
  src_commit : string;
  src_path : string;
  src_importedAt : Z
}.

Record QualityStamp := mkQualityStamp {
  q_score : Z;
  q_decision : Verdict;
  q_trustTier : TrustTier;
  q_similarRecentCount : Z;
  q_signals : ReportedSignals;
  q_reason : string;
  q_evaluatedAt : Z
}.

Inductive Unknown (V : Type) :=
  | JsObject (fields : gmap string V)
  | JsOther.
Arguments JsObject {V} fields.
Arguments JsOther {V}.

Inductive MetaValue (V : Type) :=
  | UserValue (v : V)
  | SourceValue (s : Source)
  | QualityValue (q : QualityStamp).
Arguments UserValue {V} v.
Arguments SourceValue {V} s.
Arguments QualityValue {V} q.

Definition mergeSourceIntoMetadata {V : Type} (metadata : Unknown V)
    (source : option Source) (qualityAssessment : option QualityAssessment)
    (now : Z) : option (gmap string (MetaValue V)) :=
  let base : gmap string (MetaValue V) :=
    match metadata with
    | JsObject fields => UserValue <$> fields
    | JsOther => ∅
    end in
  let base :=
    match source with
    | Some source =>
        <["source" :=
            SourceValue (mkSource (src_kind source) (src_url source)
                           (src_repo source) (src_ref source) (src_commit source)
                           (src_path source) (src_importedAt source))]> base
    | None => base
    end in
  let base :=
    match qualityAssessment with
    | Some qa =>
        <["_clawhubQuality" :=
            QualityValue (mkQualityStamp (score qa) (decision qa) (trustTier qa)
                            (similarRecentCount qa) (signals qa) (reason qa) now)]>
          base
    | None => base
    end in
  if bool_decide (size base = 0%nat) then None else Some base.

(** ** The list of reported comments

    [args.limit] is a [v.number()]: any double, [NaN] and the infinities
    included.  A finite double is a rational, and [Math.floor] leaves an
    integer, an infinity or [NaN]. *)
Inductive Number (A : Type) :=
  | JsNaN
  | JsNegInf
  | JsPosInf
  | JsNum (a : A).
Arguments JsNaN {A}.
Arguments JsNegInf {A}.
Arguments JsPosInf {A}.
Arguments JsNum {A} a.

Definition MAX_LIST_BULK_LIMIT : Z := 200.
Definition MAX_LIST_TAKE : Z := 1000.

(** [Math.floor(x)]. *)
Definition floorNumber (x : Number Q) : Number Z :=
  match x with
  | JsNaN => JsNaN
  | JsNegInf => JsNegInf
  | JsPosInf => JsPosInf
  | JsNum q => JsNum (Qfloor q)
  end.

(** [Math.max(a, b)] and [Math.min(a, b)]: [NaN] as soon as an argument
    is [NaN]. *)
Definition maxNumber (a b : Number Z) : Number Z :=
  match a, b with
  | JsNaN, _ | _, JsNaN => JsNaN
  | JsPosInf, _ | _, JsPosInf => JsPosInf
  | JsNegInf, x | x, JsNegInf => x
  | JsNum x, JsNum y => JsNum (Z.max x y)
  end.

Definition minNumber (a b : Number Z) : Number Z :=
  match a, b with
  | JsNaN, _ | _, JsNaN => JsNaN
  | JsNegInf, _ | _, JsNegInf => JsNegInf
  | JsPosInf, x | x, JsPosInf => x
  | JsNum x, JsNum y => JsNum (Z.min x y)
  end.

(** [a * 5]: a product with a positive integer. *)
Definition timesNumber (a : Number Z) (k : Z) : Number Z :=
  match a with
  | JsNum x => JsNum (x * k)
  | _ => a
  end.

(** [Math.min(max, Math.max(min, Math.floor(value)))]. *)
Definition clampInt (value : Number Q) (min max : Z) : Number Z :=
  minNumber (JsNum max) (maxNumber (JsNum min) (floorNumber value)).

(** [limit] and [takeLimit] of [listReportedCommentsHandler]; the argument
    is [None] when [args.limit] is absent. *)
Definition listLimit (limit : option (Number Q)) : Number Z :=
  clampInt (default (JsNum (25 # 1)) limit) 1 MAX_LIST_BULK_LIMIT.

Definition listTakeLimit (limit : option (Number Q)) : Number Z :=
  minNumber (timesNumber (listLimit limit) 5) (JsNum MAX_LIST_TAKE).

(** [l.slice(0, end)]: [NaN] counts as 0, and a negative [end] counts from
    the end of the list. *)
Definition sliceTo {A : Type} (end_ : Number Z) (l : list A) : list A :=
  match end_ with
  | JsNaN | JsNegInf => []
  | JsPosInf => l
  | JsNum n =>
      if n <? 0 then take (Z.to_nat (Z.of_nat (length l) + n)) l
      else take (Z.to_nat n) l
  end.

Definition lastReported (c : Comment) : Z := default 0 (c_lastReportedAt c).

(** [Array.prototype.sort] with the comparator
    [(a, b) => lastReported b - lastReported a]: the sort is stable, so a
    comment goes in front of the first one that is not reported later. *)
Fixpoint insertByLastReported (x : Comment) (l : list Comment) : list Comment :=
  match l with
  | [] => [x]
  | y :: l' =>
      if lastReported y >? lastReported x then y :: insertByLastReported x l'
      else x :: y :: l'
  end.

Definition sortByLastReported (l : list Comment) : list Comment :=
  foldr insertByLastReported [] l.

(** [entries.filter(..).sort(..).slice(0, limit)]. *)
Definition reportedComments (limit : Number Z) (entries : list Comment)
    : list Comment :=
  sliceTo limit
          (sortByLastReported
             (filter (fun c => 0 < default 0 (c_reportCount c)) entries)).

(** The order of the list: [a] is listed before [b] only if it was not
    reported earlier. *)
Definition laterFirst (a b : Comment) : Prop := lastReported b <= lastReported a.

Definition isReported (c : Comment) : Prop := 0 < default 0 (c_reportCount c).

(** ** The report table against the comment table

    Every report belongs to a stored comment of the same skill, and a
    comment's [reportCount] is the number of reports stored against it. *)
Definition reportBook (d : Db) : Prop :=
  (forall r, r ∈ commentReports d ->
     exists c, comments d !! r_commentId r = Some c /\ r_skillId r = c_skillId c) /\
  (forall commentId c, comments d !! commentId = Some c ->
     default 0 (c_reportCount c) =
       Z.of_nat (length (reportsOfComment d commentId))).

(** A reason as [reportHandler] stores it: it starts with a character that
    is not white space and has at most 500 code units. *)
Definition storedReason (s : string) : Prop :=
  (exists a rest, s = String a rest /\ isSpace a = false) /\
  (String.length s <= 500)%nat.



(** ** The quality gate of [publishVersionForUser]

    What the gate reads: the owner's recent skills
    ([getOwnerSkillActivityInternal]), the files of a version
    ([getVersionByIdInternal]) and the stored blobs ([ctx.storage]). *)
Record Activity := mkActivity {
  act_slug : string;
  act_createdAt : Z;
  act_latestVersionId : option Id
}.

Record VersionFile := mkVersionFile {
  f_path : string;
  f_storageId : Id
}.

Record Store := mkStore {
  versions : gmap nat (list VersionFile);
  storage : gmap nat string
}.

Definition QUALITY_WINDOW_MS : Z := 24 * 60 * 60 * 1000.

Inductive GateError :=
  | FileMissing                    (* 'File missing in storage' *)
  | Rejected (reason : string).    (* ConvexError(qualityAssessment.reason) *)

Inductive Gate :=
  | GateThrew (e : GateError)
  | GatePassed (qualityAssessment : option QualityAssessment).

(** [lower === 'skill.md' || lower === 'skills.md']. *)
Definition isReadmePath (path : string) : bool :=
  let lower := string_of_list_ascii (toLowerCase (chars path)) in
  String.eqb lower "skill.md" || String.eqb lower "skills.md".

(** The loop over [recentCandidates]; [None] is the exception of
    [fetchText]. *)
Fixpoint countSimilar (st : Store) (fingerprint : string)
    (candidates : list Activity) (similarRecentCount : Z) : option Z :=
  match candidates with
  | [] => Some similarRecentCount
  | entry :: rest =>
      match act_latestVersionId entry ≫= (fun id => versions st !! id) with
      | None => countSimilar st fingerprint rest similarRecentCount
      | Some files =>
          match List.find (fun file => isReadmePath (f_path file)) files with
          | None => countSimilar st fingerprint rest similarRecentCount
          | Some candidateReadmeFile =>
              match storage st !! f_storageId candidateReadmeFile with
              | None => None
              | Some candidateText =>
                  countSimilar st fingerprint rest
                    (if String.eqb (toStructuralFingerprint candidateText) fingerprint
                     then similarRecentCount + 1 else similarRecentCount)
              end
          end
      end
  end.

Definition recentCandidates (now : Z) (slug : string)
    (ownerActivity : list Activity) : list Activity :=
  filter (fun entry =>
            act_slug entry <> slug /\
            now - QUALITY_WINDOW_MS <= act_createdAt entry /\
            is_Some (act_latestVersionId entry))
         ownerActivity.

Definition qualityGate (st : Store) (isNewSkill : bool) (now ownerCreatedAt : Z)
    (ownerActivity : list Activity) (slug readmeText : string)
    (summary : option string) : Gate :=
  if isNewSkill then
    let trustTier :=
      getTrustTier (now - ownerCreatedAt) (Z.of_nat (length ownerActivity)) in
    let qualitySignals := computeQualitySignals readmeText summary in
    match countSimilar st (structuralFingerprint qualitySignals)
            (recentCandidates now slug ownerActivity) 0 with
    | None => GateThrew FileMissing
    | Some similarRecentCount =>
        let qualityAssessment :=
          evaluateQuality qualitySignals trustTier similarRecentCount in
        match decision qualityAssessment with
        | reject => GateThrew (Rejected (reason qualityAssessment))
        | _ => GatePassed (Some qualityAssessment)
        end
    end
  else GatePassed None.

(** The README the gate compares a recent skill by: the first file of its
    latest version that is called [skill.md] or [skills.md]. *)
Definition readmeOf (st : Store) (entry : Activity) : option VersionFile :=
  files ← act_latestVersionId entry ≫= (fun id => versions st !! id);
  List.find (fun file => isReadmePath (f_path file)) files.

Definition sameStructure (st : Store) (fingerprint : string) (entry : Activity)
    : bool :=
  match readmeOf st entry ≫= (fun file => storage st !! f_storageId file) with
  | Some text => String.eqb (toStructuralFingerprint text) fingerprint
  | None => false
  end.

Definition blobMissing (st : Store) (candidates : list Activity) : Prop :=
  exists entry file,
    entry ∈ candidates /\ readmeOf st entry = Some file /\
    storage st !! f_storageId file = None.

(* ===================================================================== *)
(** * Part II: theorems                                                    *)
(* ===================================================================== *)

(** ** The quality score and the verdict *)

Lemma Qltb_lt (a b : Q) : Qltb a b = true <-> (a < b)%Q.
Proof.
  unfold Qltb. rewrite negb_true_iff, <- not_true_iff_false, Qle_bool_iff.
  split; [apply Qnot_le_lt | apply Qlt_not_le].
Qed.

Lemma penalty_bool (P : Prop) `{Decision P} (b : bool) (p : Z) :
  (b = true <-> P) -> penalty P p = if b then p else 0.
Proof.
  intros Hb. unfold penalty. destruct (decide P) as [HP | HP], b; try reflexivity.
  - apply Hb in HP. discriminate.
  - exfalso. apply HP, Hb. reflexivity.
Qed.

(** C4.  The score of [scoreQuality] is 100 minus the sum of the penalties
    that apply (28 under 250 characters, 24 under 80 words, 14 under a
    unique-word ratio of 0.45, 10 under 2 headings, 8 under 3 bullets,
    9 per marketing-phrase hit and at most 28, 20 for a generic summary),
    and never below 0. *)
Theorem scoreQuality_penalties (s : QualitySignals) :
  scoreQuality s = Z.max 0 (100 - penaltySum s).
Proof.
  unfold scoreQuality, penaltySum.
  rewrite (penalty_bool _ (bodyChars s <? 250)) by apply Z.ltb_lt.
  rewrite (penalty_bool _ (bodyWords s <? 80)) by apply Z.ltb_lt.
  rewrite (penalty_bool _ (Qltb (uniqueWordRatio s) (45 # 100))) by apply Qltb_lt.
  rewrite (penalty_bool _ (headingCount s <? 2)) by apply Z.ltb_lt.
  rewrite (penalty_bool _ (bulletCount s <? 3)) by apply Z.ltb_lt.
  rewrite (penalty_bool _ (genericSummary s)) by reflexivity.
  rewrite (Z.mul_comm 9).
  destruct (bodyChars s <? 250), (bodyWords s <? 80),
    (Qltb (uniqueWordRatio s) (45 # 100)), (headingCount s <? 2),
    (bulletCount s <? 3), (genericSummary s); f_equal; lia.
Qed.

Lemma scoreQuality_range (s : QualitySignals) :
  0 <= templateMarkerHits s -> 0 <= scoreQuality s <= 100.
Proof.
  intros Hhits. unfold scoreQuality.
  destruct (bodyChars s <? 250), (bodyWords s <? 80),
    (Qltb (uniqueWordRatio s) (45 # 100)), (headingCount s <? 2),
    (bulletCount s <? 3), (genericSummary s); lia.
Qed.

Lemma reasons_differ : REASON_SPAM <> REASON_THIN.
Proof. discriminate. Qed.

(** C3.  [evaluateQuality] rejects exactly when the word count is under
    the floor of the tier, or the character count is under the floor of the
    tier, or there are 3 marketing-phrase hits or more and less than 120
    words, or the duplicate count reaches the ceiling of the tier; the
    reason of a reject is the template-spam one exactly when the duplicate
    trigger fired, and the thin-content one otherwise; without a reject the
    verdict is quarantine exactly when the score is under the ceiling of
    the tier, and pass otherwise. *)
Theorem evaluateQuality_verdict (s : QualitySignals) (tier : TrustTier) (n : Z) :
  let a := evaluateQuality s tier n in
  let duplicates := duplicateCeiling tier <= n in
  let hardReject :=
    bodyWords s < wordFloor tier \/ bodyChars s < charFloor tier \/
    (3 <= templateMarkerHits s /\ bodyWords s < 120) \/ duplicates in
  (decision a = reject <-> hardReject) /\
  (hardReject ->
     (reason a = REASON_SPAM <-> duplicates) /\
     (~ duplicates -> reason a = REASON_THIN)) /\
  (~ hardReject ->
     (decision a = quarantine <-> scoreQuality s < scoreCeiling tier) /\
     (~ scoreQuality s < scoreCeiling tier -> decision a = pass)) /\
  score a = scoreQuality s.
Proof.
  pose proof reasons_differ as Hne.
  unfold evaluateQuality.
  generalize (scoreQuality s) as sc. intros sc.
  destruct tier; cbn -[Z.ltb Z.geb Z.gtb];
    repeat match goal with
    | |- context [Z.ltb ?x ?y] => destruct (Z.ltb_spec x y)
    | |- context [Z.geb ?x ?y] => rewrite (Z.geb_leb x y); destruct (Z.leb_spec y x)
    end; cbn;
    intuition (first [lia | discriminate | congruence | reflexivity | idtac]).
Qed.


(** ** Running the monad *)

Ltac dsimpl := cbn -[lookup insert delete filter].

Ltac mrun :=
  repeat (progress (unfold mbind, M_bind, mret, M_ret, throw, log, readDb,
                    modifyDb; cbn -[lookup insert delete filter])).

Lemma logged_logged (w : World) (t1 t2 : list Op) :
  logged (logged w t1) t2 = logged w (t1 ++ t2).
Proof. unfold logged. cbn. by rewrite <- app_assoc. Qed.

Lemma logged_nil (w : World) : logged w [] = w.
Proof. destruct w. unfold logged. cbn. by rewrite app_nil_r. Qed.

Lemma isEmpty_true (s : string) : isEmpty s = true <-> s = "".
Proof. destruct s; cbn; split; congruence. Qed.

Lemma isEmpty_false (s : string) : isEmpty s = false <-> s <> "".
Proof. destruct s; cbn; split; congruence. Qed.

Lemma visible_active (c : Comment) :
  isCommentVisible c = true -> getCommentStatus c = active.
Proof.
  unfold isCommentVisible. intros [_ H]%andb_true_iff.
  by destruct (getCommentStatus c).
Qed.

Lemma visible_not_removed (c : Comment) :
  isCommentVisible c = true -> isRemoved (getCommentStatus c) = false.
Proof. intros H. by rewrite (visible_active c H). Qed.

(** ** The count of active reports *)

Lemma world_logged (w w1 : World) (t : list Op) :
  db w1 = db w -> trace w1 = (trace w ++ t)%list -> w1 = logged w t.
Proof. destruct w1. unfold logged. cbn. by intros -> ->. Qed.

Lemma countActiveLoop_spec (reports : list Report) :
  forall (n : Z) (w : World),
    n < MAX_ACTIVE_REPORTS_PER_USER ->
    exists t,
      readOnly t /\
      countActiveLoop reports n w =
        (Returned
           (Z.min MAX_ACTIVE_REPORTS_PER_USER
              (n + Z.of_nat
                     (length (filter (fun r => activeReport (db w) r = true) reports)))),
         logged w t).
Proof.
  unfold MAX_ACTIVE_REPORTS_PER_USER.
  induction reports as [| r rest IH]; intros n w Hn.
  - exists []. split; [constructor |]. cbn. rewrite logged_nil.
    unfold mret, M_ret. do 2 f_equal. lia.
  - assert (Hskip : activeReport (db w) r = false ->
      forall w1 t1, readOnly t1 -> db w1 = db w ->
      trace w1 = (trace w ++ t1)%list ->
      exists t, readOnly t /\
        countActiveLoop rest n w1 =
          (Returned (Z.min 20 (n + Z.of_nat (length (filter
             (fun r => activeReport (db w) r = true) (r :: rest))))),
           logged w t)).
    { intros Hr w1 t1 Ht1 Hdb Htr. rewrite (world_logged w w1 t1 Hdb Htr).
      destruct (IH n (logged w t1) Hn) as (t & Ht & ->).
      exists (t1 ++ t)%list. split; [by apply Forall_app |].
      rewrite logged_logged, filter_cons_False by congruence. done. }
    cbn [countActiveLoop]. unfold getComment, getUser. mrun.
    destruct (comments (db w) !! r_commentId r) as [c |] eqn:Hc; dsimpl.
    2: { eapply Hskip; [| | reflexivity | reflexivity].
         - unfold activeReport. by rewrite Hc.
         - by repeat constructor. }
    destruct (isCommentVisible c) eqn:Hv; dsimpl.
    2: { eapply Hskip; [| | reflexivity | reflexivity].
         - unfold activeReport. by rewrite Hc, Hv.
         - by repeat constructor. }
    mrun.
    destruct (users (db w) !! c_userId c) as [o |] eqn:Ho; dsimpl.
    2: { assert (Hf : activeReport (db w) r = false).
         { unfold activeReport. by rewrite Hc, Hv, Ho. }
         apply (Hskip Hf _ [GetComment (r_commentId r); GetUser (c_userId c)]);
           [by repeat constructor | done | by cbn; rewrite <- app_assoc]. }
    destruct (truthy (u_deletedAt o) || truthy (u_deactivatedAt o)) eqn:Hd; dsimpl.
    { assert (Hf : activeReport (db w) r = false).
      { unfold activeReport. rewrite Hc, Hv, Ho. cbn.
        apply orb_true_iff in Hd as [-> | ->]; cbn; [done |].
        by rewrite andb_false_r. }
      apply (Hskip Hf _ [GetComment (r_commentId r); GetUser (c_userId c)]);
        [by repeat constructor | done | by cbn; rewrite <- app_assoc]. }
    apply orb_false_iff in Hd as [Hd1 Hd2].
    assert (Hact : activeReport (db w) r = true).
    { unfold activeReport. by rewrite Hc, Hv, Ho, Hd1, Hd2. }
    rewrite filter_cons_True by done. cbn [length].
    change MAX_ACTIVE_REPORTS_PER_USER with 20.
    set (ops := [GetComment (r_commentId r); GetUser (c_userId c)]).
    assert (Hw : mkWorld (db w)
                   ((trace w ++ [GetComment (r_commentId r)]) ++
                    [GetUser (c_userId c)]) = logged w ops).
    { unfold logged, ops. by rewrite <- app_assoc. }
    assert (Hops : readOnly ops) by (by repeat constructor).
    rewrite Hw.
    destruct (Z.geb_spec (n + 1) 20) as [Hge | Hlt].
    + exists ops. split; [done |]. do 2 f_equal. lia.
    + destruct (IH (n + 1) (logged w ops)) as (t & Ht & Heq); [lia |].
      exists (ops ++ t)%list. split; [by apply Forall_app |].
      rewrite Heq, logged_logged. cbn [db logged]. do 3 f_equal. lia.
Qed.

Lemma countActiveReportsForUser_spec (userId : Id) (w : World) :
  exists t,
    readOnly t /\
    countActiveReportsForUser userId w =
      (Returned (Z.min MAX_ACTIVE_REPORTS_PER_USER
                       (Z.of_nat (activeReportCount (db w) userId))),
       logged w (QueryByUser userId :: t)).
Proof.
  unfold countActiveReportsForUser, collectByUser. mrun.
  destruct (countActiveLoop_spec
              (filter (fun r => r_userId r = userId) (commentReports (db w))) 0
              (logged w [QueryByUser userId])) as (t & Ht & Heq); [done |].
  exists t. split; [done |].
  unfold logged in Heq at 1. rewrite Heq, logged_logged. done.
Qed.

(** ** The paths of [reportHandler] *)

Section ReportPaths.
Context (ctx : Ctx) (user : User) (commentId : Id) (reason : string) (w : World).
Hypothesis Hsession : session ctx = Some user.

Lemma report_unauthorized (ctx' : Ctx) :
  session ctx' = None ->
  reportHandler ctx' commentId reason w = (Threw Unauthorized, w).
Proof. intros H. unfold reportHandler, requireUser. rewrite H. done. Qed.

Lemma report_missing :
  comments (db w) !! commentId = None ->
  reportHandler ctx commentId reason w =
    (Threw CommentNotFound, logged w [GetComment commentId]).
Proof.
  intros Hc. unfold reportHandler, requireUser, getComment.
  rewrite Hsession. mrun. by rewrite Hc.
Qed.

Lemma report_removed (c : Comment) :
  comments (db w) !! commentId = Some c ->
  getCommentStatus c = removed ->
  reportHandler ctx commentId reason w =
    (Threw CommentNotFound, logged w [GetComment commentId]).
Proof.
  intros Hc Hr. unfold reportHandler, requireUser, getComment.
  rewrite Hsession. mrun. rewrite Hc. dsimpl. by rewrite Hr.
Qed.

Lemma report_hidden (c : Comment) :
  comments (db w) !! commentId = Some c ->
  getCommentStatus c <> removed ->
  isCommentVisible c = false ->
  reportHandler ctx commentId reason w =
    (Threw AlreadyHidden, logged w [GetComment commentId]).
Proof.
  intros Hc Hr Hv. unfold reportHandler, requireUser, getComment.
  rewrite Hsession. mrun. rewrite Hc. dsimpl. rewrite Hv.
  by destruct (getCommentStatus c).
Qed.

Lemma report_blank (c : Comment) :
  comments (db w) !! commentId = Some c ->
  isCommentVisible c = true ->
  trim reason = "" ->
  reportHandler ctx commentId reason w =
    (Threw ReasonRequired, logged w [GetComment commentId]).
Proof.
  intros Hc Hv Hb. unfold reportHandler, requireUser, getComment.
  rewrite Hsession. mrun. rewrite Hc. dsimpl.
  by rewrite (visible_not_removed c Hv), Hv, Hb.
Qed.

(** Past the three guards, the handler asks for the report of the pair. *)
Lemma report_lookup (c : Comment) :
  comments (db w) !! commentId = Some c ->
  isCommentVisible c = true ->
  trim reason <> "" ->
  reportHandler ctx commentId reason w =
    match reportsOfPair (db w) commentId (u_id user) with
    | [] =>
        (activeReports ← countActiveReportsForUser (u_id user);
         if activeReports >=? MAX_ACTIVE_REPORTS_PER_USER
         then throw ReportLimitReached
         else
           _ ← insertReport commentId (c_skillId c) (u_id user)
                 (substring 0 500 (trim reason)) (now ctx);
           _ ← patchComment commentId
                 (reportPatch (now ctx) (nextCount c)
                    (crossesThreshold c && isCommentVisible c));
           _ ← (if crossesThreshold c && isCommentVisible c then
                  _ ← insertStatEvent (autoHideStat c);
                  insertAuditLog (autoHideAudit (u_id user) commentId c (now ctx))
                else mret tt);
           mret REPORTED)
          (logged w [GetComment commentId;
                     QueryByCommentUser commentId (u_id user)])
    | [_] =>
        (Returned ALREADY_REPORTED,
         logged w [GetComment commentId;
                   QueryByCommentUser commentId (u_id user)])
    | _ =>
        (Threw NotUnique,
         logged w [GetComment commentId;
                   QueryByCommentUser commentId (u_id user)])
    end.
Proof.
  intros Hc Hv Hb%isEmpty_false.
  unfold reportHandler, requireUser, getComment, uniqueByCommentUser.
  rewrite Hsession. mrun. rewrite Hc. dsimpl.
  rewrite (visible_not_removed c Hv), Hv, Hb. mrun.
  unfold reportsOfPair, logged. rewrite <- app_assoc. cbn [app].
  destruct (filter _ (commentReports (db w))) as [| r1 [| r2 l]]; done.
Qed.

Lemma report_existing (c : Comment) (r : Report) :
  comments (db w) !! commentId = Some c ->
  isCommentVisible c = true ->
  trim reason <> "" ->
  reportsOfPair (db w) commentId (u_id user) = [r] ->
  reportHandler ctx commentId reason w =
    (Returned ALREADY_REPORTED,
     logged w [GetComment commentId; QueryByCommentUser commentId (u_id user)]).
Proof. intros Hc Hv Hb Hr. by rewrite (report_lookup c Hc Hv Hb), Hr. Qed.

Lemma report_limit (c : Comment) :
  comments (db w) !! commentId = Some c ->
  isCommentVisible c = true ->
  trim reason <> "" ->
  reportsOfPair (db w) commentId (u_id user) = [] ->
  (20 <= activeReportCount (db w) (u_id user))%nat ->
  exists t,
    readOnly t /\
    reportHandler ctx commentId reason w =
      (Threw ReportLimitReached,
       logged w ([GetComment commentId;
                  QueryByCommentUser commentId (u_id user);
                  QueryByUser (u_id user)] ++ t)).
Proof.
  intros Hc Hv Hb Hr Hn. rewrite (report_lookup c Hc Hv Hb), Hr.
  destruct (countActiveReportsForUser_spec (u_id user)
              (logged w [GetComment commentId;
                         QueryByCommentUser commentId (u_id user)]))
    as (t & Ht & Heq).
  exists t. split; [done |].
  unfold mbind at 1, M_bind at 1. rewrite Heq. cbn [db logged].
  unfold MAX_ACTIVE_REPORTS_PER_USER.
  destruct (Z.geb_spec (Z.min 20 (Z.of_nat (activeReportCount (db w) (u_id user)))) 20);
    [| lia].
  unfold throw. by rewrite logged_logged.
Qed.

Lemma report_fresh_full (c : Comment) :
  comments (db w) !! commentId = Some c ->
  isCommentVisible c = true ->
  trim reason <> "" ->
  reportsOfPair (db w) commentId (u_id user) = [] ->
  (activeReportCount (db w) (u_id user) < 20)%nat ->
  let r := newReport (db w) commentId c (u_id user) reason (now ctx) in
  let hide := crossesThreshold c in
  exists t w',
    readOnly t /\
    reportHandler ctx commentId reason w = (Returned REPORTED, w') /\
    trace w' =
      (trace w ++
       [GetComment commentId; QueryByCommentUser commentId (u_id user);
        QueryByUser (u_id user)] ++ t ++
       [InsertReport r; PatchComment commentId] ++
       (if hide then [InsertStatEvent (autoHideStat c);
                      InsertAuditLog (autoHideAudit (u_id user) commentId c (now ctx))]
        else []))%list /\
    comments (db w') =
      <[commentId := reportPatch (now ctx) (nextCount c) hide c]> (comments (db w)) /\
    users (db w') = users (db w) /\
    commentReports (db w') = (commentReports (db w) ++ [r])%list /\
    statEvents (db w') =
      (statEvents (db w) ++ if hide then [autoHideStat c] else [])%list /\
    auditLogs (db w') =
      (auditLogs (db w) ++
       if hide then [autoHideAudit (u_id user) commentId c (now ctx)] else [])%list.
Proof.
  intros Hc Hv Hb Hr Hn r hide. rewrite (report_lookup c Hc Hv Hb), Hr.
  destruct (countActiveReportsForUser_spec (u_id user)
              (logged w [GetComment commentId;
                         QueryByCommentUser commentId (u_id user)]))
    as (t & Ht & Heq).
  exists t. unfold mbind at 1, M_bind at 1. rewrite Heq. cbn [db logged].
  unfold MAX_ACTIVE_REPORTS_PER_USER.
  destruct (Z.geb_spec (Z.min 20 (Z.of_nat (activeReportCount (db w) (u_id user)))) 20);
    [lia |].
  unfold insertReport, patchComment, insertStatEvent, insertAuditLog.
  rewrite Hv, andb_true_r. fold hide. mrun. rewrite Hc.
  destruct hide; mrun; eexists; (split; [done |]); (split; [reflexivity |]);
    dsimpl; rewrite ?app_nil_r, <- ?app_assoc; done.
Qed.

Lemma report_fresh (c : Comment) :
  comments (db w) !! commentId = Some c ->
  isCommentVisible c = true ->
  trim reason <> "" ->
  reportsOfPair (db w) commentId (u_id user) = [] ->
  (activeReportCount (db w) (u_id user) < 20)%nat ->
  exists w',
    reportHandler ctx commentId reason w = (Returned REPORTED, w') /\
    reportEffects ctx user commentId c reason w w'.
Proof.
  intros Hc Hv Hb Hr Hn.
  destruct (report_fresh_full c Hc Hv Hb Hr Hn) as (t & w' & Ht & Heq & Htr & H).
  exists w'. split; [done |]. split; [by exists t | done].
Qed.
End ReportPaths.

(** Every call either leaves the tables alone and writes nothing, or it
    is a report that goes through. *)
Lemma report_outcome (ctx : Ctx) (commentId : Id) (reason : string) (w : World) :
  let step := reportHandler ctx commentId reason w in
  (fst step <> Returned REPORTED /\ db (snd step) = db w /\
   exists t, readOnly t /\ snd step = logged w t) \/
  (fst step = Returned REPORTED /\
   exists user c,
     session ctx = Some user /\ comments (db w) !! commentId = Some c /\
     isCommentVisible c = true /\
     reportEffects ctx user commentId c reason w (snd step)).
Proof.
  cbn zeta.
  destruct (session ctx) as [user |] eqn:Hs.
  2: { left. rewrite report_unauthorized by done. cbn. split; [discriminate |].
       split; [done |]. exists []. split; [constructor | by rewrite logged_nil]. }
  assert (Hread : readOnly [GetComment commentId]) by (by repeat constructor).
  destruct (comments (db w) !! commentId) as [c |] eqn:Hc.
  2: { left. rewrite (report_missing ctx user) by done. cbn. eauto. }
  destruct (decide (getCommentStatus c = removed)) as [Hr | Hr].
  { left. rewrite (report_removed ctx user _ _ _ Hs c) by done. cbn. eauto. }
  destruct (isCommentVisible c) eqn:Hv.
  2: { left. rewrite (report_hidden ctx user _ _ _ Hs c) by done. cbn. eauto. }
  destruct (decide (trim reason = "")) as [Hb | Hb].
  { left. rewrite (report_blank ctx user _ _ _ Hs c) by done. cbn. eauto. }
  assert (Hread2 : readOnly [GetComment commentId;
                             QueryByCommentUser commentId (u_id user)])
    by (by repeat constructor).
  destruct (reportsOfPair (db w) commentId (u_id user)) as [| r1 [| r2 l]] eqn:Hp.
  - destruct (le_lt_dec 20 (activeReportCount (db w) (u_id user))) as [Hn | Hn].
    + left. destruct (report_limit ctx user _ _ _ Hs c Hc Hv Hb Hp Hn)
        as (t & Ht & ->). cbn. split; [done |]. split; [done |].
      eexists. split; [| reflexivity]. by repeat constructor.
    + right. destruct (report_fresh ctx user _ _ _ Hs c Hc Hv Hb Hp Hn)
        as (w' & -> & He). cbn. split; [done |]. eauto 10.
  - left. rewrite (report_lookup ctx user _ _ _ Hs c Hc Hv Hb), Hp. cbn. eauto.
  - left. rewrite (report_lookup ctx user _ _ _ Hs c Hc Hv Hb), Hp. cbn. eauto.
Qed.


(** ** Sequences of reports against one comment *)

Lemma report_not_visible_frame (ctx : Ctx) (commentId : Id) (reason : string)
    (w : World) (c : Comment) :
  comments (db w) !! commentId = Some c ->
  isCommentVisible c = false ->
  db (snd (reportHandler ctx commentId reason w)) = db w.
Proof.
  intros Hc Hv.
  destruct (report_outcome ctx commentId reason w)
    as [(_ & Hdb & _) | (_ & user & c' & _ & Hc' & Hv' & _)]; [done |].
  congruence.
Qed.

Lemma runReports_not_visible (commentId : Id) (calls : list ReportCall) :
  forall (w : World) (c : Comment),
    comments (db w) !! commentId = Some c ->
    isCommentVisible c = false ->
    db (snd (runReports commentId calls w)) = db w.
Proof.
  induction calls as [| call rest IH]; intros w c Hc Hv; [done |].
  cbn [runReports snd].
  pose proof (report_not_visible_frame (call_ctx call) commentId
                (call_reason call) w c Hc Hv) as Hdb.
  rewrite (IH _ c); [done | by rewrite Hdb | done].
Qed.

Lemma runReports_hidden (commentId : Id) (calls : list ReportCall) :
  forall (w : World) (c : Comment),
    comments (db w) !! commentId = Some c ->
    isCommentVisible c = false ->
    getCommentStatus c <> removed ->
    Forall authenticated calls ->
    fst (runReports commentId calls w) = map (fun _ => Threw AlreadyHidden) calls.
Proof.
  induction calls as [| call rest IH]; intros w c Hc Hv Hr Hauth; [done |].
  apply Forall_cons in Hauth as [[user Hs] Hauth].
  cbn [runReports fst map].
  pose proof (report_not_visible_frame (call_ctx call) commentId
                (call_reason call) w c Hc Hv) as Hdb.
  rewrite (IH _ c); [| by rewrite Hdb | done | done | done].
  by rewrite (report_hidden (call_ctx call) user _ _ _ Hs c).
Qed.

Lemma reportPatch_hidden (now n : Z) (c : Comment) :
  isCommentVisible (reportPatch now n true c) = false.
Proof. unfold isCommentVisible, getCommentStatus. cbn. apply andb_false_r. Qed.

(** As long as the comment is still visible at the end of a run, the run
    has emitted no stat event and no audit entry. *)
Lemma runReports_visible_frame (commentId : Id) (calls : list ReportCall) :
  forall (w : World) (c : Comment),
    comments (db (snd (runReports commentId calls w))) !! commentId = Some c ->
    isCommentVisible c = true ->
    statEvents (db (snd (runReports commentId calls w))) = statEvents (db w) /\
    auditLogs (db (snd (runReports commentId calls w))) = auditLogs (db w).
Proof.
  induction calls as [| call rest IH]; intros w c Hc Hv; [done |].
  cbn [runReports snd] in *.
  destruct (IH _ c Hc Hv) as [-> ->].
  destruct (report_outcome (call_ctx call) commentId (call_reason call) w)
    as [(_ & Hdb & _) | (_ & user & c0 & _ & Hc0 & Hv0 & He)].
  { by rewrite Hdb. }
  destruct He as (_ & Hcs & _ & _ & Hst & Hau).
  destruct (crossesThreshold c0) eqn:Hhide.
  - exfalso.
    set (w1 := snd (reportHandler (call_ctx call) commentId (call_reason call) w)) in *.
    assert (Hc1 : comments (db w1) !! commentId =
                  Some (reportPatch (now (call_ctx call)) (nextCount c0) true c0)).
    { rewrite Hcs. apply lookup_insert_eq. }
    pose proof (runReports_not_visible commentId rest w1 _ Hc1
                  (reportPatch_hidden _ _ _)) as Hdb.
    rewrite Hdb, Hc1 in Hc. injection Hc as Hc. subst c.
    pose proof (reportPatch_hidden (now (call_ctx call)) (nextCount c0) c0).
    unfold reportPatch in H. congruence.
  - by rewrite Hst, Hau, !app_nil_r.
Qed.

(** C1.  In a run of report calls against one comment, take the call
    whose report is inserted and brings the report count of the comment
    above 3.  That very call hides the comment with reason [auto.reports],
    and its writes are the report, the patch, one [uncomment] stat event
    and one audit entry; they are the only stat event and audit entry of
    the whole run, and every later call fails with "already hidden" and
    leaves the tables as they are. *)
Theorem report_auto_hide_exactly_once (commentId : Id)
    (before after : list ReportCall) (call : ReportCall) (w0 : World) (c : Comment) :
  let w1 := snd (runReports commentId before w0) in
  let step := reportHandler (call_ctx call) commentId (call_reason call) w1 in
  let w2 := snd step in
  let final := runReports commentId after w2 in
  comments (db w1) !! commentId = Some c ->
  fst step = Returned REPORTED ->
  AUTO_HIDE_REPORT_THRESHOLD < nextCount c ->
  Forall authenticated after ->
  exists user c2 reads,
    session (call_ctx call) = Some user /\
    comments (db w2) !! commentId = Some c2 /\
    c_moderationStatus c2 = Some hidden /\
    c_moderationReason c2 = Some "auto.reports" /\
    c_reportCount c2 = Some (nextCount c) /\
    isCommentVisible c2 = false /\
    let stat := autoHideStat c in
    let audit := autoHideAudit (u_id user) commentId c (now (call_ctx call)) in
    let r := newReport (db w1) commentId c (u_id user) (call_reason call)
                       (now (call_ctx call)) in
    readOnly reads /\
    trace w2 = (trace w1 ++ reads ++
                [InsertReport r; PatchComment commentId;
                 InsertStatEvent stat; InsertAuditLog audit])%list /\
    statEvents (db w2) = (statEvents (db w0) ++ [stat])%list /\
    auditLogs (db w2) = (auditLogs (db w0) ++ [audit])%list /\
    fst final = map (fun _ => Threw AlreadyHidden) after /\
    db (snd final) = db w2.
Proof.
  intros w1 step w2 final Hc Hstep Hcross Hauth.
  destruct (report_outcome (call_ctx call) commentId (call_reason call) w1)
    as [(Hne & _) | (_ & user & c0 & Hs & Hc0 & Hv0 & He)]; [done |].
  fold step w2 in He. rewrite Hc in Hc0. injection Hc0 as <-.
  assert (Hhide : crossesThreshold c = true).
  { unfold crossesThreshold. by apply Z.gtb_lt. }
  destruct He as ((t & Ht & Htr) & Hcs & _ & _ & Hst & Hau).
  rewrite Hhide in *.
  set (c2 := reportPatch (now (call_ctx call)) (nextCount c) true c) in *.
  assert (Hc2 : comments (db w2) !! commentId = Some c2).
  { rewrite Hcs. apply lookup_insert_eq. }
  destruct (runReports_visible_frame commentId before w0 c Hc Hv0) as [Hst0 Hau0].
  fold w1 in Hst0, Hau0.
  exists user, c2,
    ([GetComment commentId; QueryByCommentUser commentId (u_id user);
      QueryByUser (u_id user)] ++ t)%list.
  cbn zeta. split_and!.
  - done.
  - done.
  - done.
  - done.
  - done.
  - apply reportPatch_hidden.
  - apply Forall_app. split; [by repeat constructor | done].
  - rewrite Htr. by rewrite <- !app_assoc.
  - by rewrite Hst, Hst0.
  - by rewrite Hau, Hau0.
  - apply (runReports_hidden commentId after w2 c2 Hc2); [| done | done].
    apply reportPatch_hidden.
  - apply (runReports_not_visible commentId after w2 c2 Hc2), reportPatch_hidden.
Qed.


(** A report that goes through is then the one report of its pair. *)
Lemma reportEffects_pair (ctx : Ctx) (user : User) (commentId : Id) (c : Comment)
    (reason : string) (w w' : World) :
  reportsOfPair (db w) commentId (u_id user) = [] ->
  reportEffects ctx user commentId c reason w w' ->
  reportsOfPair (db w') commentId (u_id user) =
    [newReport (db w) commentId c (u_id user) reason (now ctx)].
Proof.
  intros Hp (_ & _ & _ & Hr & _). unfold reportsOfPair in *.
  rewrite Hr, filter_app, Hp. cbn [app].
  rewrite filter_cons_True by done. done.
Qed.

(** ** One report per comment and reporter *)

Lemma reported_new_pair (ctx : Ctx) (user : User) (commentId : Id)
    (reason : string) (w : World) :
  session ctx = Some user ->
  fst (reportHandler ctx commentId reason w) = Returned REPORTED ->
  reportsOfPair (db w) commentId (u_id user) = [].
Proof.
  intros Hs Hrep.
  destruct (report_outcome ctx commentId reason w)
    as [(Hne & _) | (_ & user' & c & Hs' & Hc & Hv & _)]; [done |].
  assert (user' = user) as -> by congruence.
  destruct (decide (trim reason = "")) as [Hb | Hb].
  { by rewrite (report_blank ctx user _ _ _ Hs c) in Hrep. }
  rewrite (report_lookup ctx user _ _ _ Hs c Hc Hv Hb) in Hrep.
  by destruct (reportsOfPair (db w) commentId (u_id user)) as [| r1 [| r2 l]].
Qed.

Lemma report_preserves_uniquePairs (ctx : Ctx) (commentId : Id)
    (reason : string) (w : World) :
  uniquePairs (db w) ->
  uniquePairs (db (snd (reportHandler ctx commentId reason w))).
Proof.
  intros Hu.
  destruct (report_outcome ctx commentId reason w)
    as [(_ & Hdb & _) | (Hrep & user & c & Hs & Hc & Hv & He)].
  { by rewrite Hdb. }
  pose proof (reported_new_pair ctx user commentId reason w Hs Hrep) as Hp.
  destruct He as (_ & _ & _ & Hr & _).
  intros cid uid. unfold reportsOfPair. rewrite Hr, filter_app, length_app.
  fold (reportsOfPair (db w) cid uid).
  destruct (decide (cid = commentId /\ uid = u_id user)) as [[-> ->] | Hne].
  - rewrite Hp. cbn [length]. rewrite filter_cons_True by done. cbn. lia.
  - rewrite filter_cons_False; [cbn; specialize (Hu cid uid); lia |].
    cbn. intros [<- <-]. by apply Hne.
Qed.

Lemma runReports_preserves_uniquePairs (commentId : Id) (calls : list ReportCall) :
  forall w : World,
    uniquePairs (db w) -> uniquePairs (db (snd (runReports commentId calls w))).
Proof.
  induction calls as [| call rest IH]; intros w Hu; [done |].
  cbn [runReports snd]. by apply IH, report_preserves_uniquePairs.
Qed.

(** Under the invariant, a report on file is the one report of its pair. *)
Lemma uniquePairs_on_file (d : Db) (r : Report) :
  uniquePairs d ->
  r ∈ commentReports d ->
  reportsOfPair d (r_commentId r) (r_userId r) = [r].
Proof.
  intros Hu Hr. specialize (Hu (r_commentId r) (r_userId r)).
  assert (Hin : r ∈ reportsOfPair d (r_commentId r) (r_userId r)).
  { unfold reportsOfPair. by apply list_elem_of_filter. }
  destruct (reportsOfPair d (r_commentId r) (r_userId r)) as [| r1 [| r2 l]].
  - by apply elem_of_nil in Hin.
  - by apply list_elem_of_singleton in Hin as ->.
  - cbn in Hu. lia.
Qed.

(** ** Repeated reports *)

(** One call by a reporter whose report for the comment is on file. *)
Lemma report_again (ctx : Ctx) (user : User) (commentId : Id) (reason : string)
    (w : World) (r : Report) :
  session ctx = Some user ->
  reportsOfPair (db w) commentId (u_id user) = [r] ->
  let step := reportHandler ctx commentId reason w in
  (snd step = logged w [GetComment commentId] /\
   exists e, fst step = Threw e /\ e <> ReportLimitReached) \/
  (step = (Returned ALREADY_REPORTED,
           logged w [GetComment commentId;
                     QueryByCommentUser commentId (u_id user)]) /\
   exists c, comments (db w) !! commentId = Some c /\
             isCommentVisible c = true /\ trim reason <> "").
Proof.
  intros Hs Hp. cbn zeta.
  destruct (comments (db w) !! commentId) as [c |] eqn:Hc.
  2: { left. rewrite (report_missing ctx user) by done. cbn. eauto. }
  destruct (decide (getCommentStatus c = removed)) as [Hr | Hr].
  { left. rewrite (report_removed ctx user _ _ _ Hs c) by done. cbn. eauto. }
  destruct (isCommentVisible c) eqn:Hv.
  2: { left. rewrite (report_hidden ctx user _ _ _ Hs c) by done. cbn. eauto. }
  destruct (decide (trim reason = "")) as [Hb | Hb].
  { left. rewrite (report_blank ctx user _ _ _ Hs c) by done. cbn. eauto. }
  right. rewrite (report_existing ctx user _ _ _ Hs c r) by done. eauto.
Qed.

(** C2, as amended.  Once the report of a reporter for a comment is on
    file, any number of further report calls by that reporter for that
    comment write nothing: the tables stay as they are and the calls only
    read.  While the comment is visible, each of these calls that gives a
    non-blank reason returns [{reported: false, alreadyReported: true}]. *)
Theorem repeated_report_idempotent (commentId : Id) (user : User)
    (calls : list ReportCall) (w : World) (r : Report) :
  reportsOfPair (db w) commentId (u_id user) = [r] ->
  Forall (fun call => session (call_ctx call) = Some user) calls ->
  let run := runReports commentId calls w in
  db (snd run) = db w /\
  (exists t, readOnly t /\ snd run = logged w t) /\
  (forall c, comments (db w) !! commentId = Some c ->
             isCommentVisible c = true ->
             Forall2 (fun call o =>
                        trim (call_reason call) <> "" ->
                        o = Returned ALREADY_REPORTED)
                     calls (fst run)).
Proof.
  intros Hp Hcalls. cbn zeta. revert w Hp.
  induction Hcalls as [| call rest Hs _ IH]; intros w Hp.
  { cbn. split; [done |]. split; [| by constructor].
    exists []. split; [constructor | by rewrite logged_nil]. }
  cbn [runReports fst snd].
  set (step := reportHandler (call_ctx call) commentId (call_reason call) w).
  assert (Hstep : exists t, readOnly t /\ snd step = logged w t /\
            (forall c, comments (db w) !! commentId = Some c ->
                       isCommentVisible c = true ->
                       trim (call_reason call) <> "" ->
                       fst step = Returned ALREADY_REPORTED)).
  { destruct (report_again (call_ctx call) user commentId (call_reason call) w r Hs Hp)
      as [(Hw & e & He & _) | (Heq & _)]; fold step in Hw || fold step in Heq.
    - exists [GetComment commentId]. split; [by repeat constructor |].
      split; [done |]. intros c Hc Hv Hb. exfalso.
      unfold step in He.
      rewrite (report_existing (call_ctx call) user _ _ _ Hs c r) in He by done.
      done.
    - exists [GetComment commentId; QueryByCommentUser commentId (u_id user)].
      split; [by repeat constructor |]. rewrite Heq. done. }
  destruct Hstep as (t1 & Ht1 & Hw1 & Hout).
  assert (Hdb : db (snd step) = db w) by (by rewrite Hw1).
  destruct (IH (snd step)) as (Hdb' & (t2 & Ht2 & Hw2) & Hall).
  { by rewrite Hdb. }
  split; [by rewrite Hdb' |]. split.
  - exists (t1 ++ t2)%list. split; [by apply Forall_app |].
    by rewrite Hw2, Hw1, logged_logged.
  - intros c Hc Hv. constructor; [by apply (Hout c) |].
    apply (Hall c); [by rewrite Hdb | done].
Qed.

(** C9, as amended.  A reporter whose report for the comment is on file never meets
    the rate limit on calling again, whatever the number of their active
    reports: the call reads the comment and, past the guards on the comment
    and on the reason, the report of the pair, and stops there with the
    already-reported result; the reports of the reporter are not scanned
    and nothing is written. *)
Theorem repeated_report_skips_cap (ctx : Ctx) (user : User) (commentId : Id)
    (reason : string) (w : World) (r : Report) :
  session ctx = Some user ->
  reportsOfPair (db w) commentId (u_id user) = [r] ->
  let step := reportHandler ctx commentId reason w in
  fst step <> Threw ReportLimitReached /\
  (snd step = logged w [GetComment commentId] \/
   snd step = logged w [GetComment commentId;
                        QueryByCommentUser commentId (u_id user)]) /\
  (forall c, comments (db w) !! commentId = Some c ->
             isCommentVisible c = true ->
             trim reason <> "" ->
             step = (Returned ALREADY_REPORTED,
                     logged w [GetComment commentId;
                               QueryByCommentUser commentId (u_id user)])).
Proof.
  intros Hs Hp. cbn zeta.
  destruct (report_again ctx user commentId reason w r Hs Hp)
    as [(Hw & e & He & Hne) | (Heq & _)].
  - split; [rewrite He; congruence |]. split; [by left |].
    intros c Hc Hv Hb. apply (report_existing ctx user _ _ _ Hs c r); done.
  - rewrite Heq. cbn. split; [done |]. split; [by right | done].
Qed.

(** ** The rate limit *)

Lemma activeReport_true (d : Db) (r : Report) :
  activeReport d r = true <->
  exists c author,
    comments d !! r_commentId r = Some c /\ isCommentVisible c = true /\
    users d !! c_userId c = Some author /\
    truthy (u_deletedAt author) = false /\
    truthy (u_deactivatedAt author) = false.
Proof.
  unfold activeReport. split.
  - destruct (comments d !! r_commentId r) as [c |]; [| done].
    destruct (users d !! c_userId c) as [author |] eqn:Hauthor;
      [| by rewrite andb_false_r].
    rewrite !andb_true_iff, !negb_true_iff. intros (? & ? & ?).
    by exists c, author.
  - intros (c & author & -> & -> & -> & -> & ->). done.
Qed.

(** C7.  A reporter with 20 active reports or more who
    calls for a comment they have not reported writes nothing, whatever the
    outcome.  When the call passes the guards that come first (the comment
    is visible and the reason is not blank) it fails with the rate-limit
    error exactly when the reporter has 20 active reports or more, and goes
    through below 20.  A report is active when its comment is visible and
    the author of that comment is neither deleted nor deactivated
    ([activeReport_true]), so reports on hidden or removed comments and on
    comments of deactivated authors do not count. *)
Theorem report_rate_limit (ctx : Ctx) (user : User) (commentId : Id)
    (reason : string) (w : World) :
  session ctx = Some user ->
  reportsOfPair (db w) commentId (u_id user) = [] ->
  let step := reportHandler ctx commentId reason w in
  let active := activeReportCount (db w) (u_id user) in
  ((Z.to_nat MAX_ACTIVE_REPORTS_PER_USER <= active)%nat ->
   db (snd step) = db w /\ exists t, readOnly t /\ snd step = logged w t) /\
  (forall c,
     comments (db w) !! commentId = Some c ->
     isCommentVisible c = true ->
     trim reason <> "" ->
     (fst step = Threw ReportLimitReached <->
      (Z.to_nat MAX_ACTIVE_REPORTS_PER_USER <= active)%nat) /\
     ((active < Z.to_nat MAX_ACTIVE_REPORTS_PER_USER)%nat ->
      fst step = Returned REPORTED)).
Proof.
  intros Hs Hp. cbn zeta.
  change (Z.to_nat MAX_ACTIVE_REPORTS_PER_USER) with 20%nat.
  split.
  - intros Hn.
    destruct (report_outcome ctx commentId reason w)
      as [(_ & Hdb & Ht) | (Hrep & user' & c & Hs' & Hc & Hv & He)]; [done |].
    exfalso. assert (user' = user) as -> by congruence.
    destruct (decide (trim reason = "")) as [Hb | Hb].
    + rewrite (report_blank ctx user _ _ _ Hs c) in Hrep by done. done.
    + destruct (report_limit ctx user _ _ _ Hs c Hc Hv Hb Hp Hn) as (t & _ & Heq).
      rewrite Heq in Hrep. done.
  - intros c Hc Hv Hb.
    destruct (le_lt_dec 20 (activeReportCount (db w) (u_id user))) as [Hn | Hn].
    + destruct (report_limit ctx user _ _ _ Hs c Hc Hv Hb Hp Hn) as (t & Ht & ->).
      cbn [fst snd]. split; [done | lia].
    + destruct (report_fresh ctx user _ _ _ Hs c Hc Hv Hb Hp Hn) as (w' & -> & _).
      cbn [fst snd]. split; [| done]. split; [discriminate | lia].
Qed.

(** ** A blank reason *)

(** C6, as amended.  A report call whose reason trims to the empty string
    reads the target comment and nothing else, and writes nothing; it
    fails with the validation error when the comment is visible, with "not
    found" when the comment is missing or removed, and with "already
    hidden" otherwise.  The report of the pair and the reports of the
    reporter are not looked up. *)
Theorem report_blank_reason (ctx : Ctx) (user : User) (commentId : Id)
    (reason : string) (w : World) :
  session ctx = Some user ->
  trim reason = "" ->
  let step := reportHandler ctx commentId reason w in
  snd step = logged w [GetComment commentId] /\
  fst step =
    Threw match comments (db w) !! commentId with
          | None => CommentNotFound
          | Some c =>
              if isCommentVisible c then ReasonRequired
              else if isRemoved (getCommentStatus c) then CommentNotFound
              else AlreadyHidden
          end.
Proof.
  intros Hs Hb. cbn zeta.
  destruct (comments (db w) !! commentId) as [c |] eqn:Hc.
  2: { by rewrite (report_missing ctx user). }
  destruct (isCommentVisible c) eqn:Hv.
  { by rewrite (report_blank ctx user _ _ _ Hs c). }
  destruct (decide (getCommentStatus c = removed)) as [Hr | Hr].
  - rewrite (report_removed ctx user _ _ _ Hs c) by done. by rewrite Hr.
  - rewrite (report_hidden ctx user _ _ _ Hs c) by done.
    by destruct (getCommentStatus c).
Qed.

(** ** Requests that change nothing visible *)

(** C5, as amended.  Deleting a comment that is no longer visible writes
    nothing.  A moderator restore of a visible comment, and a moderator
    hide of a comment that is not visible, emit no stat event, but they do
    write: the comment is patched and one audit entry is appended. *)
Theorem noop_requests (acc : Access) (ctx : Ctx) (user : User) (commentId : Id)
    (c : Comment) (w : World) :
  session ctx = Some user ->
  comments (db w) !! commentId = Some c ->
  (isCommentVisible c = false ->
   removeHandler acc ctx commentId w =
     (Returned tt, logged w [GetComment commentId])) /\
  (forall deleted : bool,
     moderatorGate acc user = true ->
     isCommentVisible c = negb deleted ->
     let audit :=
       mkAuditLog (u_id user)
                  (if deleted then "comment.hide" else "comment.restore")
                  "comment" commentId (mkMetadata (c_skillId c) None) (now ctx) in
     setSoftDeletedHandler acc ctx commentId deleted w =
       (Returned tt,
        mkWorld
          (mkDb (<[commentId := softDeletePatch (now ctx) (u_id user) deleted c]>
                   (comments (db w)))
                (users (db w)) (commentReports (db w))
                (auditLogs (db w) ++ [audit]) (statEvents (db w))
                (nextReportId (db w)))
          (trace w ++ [GetComment commentId; PatchComment commentId;
                       InsertAuditLog audit]))).
Proof.
  intros Hs Hc. split.
  - intros Hv. unfold removeHandler, requireUser, getComment.
    rewrite Hs. mrun. rewrite Hc. dsimpl. by rewrite Hv.
  - intros deleted Hgate Hv. cbn zeta.
    unfold setSoftDeletedHandler, requireUser, assertModerator, getComment,
      patchComment, insertStatEvent, insertAuditLog.
    rewrite Hs. mrun. rewrite Hgate. mrun. rewrite Hc. mrun. rewrite Hc, Hv.
    destruct deleted; mrun; by rewrite <- !app_assoc.
Qed.

(** ** Hard delete *)

(** C10.  A hard delete of a comment that does not exist returns
    [{deleted: false}] and raises nothing; it has read the comment and
    done nothing else: no delete, no write, no stat event, no audit
    entry. *)
Theorem hardDelete_missing (acc : Access) (ctx : Ctx) (user : User)
    (commentId : Id) (w : World) :
  session ctx = Some user ->
  adminGate acc user = true ->
  comments (db w) !! commentId = None ->
  hardDeleteHandler acc ctx commentId w =
    (Returned (mkHardDeleteResult false), logged w [GetComment commentId]).
Proof.
  intros Hs Ha Hc. unfold hardDeleteHandler, requireUser, assertAdmin, getComment.
  rewrite Hs. mrun. rewrite Ha. mrun. by rewrite Hc.
Qed.

(** ** The structural fingerprint *)

Lemma wordBucket_cases (text : list ascii) :
  let words := length (tokenizeWords text) in
  (wordBucket text = "s" <-> (words <= 2)%nat) /\
  (wordBucket text = "m" <-> (2 < words <= 6)%nat) /\
  (wordBucket text = "l" <-> (6 < words)%nat).
Proof.
  cbn zeta. unfold wordBucket.
  destruct (Nat.leb_spec (length (tokenizeWords text)) 2);
    [| destruct (Nat.leb_spec (length (tokenizeWords text)) 6)];
    (split_and!; split; first [done | lia | discriminate]).
Qed.

Lemma stripFrontmatter_leading (raw rest : list ascii) :
  matchBlock raw = Some rest -> stripFrontmatter raw = rest.
Proof.
  intros H. unfold stripFrontmatter. destruct raw; cbn [stripScan]; by rewrite H.
Qed.

Lemma stripScan_blockFree (l : list ascii) :
  forall atLineStart, blockStarts atLineStart l = false -> stripScan atLineStart l = l.
Proof.
  induction l as [| c l IH]; intros b H.
  - destruct b; cbn in *; [| done].
    destruct (matchBlock []) eqn:Hm; [by cbn in Hm | done].
  - cbn [blockStarts] in H. apply orb_false_iff in H as [Hhere Hrest].
    cbn [stripScan]. destruct b.
    + destruct (matchBlock (c :: l)); [done |]. by rewrite IH.
    + by rewrite IH.
Qed.

(** The two ways of removing the metadata block agree on a document that
    opens with a block, and on a document no line of which opens one; the
    rest of the pipeline is shared, and the fingerprint is a function of
    the text. *)
Lemma fingerprint_agrees (markdown : string) :
  is_Some (matchBlock (chars markdown)) \/ blockStarts true (chars markdown) = false ->
  toStructuralFingerprint markdown = fingerprintSpec markdown.
Proof.
  unfold toStructuralFingerprint, fingerprintSpec, stripLeadingMetadata.
  intros [[rest H] | H].
  - by rewrite (stripFrontmatter_leading _ _ H), H.
  - unfold stripFrontmatter. rewrite (stripScan_blockFree _ _ H).
    destruct (matchBlock (chars markdown)) eqn:Hm; [| done].
    exfalso. destruct (chars markdown); cbn [blockStarts] in H; by rewrite Hm in H.
Qed.

Lemma fingerprint_at_most_80_lines (body : list ascii) :
  exists lines, (length lines <= 80)%nat /\
    fingerprintOfBody body = String.concat "|" (map lineToken lines).
Proof.
  eexists. split; [| reflexivity]. rewrite length_take. lia.
Qed.

(** C8.  On a document without a leading metadata block whose body has
    two horizontal rules, [toStructuralFingerprint] drops the first rule,
    the line between the rules and the second rule: the block is looked for
    at the start of every line, not only at the start of the document.  The
    fingerprint that removes the leading block only keeps the five lines. *)
Theorem fingerprint_inner_block :
  toStructuralFingerprint ruledDocument = "h1:s|p:s" /\
  fingerprintSpec ruledDocument = "h1:s|p:s|p:m|p:s|p:s" /\
  matchBlock (chars ruledDocument) = None.
Proof. vm_compute. done. Qed.

Example fingerprint_fronted :
  toStructuralFingerprint frontedDocument = "h2:s|b:l|n:s|p:m" /\
  fingerprintSpec frontedDocument = "h2:s|b:l|n:s|p:m".
Proof. vm_compute. done. Qed.

(** ** The statements at concrete inputs *)

Lemma report_auto_hide_witness :
  let call := callBy 14 "scam" 4 in
  let later := [callBy 14 "scam" 5; callBy 15 "  " 6] in
  let w1 := snd (runReports 1 threeReports freshWorld) in
  let w2 := snd (reportHandler (call_ctx call) 1 (call_reason call) w1) in
  statEvents (db w2) = [autoHideStat thriceReported] /\
  fst (runReports 1 later w2) = [Threw AlreadyHidden; Threw AlreadyHidden] /\
  db (snd (runReports 1 later w2)) = db w2.
Proof.
  cbn zeta.
  destruct (report_auto_hide_exactly_once 1 threeReports
              [callBy 14 "scam" 5; callBy 15 "  " 6] (callBy 14 "scam" 4)
              freshWorld thriceReported)
    as (user & c2 & reads & _ & _ & _ & _ & _ & _ & _ & _ & Hst & _ & Hout & Hdb).
  - vm_compute. reflexivity.
  - vm_compute. reflexivity.
  - vm_compute. reflexivity.
  - repeat constructor; eexists; reflexivity.
  - split; [exact Hst | split; [exact Hout | exact Hdb]].
Defined.

(** C2 as stated fails: after the fourth report has hidden the comment, the
    fourth reporter, whose report is on file, calls again and gets "already
    hidden", not the already-reported result. *)
Lemma repeated_report_after_hide :
  ~ (forall (ctx : Ctx) (user : User) (commentId : Id) (reason : string)
            (w : World) (r : Report),
       session ctx = Some user ->
       reportsOfPair (db w) commentId (u_id user) = [r] ->
       fst (reportHandler ctx commentId reason w) = Returned ALREADY_REPORTED).
Proof.
  intros H.
  specialize (H (call_ctx (callBy 14 "scam" 5)) (plainUser 14) 1%nat "scam"
                (snd (runReports 1 fourReports freshWorld))
                (mkReport 3 1 7 14 "scam" 4) eq_refl).
  vm_compute in H. specialize (H eq_refl). discriminate H.
Qed.

Lemma repeated_report_witness :
  let w := snd (runReports 1 [callBy 11 "spam" 1] freshWorld) in
  let run := runReports 1 [callBy 11 "spam" 2; callBy 11 "spam again" 3] w in
  db (snd run) = db w.
Proof.
  cbn zeta.
  refine (proj1 (repeated_report_idempotent 1 (plainUser 11)
            [callBy 11 "spam" 2; callBy 11 "spam again" 3]
            (snd (runReports 1 [callBy 11 "spam" 1] freshWorld))
            (mkReport 0 1 7 11 "spam" 1) _ _)).
  - vm_compute. reflexivity.
  - repeat constructor.
Defined.

(** C5 as stated fails: a moderator restore of a comment that is active
    appends an audit entry. *)
Lemma restore_of_active_writes :
  ~ (forall (acc : Access) (ctx : Ctx) (user : User) (commentId : Id)
            (c : Comment) (w : World),
       session ctx = Some user ->
       moderatorGate acc user = true ->
       comments (db w) !! commentId = Some c ->
       isCommentVisible c = true ->
       db (snd (setSoftDeletedHandler acc ctx commentId false w)) = db w).
Proof.
  intros H.
  specialize (H roleAccess (moderatorCtx 9) (mkUser 50 roleModerator None None)
                1%nat (plainComment 7 100 None) freshWorld
                eq_refl eq_refl eq_refl eq_refl).
  apply (f_equal auditLogs) in H. vm_compute in H. discriminate H.
Qed.

Lemma noop_requests_witness :
  setSoftDeletedHandler roleAccess (moderatorCtx 9) 1 false freshWorld =
    (Returned tt,
     mkWorld
       (mkDb (<[1%nat := softDeletePatch 9 50 false (plainComment 7 100 None)]>
                (comments (db freshWorld)))
             (users (db freshWorld)) []
             [mkAuditLog 50 "comment.restore" "comment" 1 (mkMetadata 7 None) 9]
             [] 0)
       [GetComment 1; PatchComment 1;
        InsertAuditLog
          (mkAuditLog 50 "comment.restore" "comment" 1 (mkMetadata 7 None) 9)]).
Proof.
  refine (proj2 (noop_requests roleAccess (moderatorCtx 9)
                   (mkUser 50 roleModerator None None) 1
                   (plainComment 7 100 None) freshWorld _ _) false _ _);
    reflexivity.
Defined.

(** C6 as stated fails: with a blank reason and a comment that does not
    exist the call fails with "not found", after reading the comment. *)
Lemma blank_reason_after_lookup :
  ~ (forall (ctx : Ctx) (user : User) (commentId : Id) (reason : string) (w : World),
       session ctx = Some user ->
       trim reason = "" ->
       reportHandler ctx commentId reason w = (Threw ReasonRequired, w)).
Proof.
  intros H.
  specialize (H (mkCtx (Some (plainUser 11)) 1) (plainUser 11) 2%nat "   "
                freshWorld eq_refl eq_refl).
  apply (f_equal fst) in H. vm_compute in H. discriminate H.
Qed.

Example blank_reason_reads_comment :
  reportHandler (mkCtx (Some (plainUser 11)) 1) 1 "   " freshWorld =
    (Threw ReasonRequired, logged freshWorld [GetComment 1]).
Proof. vm_compute. reflexivity. Qed.

Lemma report_blank_reason_witness :
  snd (reportHandler (mkCtx (Some (plainUser 11)) 1) 1 "   " freshWorld) =
    logged freshWorld [GetComment 1].
Proof.
  refine (proj1 (report_blank_reason (mkCtx (Some (plainUser 11)) 1)
                   (plainUser 11) 1 "   " freshWorld _ _)); reflexivity.
Defined.

Lemma report_rate_limit_witness :
  fst (reportHandler (mkCtx (Some (plainUser 9)) 9) 1 "spam" busyWorld) =
    Threw ReportLimitReached.
Proof.
  refine (proj2 (proj1 (proj2 (report_rate_limit (mkCtx (Some (plainUser 9)) 9)
            (plainUser 9) 1 "spam" busyWorld _ _)
            (plainComment 7 100 None) _ _ _)) _).
  - reflexivity.
  - vm_compute. reflexivity.
  - vm_compute. reflexivity.
  - reflexivity.
  - vm_compute. discriminate.
  - vm_compute. lia.
Defined.

(** C9 as stated fails: reporter 9 has 20 active reports and a report on
    file for comment 1; a moderator hides comment 1, and the reporter's
    repeat gets "already hidden", not the already-reported result. *)
Lemma capped_repeat_after_hide :
  ~ (forall (ctx : Ctx) (user : User) (commentId : Id) (reason : string)
            (w : World) (r : Report),
       session ctx = Some user ->
       reportsOfPair (db w) commentId (u_id user) = [r] ->
       (20 <= activeReportCount (db w) (u_id user))%nat ->
       fst (reportHandler ctx commentId reason w) = Returned ALREADY_REPORTED).
Proof.
  intros H.
  specialize (H (mkCtx (Some (plainUser 9)) 9) (plainUser 9) 1%nat "spam"
                (snd (setSoftDeletedHandler roleAccess (moderatorCtx 7) 1 true
                        busyRepeatWorld))
                (mkReport 20 1 7 9 "spam" 6) eq_refl).
  vm_compute in H. specialize (H eq_refl (le_n 20)). discriminate H.
Qed.

Lemma repeated_report_skips_cap_witness :
  (20 <= activeReportCount (db busyRepeatWorld) 9)%nat /\
  reportHandler (mkCtx (Some (plainUser 9)) 9) 1 "spam" busyRepeatWorld =
    (Returned ALREADY_REPORTED,
     logged busyRepeatWorld [GetComment 1; QueryByCommentUser 1 9]).
Proof.
  split; [vm_compute; lia |].
  refine (proj2 (proj2 (repeated_report_skips_cap (mkCtx (Some (plainUser 9)) 9)
            (plainUser 9) 1 "spam" busyRepeatWorld (mkReport 20 1 7 9 "spam" 6) _ _))
            (plainComment 7 100 None) _ _ _).
  - reflexivity.
  - vm_compute. reflexivity.
  - vm_compute. reflexivity.
  - reflexivity.
  - vm_compute. discriminate.
Defined.

Lemma hardDelete_missing_witness :
  hardDeleteHandler roleAccess (adminCtx 9) 2 freshWorld =
    (Returned (mkHardDeleteResult false), logged freshWorld [GetComment 2]).
Proof.
  apply (hardDelete_missing roleAccess (adminCtx 9) (mkUser 60 roleAdmin None None));
    reflexivity.
Defined.

(** ** Trust tiers and monotonicity of the gate *)

(** X1.  The trust tier never drops when the account is older or has more
    skills; it is [trusted] exactly from 90 days and 50 skills on, and [low]
    exactly under 30 days or under 10 skills. *)
Theorem getTrustTier_monotone (age age' skills skills' : Z) :
  age <= age' -> skills <= skills' ->
  tierRank (getTrustTier age skills) <= tierRank (getTrustTier age' skills') /\
  (getTrustTier age skills = trusted <->
   TRUST_TIER_ACCOUNT_AGE_MEDIUM_MS <= age /\ TRUST_TIER_SKILLS_MEDIUM <= skills) /\
  (getTrustTier age skills = low <->
   age < TRUST_TIER_ACCOUNT_AGE_LOW_MS \/ skills < TRUST_TIER_SKILLS_LOW).
Proof.
  intros Hage Hskills. unfold getTrustTier.
  unfold TRUST_TIER_ACCOUNT_AGE_LOW_MS, TRUST_TIER_ACCOUNT_AGE_MEDIUM_MS,
    TRUST_TIER_SKILLS_LOW, TRUST_TIER_SKILLS_MEDIUM.
  repeat match goal with
  | |- context [Z.ltb ?x ?y] => destruct (Z.ltb_spec x y)
  end; cbn; split_and!; try lia; split; intros; first [lia | discriminate | done].
Qed.

Lemma getTrustTier_witness :
  tierRank (getTrustTier 0 0) <= tierRank (getTrustTier 7776000000 50).
Proof. apply (getTrustTier_monotone 0 7776000000 0 50); lia. Defined.

Lemma Qltb_monotone (a b c : Q) :
  (a <= b)%Q -> Qltb b c = true -> Qltb a c = true.
Proof. rewrite !Qltb_lt. apply Qle_lt_trans. Qed.

Lemma penalise_le (b b' : bool) (a a' p : Z) :
  0 <= p -> (b' = true -> b = true) -> a <= a' ->
  (if b then a - p else a) <= (if b' then a' - p else a').
Proof. intros Hp Hb Ha. destruct b'; [rewrite Hb by done | destruct b]; lia. Qed.

Lemma ltb_monotone (x x' k : Z) : x <= x' -> (x' <? k) = true -> (x <? k) = true.
Proof. rewrite !Z.ltb_lt. lia. Qed.

Lemma scoreQuality_le (s s' : QualitySignals) :
  signalsLe s s' -> scoreQuality s <= scoreQuality s'.
Proof.
  intros (Hc & Hw & Hr & Hh & Hb & Hm & Hg). unfold scoreQuality. cbv zeta.
  apply Z.max_le_compat_l.
  apply penalise_le; [lia | done |].
  apply Z.sub_le_mono; [| lia].
  apply penalise_le; [lia | by apply ltb_monotone |].
  apply penalise_le; [lia | by apply ltb_monotone |].
  apply penalise_le; [lia | by apply Qltb_monotone |].
  apply penalise_le; [lia | by apply ltb_monotone |].
  apply penalise_le; [lia | by apply ltb_monotone | lia].
Qed.

(** X2.  The gate is monotone: when no signal gets worse, the score does
    not drop; and when, also, the tier is at least as trusted and the count
    of recent duplicates no larger, the verdict does not get worse. *)
Theorem quality_gate_monotone (s s' : QualitySignals) (t t' : TrustTier) (n n' : Z) :
  signalsLe s s' ->
  scoreQuality s <= scoreQuality s' /\
  (tierRank t <= tierRank t' -> n' <= n ->
   verdictRank (decision (evaluateQuality s t n))
   <= verdictRank (decision (evaluateQuality s' t' n'))).
Proof.
  intros Hle. pose proof (scoreQuality_le s s' Hle) as Hscore.
  split; [done |]. intros Ht Hn.
  destruct Hle as (Hc & Hw & _ & _ & _ & Hm & _).
  unfold evaluateQuality.
  revert Hscore. generalize (scoreQuality s) (scoreQuality s'). intros sc sc' Hscore.
  destruct t, t'; cbn in Ht; try lia; cbn -[Z.ltb Z.geb Z.leb orb andb];
    repeat match goal with
    | |- context [if ?b then _ else _] =>
        lazymatch b with
        | context [if _ then _ else _] => fail
        | _ => destruct b eqn:?
        end
    end; cbn; try lia;
    repeat match goal with
    | H : _ = true |- _ =>
        first [ apply orb_true_iff in H | apply andb_true_iff in H
              | apply Z.ltb_lt in H | rewrite Z.geb_leb in H; apply Z.leb_le in H ];
        try destruct H
    | H : _ = false |- _ =>
        first [ apply orb_false_iff in H | apply andb_false_iff in H
              | apply Z.ltb_ge in H | rewrite Z.geb_leb in H; apply Z.leb_gt in H ];
        try destruct H
    end; lia.
Qed.

Lemma quality_gate_monotone_witness :
  let s := computeQualitySignals thinReadme None in
  let s' := mkSignals 900 160 (19 # 20) 4 6 0 false "h1:s|p:l" in
  scoreQuality s < scoreQuality s' /\
  scoreQuality s <= scoreQuality s' /\
  decision (evaluateQuality s low 6) = reject /\
  decision (evaluateQuality s' trusted 0) = pass /\
  verdictRank (decision (evaluateQuality s low 6))
  <= verdictRank (decision (evaluateQuality s' trusted 0)).
Proof.
  cbn zeta.
  assert (Hle : signalsLe (computeQualitySignals thinReadme None)
                  (mkSignals 900 160 (19 # 20) 4 6 0 false "h1:s|p:l"))
    by (vm_compute; intuition discriminate).
  destruct (quality_gate_monotone _ _ low trusted 6 0 Hle) as [Hscore Hverdict].
  split; [vm_compute; reflexivity |]. split; [exact Hscore |].
  split; [vm_compute; reflexivity |]. split; [vm_compute; reflexivity |].
  apply Hverdict; cbn; lia.
Defined.

(** ** The handlers, path by path *)

Section HandlerPaths.
Context (acc : Access) (ctx : Ctx) (user : User) (commentId : Id) (w : World).
Hypothesis Hsession : session ctx = Some user.

Lemma remove_unauthorized (ctx' : Ctx) :
  session ctx' = None ->
  removeHandler acc ctx' commentId w = (Threw Unauthorized, w).
Proof. intros H. unfold removeHandler, requireUser. by rewrite H. Qed.

Lemma remove_missing :
  comments (db w) !! commentId = None ->
  removeHandler acc ctx commentId w =
    (Threw CommentNotFound, logged w [GetComment commentId]).
Proof.
  intros Hc. unfold removeHandler, requireUser, getComment.
  rewrite Hsession. mrun. by rewrite Hc.
Qed.

Lemma remove_not_visible (c : Comment) :
  comments (db w) !! commentId = Some c ->
  isCommentVisible c = false ->
  removeHandler acc ctx commentId w = (Returned tt, logged w [GetComment commentId]).
Proof.
  intros Hc Hv. unfold removeHandler, requireUser, getComment.
  rewrite Hsession. mrun. rewrite Hc. dsimpl. by rewrite Hv.
Qed.

Lemma remove_forbidden (c : Comment) :
  comments (db w) !! commentId = Some c ->
  isCommentVisible c = true ->
  c_userId c <> u_id user ->
  moderatorGate acc user = false ->
  removeHandler acc ctx commentId w =
    (Threw Forbidden, logged w [GetComment commentId]).
Proof.
  intros Hc Hv Hno Hgate.
  unfold removeHandler, requireUser, getComment, assertModerator.
  rewrite Hsession. mrun. rewrite Hc. dsimpl. rewrite Hv. dsimpl.
  apply Nat.eqb_neq in Hno. rewrite Hno. dsimpl. by rewrite Hgate.
Qed.

Lemma remove_allowed (c : Comment) :
  comments (db w) !! commentId = Some c ->
  isCommentVisible c = true ->
  c_userId c = u_id user \/ moderatorGate acc user = true ->
  removeHandler acc ctx commentId w =
    (Returned tt,
     mkWorld (afterRemove (db w) commentId c user (now ctx))
             (trace w ++
              [GetComment commentId; PatchComment commentId;
               InsertStatEvent (mkStatEvent (c_skillId c) statUncomment);
               InsertAuditLog (removeAudit user commentId c (now ctx))])).
Proof.
  intros Hc Hv Hmay.
  unfold removeHandler, requireUser, getComment, assertModerator, patchComment,
    insertStatEvent, insertAuditLog, afterRemove.
  rewrite Hsession. mrun. rewrite Hc. dsimpl. rewrite Hv. dsimpl.
  destruct (Nat.eqb_spec (c_userId c) (u_id user)) as [Heq | Hne]; dsimpl.
  - mrun. rewrite Hc. mrun. by rewrite <- !app_assoc.
  - destruct Hmay as [? | Hgate]; [done |]. rewrite Hgate. mrun. rewrite Hc.
    mrun. by rewrite <- !app_assoc.
Qed.

Lemma softDelete_unauthorized (ctx' : Ctx) (deleted : bool) :
  session ctx' = None ->
  setSoftDeletedHandler acc ctx' commentId deleted w = (Threw Unauthorized, w).
Proof. intros H. unfold setSoftDeletedHandler, requireUser. by rewrite H. Qed.

Lemma softDelete_forbidden (deleted : bool) :
  moderatorGate acc user = false ->
  setSoftDeletedHandler acc ctx commentId deleted w = (Threw Forbidden, w).
Proof.
  intros Hgate. unfold setSoftDeletedHandler, requireUser, assertModerator.
  rewrite Hsession. mrun. by rewrite Hgate.
Qed.

Lemma softDelete_missing (deleted : bool) :
  moderatorGate acc user = true ->
  comments (db w) !! commentId = None ->
  setSoftDeletedHandler acc ctx commentId deleted w =
    (Threw CommentNotFound, logged w [GetComment commentId]).
Proof.
  intros Hgate Hc.
  unfold setSoftDeletedHandler, requireUser, assertModerator, getComment.
  rewrite Hsession. mrun. rewrite Hgate. mrun. by rewrite Hc.
Qed.

Lemma softDelete_run (deleted : bool) (c : Comment) :
  moderatorGate acc user = true ->
  comments (db w) !! commentId = Some c ->
  setSoftDeletedHandler acc ctx commentId deleted w =
    (Returned tt,
     mkWorld (afterSoftDelete (db w) commentId c user deleted (now ctx))
             (trace w ++
              [GetComment commentId; PatchComment commentId] ++
              map InsertStatEvent (softDeleteStats c deleted) ++
              [InsertAuditLog (softDeleteAudit user commentId c deleted (now ctx))])).
Proof.
  intros Hgate Hc.
  unfold setSoftDeletedHandler, requireUser, assertModerator, getComment,
    patchComment, insertStatEvent, insertAuditLog, afterSoftDelete,
    softDeleteStats, softDeleteAudit.
  rewrite Hsession. mrun. rewrite Hgate. mrun. rewrite Hc. mrun. rewrite Hc.
  destruct (isCommentVisible c), deleted; mrun;
    by rewrite <- ?app_assoc, ?app_nil_r.
Qed.

Lemma hardDelete_unauthorized (ctx' : Ctx) :
  session ctx' = None ->
  hardDeleteHandler acc ctx' commentId w = (Threw Unauthorized, w).
Proof. intros H. unfold hardDeleteHandler, requireUser. by rewrite H. Qed.

Lemma hardDelete_forbidden :
  adminGate acc user = false ->
  hardDeleteHandler acc ctx commentId w = (Threw Forbidden, w).
Proof.
  intros Hgate. unfold hardDeleteHandler, requireUser, assertAdmin.
  rewrite Hsession. mrun. by rewrite Hgate.
Qed.
End HandlerPaths.

Lemma filter_all {A} (P : A -> Prop) `{!forall x, Decision (P x)} (l : list A) :
  (forall x, P x) -> filter P l = l.
Proof.
  intros HP. induction l as [| x l IH]; [done |].
  by rewrite filter_cons_True, IH.
Qed.

Lemma deleteReports_run (reports : list Report) :
  forall w : World,
    deleteReports reports w =
      (Returned tt,
       mkWorld (setReports (filter (fun r => r_id r ∉ map r_id reports)) (db w))
               (trace w ++ map (fun r => DeleteReport (r_id r)) reports)).
Proof.
  induction reports as [| r rest IH]; intros w.
  - cbn [deleteReports map]. unfold mret, M_ret, setReports.
    destruct w as [d t]. destruct d. dsimpl. rewrite app_nil_r.
    rewrite filter_all; [done |]. intros x. apply not_elem_of_nil.
  - cbn [deleteReports]. unfold deleteReport. mrun. rewrite IH.
    unfold setReports. dsimpl. rewrite <- app_assoc.
    cbn [app]. do 3 f_equal.
    rewrite list_filter_filter. apply list_filter_iff. intros x.
    rewrite not_elem_of_cons. tauto.
Qed.

Lemma hardDelete_run (acc : Access) (ctx : Ctx) (user : User) (commentId : Id)
    (w : World) (c : Comment) :
  session ctx = Some user ->
  adminGate acc user = true ->
  comments (db w) !! commentId = Some c ->
  hardDeleteHandler acc ctx commentId w =
    (Returned (mkHardDeleteResult true),
     mkWorld (afterHardDelete (db w) commentId c user (now ctx))
             (trace w ++
              [GetComment commentId; QueryByComment commentId] ++
              map (fun r => DeleteReport (r_id r)) (reportsOfComment (db w) commentId) ++
              [DeleteComment commentId] ++
              (if isCommentVisible c
               then [InsertStatEvent (mkStatEvent (c_skillId c) statUncomment)]
               else []) ++
              [InsertAuditLog (hardDeleteAudit (db w) user commentId c (now ctx))])).
Proof.
  intros Hs Hgate Hc.
  unfold hardDeleteHandler, requireUser, assertAdmin, getComment, collectByComment.
  rewrite Hs. mrun. rewrite Hgate. mrun. rewrite Hc. mrun.
  rewrite deleteReports_run.
  unfold deleteComment, insertStatEvent, insertAuditLog, afterHardDelete,
    hardDeleteAudit, reportsOfComment, setReports, setComments.
  destruct (isCommentVisible c); mrun;
    by rewrite <- ?app_assoc, ?app_nil_r.
Qed.

(** ** Every mutation either only reads or succeeds *)

Lemma quiet_logged (w : World) (t : list Op) : readOnly t -> quiet w (logged w t).
Proof. intros Ht. by exists t. Qed.

Lemma quiet_refl (w : World) : quiet w w.
Proof. exists []. split; [constructor | by rewrite logged_nil]. Qed.

Lemma quiet_db (w w' : World) : quiet w w' -> db w' = db w.
Proof. by intros (t & _ & ->). Qed.

Lemma hardDelete_absent (acc : Access) (ctx : Ctx) (user : User)
    (commentId : Id) (w : World) :
  session ctx = Some user ->
  adminGate acc user = true ->
  comments (db w) !! commentId = None ->
  hardDeleteHandler acc ctx commentId w =
    (Returned (mkHardDeleteResult false), logged w [GetComment commentId]).
Proof.
  intros Hs Ha Hc. unfold hardDeleteHandler, requireUser, assertAdmin, getComment.
  rewrite Hs. mrun. rewrite Ha. mrun. by rewrite Hc.
Qed.

Lemma reported_next_id (ctx : Ctx) (commentId : Id) (reason : string) (w : World) :
  fst (reportHandler ctx commentId reason w) = Returned REPORTED ->
  nextReportId (db (snd (reportHandler ctx commentId reason w))) =
    S (nextReportId (db w)).
Proof.
  intros Hrep.
  destruct (report_outcome ctx commentId reason w)
    as [(Hne & _) | (_ & user & c & Hs & Hc & Hv & _)]; [done |].
  destruct (decide (trim reason = "")) as [Hb | Hb].
  { by rewrite (report_blank ctx user _ _ _ Hs c) in Hrep. }
  revert Hrep. rewrite (report_lookup ctx user _ _ _ Hs c Hc Hv Hb).
  destruct (reportsOfPair (db w) commentId (u_id user)) as [| r1 [| r2 l]];
    [| done | done].
  destruct (countActiveReportsForUser_spec (u_id user)
              (logged w [GetComment commentId;
                         QueryByCommentUser commentId (u_id user)]))
    as (t & Ht & Heq).
  unfold mbind, M_bind. rewrite Heq.
  destruct (_ >=? _); [done |]. intros _.
  unfold insertReport, patchComment, insertStatEvent, insertAuditLog.
  mrun. rewrite Hc. destruct (crossesThreshold c && isCommentVisible c); by mrun.
Qed.

Lemma mutation_outcome (acc : Access) (ctx : Ctx) (req : Request) (w : World) :
  let step := mutation acc ctx req w in
  quiet w (snd step) \/
  ((exists r, fst step = Returned r) /\ mutationEffect ctx req w (snd step)).
Proof.
  cbn zeta.
  assert (Hread : forall id, readOnly [GetComment id]) by (by repeat constructor).
  destruct req as [cid | cid reason | cid deleted | cid]; unfold mutation;
    unfold mbind, M_bind.
  - (* remove *)
    destruct (session ctx) as [user |] eqn:Hs.
    2: { left. rewrite remove_unauthorized by done. apply quiet_refl. }
    destruct (comments (db w) !! cid) as [c |] eqn:Hc.
    2: { left. rewrite (remove_missing acc ctx user) by done. by apply quiet_logged. }
    destruct (isCommentVisible c) eqn:Hv.
    2: { left. rewrite (remove_not_visible acc ctx user _ _ Hs c) by done.
         by apply quiet_logged. }
    destruct (decide (c_userId c = u_id user)) as [Ho | Ho].
    { right. rewrite (remove_allowed acc ctx user _ _ Hs c) by auto.
      split; [by eexists |]. by exists user, c. }
    destruct (moderatorGate acc user) eqn:Hg.
    + right. rewrite (remove_allowed acc ctx user _ _ Hs c) by auto.
      split; [by eexists |]. by exists user, c.
    + left. rewrite (remove_forbidden acc ctx user _ _ Hs c) by done.
      by apply quiet_logged.
  - (* report *)
    destruct (report_outcome ctx cid reason w)
      as [(Hne & _ & t & Ht & Hw) | (Hrep & user & c & Hs & Hc & Hv & He)].
    + left. destruct (reportHandler ctx cid reason w) as [[r | e] w'];
        cbn in *; subst w'; by apply quiet_logged.
    + right. pose proof (reported_new_pair ctx user cid reason w Hs Hrep) as Hp.
      pose proof (reported_next_id ctx cid reason w Hrep) as Hnext.
      destruct (reportHandler ctx cid reason w) as [[r | e] w']; cbn in *;
        [| done]. split; [by eexists |]. by exists user, c.
  - (* setSoftDeleted *)
    destruct (session ctx) as [user |] eqn:Hs.
    2: { left. rewrite softDelete_unauthorized by done. apply quiet_refl. }
    destruct (moderatorGate acc user) eqn:Hg.
    2: { left. rewrite (softDelete_forbidden acc ctx user) by done. apply quiet_refl. }
    destruct (comments (db w) !! cid) as [c |] eqn:Hc.
    2: { left. rewrite (softDelete_missing acc ctx user) by done.
         by apply quiet_logged. }
    right. rewrite (softDelete_run acc ctx user _ _ Hs deleted c) by done.
    split; [by eexists |]. by exists user, c.
  - (* hardDelete *)
    destruct (session ctx) as [user |] eqn:Hs.
    2: { left. rewrite hardDelete_unauthorized by done. apply quiet_refl. }
    destruct (adminGate acc user) eqn:Hg.
    2: { left. rewrite (hardDelete_forbidden acc ctx user) by done. apply quiet_refl. }
    destruct (comments (db w) !! cid) as [c |] eqn:Hc.
    2: { left. rewrite (hardDelete_absent acc ctx user) by done.
         by apply quiet_logged. }
    right. rewrite (hardDelete_run acc ctx user _ _ c) by done.
    split; [by eexists |]. by exists user, c.
Qed.

(** X3.  A mutation that throws has written nothing: the tables are as
    before and every operation it performed is a read. *)
Theorem mutation_failure_writes_nothing (acc : Access) (ctx : Ctx) (req : Request)
    (w : World) (e : Error) :
  fst (mutation acc ctx req w) = Threw e ->
  db (snd (mutation acc ctx req w)) = db w /\
  exists t, readOnly t /\ snd (mutation acc ctx req w) = logged w t.
Proof.
  intros He.
  destruct (mutation_outcome acc ctx req w) as [Hq | [[r Hr] _]]; [| congruence].
  split; [by apply quiet_db | done].
Qed.

Lemma mutation_failure_witness :
  db (snd (mutation roleAccess (mkCtx (Some (plainUser 11)) 1)
             (ReqSetSoftDeleted 1 true) freshWorld)) = db freshWorld.
Proof.
  refine (proj1 (mutation_failure_writes_nothing roleAccess
            (mkCtx (Some (plainUser 11)) 1) (ReqSetSoftDeleted 1 true)
            freshWorld Forbidden _)).
  reflexivity.
Defined.

(** ** Delete by the author or a moderator *)

(** X4.  On a visible comment [removeHandler] lets the author through
    without asking the moderator gate, and anyone else through that gate
    only.  Allowed, it marks the comment removed: status [removed],
    [softDeletedAt] and [lastReviewedAt] set to the time of the call,
    [deletedBy] the caller, the reason telling the author from a
    moderator, the notes cleared; every other field is kept; and it
    appends one [uncomment] stat event and one audit entry.  Refused, it
    throws and writes nothing. *)
Theorem removeHandler_visible (acc : Access) (ctx : Ctx) (user : User)
    (commentId : Id) (c : Comment) (w : World) :
  session ctx = Some user ->
  comments (db w) !! commentId = Some c ->
  isCommentVisible c = true ->
  let step := removeHandler acc ctx commentId w in
  (c_userId c = u_id user \/ moderatorGate acc user = true ->
   fst step = Returned tt /\
   (exists c',
      comments (db (snd step)) !! commentId = Some c' /\
      getCommentStatus c' = removed /\ isCommentVisible c' = false /\
      c_moderationStatus c' = Some removed /\
      c_softDeletedAt c' = Some (now ctx) /\
      c_lastReviewedAt c' = Some (now ctx) /\
      c_deletedBy c' = Some (u_id user) /\
      c_moderationNotes c' = None /\
      c_moderationReason c' =
        Some (if decide (c_userId c = u_id user)
              then "manual.user_delete" else "manual.moderator_delete") /\
      c_body c' = c_body c /\ c_reportCount c' = c_reportCount c /\
      c_skillId c' = c_skillId c /\ c_userId c' = c_userId c /\
      c_createdAt c' = c_createdAt c /\
      c_lastReportedAt c' = c_lastReportedAt c /\ c_hiddenAt c' = c_hiddenAt c) /\
   statEvents (db (snd step)) =
     (statEvents (db w) ++ [mkStatEvent (c_skillId c) statUncomment])%list /\
   auditLogs (db (snd step)) =
     (auditLogs (db w) ++ [removeAudit user commentId c (now ctx)])%list /\
   commentReports (db (snd step)) = commentReports (db w)) /\
  (c_userId c <> u_id user -> moderatorGate acc user = false ->
   fst step = Threw Forbidden /\ db (snd step) = db w).
Proof.
  intros Hs Hc Hv. cbn zeta. split.
  - intros Hmay. rewrite (remove_allowed acc ctx user _ _ Hs c Hc Hv Hmay).
    cbn [fst snd db afterRemove]. split; [done |]. split; [| done].
    eexists. split; [apply lookup_insert_eq |].
    unfold getCommentStatus, isCommentVisible, removePatch. cbn.
    rewrite andb_false_r. split_and!; try done.
    destruct (Nat.eqb_spec (c_userId c) (u_id user)); by case_decide.
  - intros Hno Hgate. by rewrite (remove_forbidden acc ctx user _ _ Hs c).
Qed.

Lemma removeHandler_visible_witness :
  fst (removeHandler roleAccess (mkCtx (Some (plainUser 100)) 5) 1 freshWorld) =
    Returned tt.
Proof.
  refine (proj1 (proj1 (removeHandler_visible roleAccess
            (mkCtx (Some (plainUser 100)) 5) (plainUser 100) 1
            (plainComment 7 100 None) freshWorld _ _ _) _)).
  - reflexivity.
  - reflexivity.
  - reflexivity.
  - left. reflexivity.
Defined.

(** ** Moderator hide and restore *)

(** X5.  [setSoftDeletedHandler] sets the visibility whatever the state of
    the comment, a removed one included: afterwards the comment is visible
    exactly when [deleted] is false.  It emits [uncomment] when a visible
    comment is hidden, [comment] when a comment that was not visible is
    restored, and nothing otherwise; it keeps the body and the report
    count. *)
Theorem setSoftDeleted_sets_visibility (acc : Access) (ctx : Ctx) (user : User)
    (commentId : Id) (deleted : bool) (c : Comment) (w : World) :
  session ctx = Some user ->
  moderatorGate acc user = true ->
  comments (db w) !! commentId = Some c ->
  let step := setSoftDeletedHandler acc ctx commentId deleted w in
  fst step = Returned tt /\
  (exists c',
     comments (db (snd step)) !! commentId = Some c' /\
     isCommentVisible c' = negb deleted /\
     getCommentStatus c' = (if deleted then hidden else active) /\
     c_body c' = c_body c /\ c_reportCount c' = c_reportCount c) /\
  statEvents (db (snd step)) =
    (statEvents (db w) ++
     if bool_decide (isCommentVisible c = negb deleted) then []
     else [mkStatEvent (c_skillId c)
                       (if deleted then statUncomment else statComment)])%list /\
  commentReports (db (snd step)) = commentReports (db w).
Proof.
  intros Hs Hgate Hc. cbn zeta.
  rewrite (softDelete_run acc ctx user _ _ Hs deleted c Hgate Hc).
  unfold afterSoftDelete. cbn [fst snd db comments statEvents commentReports].
  split; [done |]. split_and!; [| | done].
  - eexists. split; [apply lookup_insert_eq |].
    unfold isCommentVisible, getCommentStatus, softDeletePatch.
    destruct deleted; cbn; rewrite ?andb_false_r; done.
  - unfold softDeleteStats.
    destruct (isCommentVisible c), deleted; cbn; try case_bool_decide; done.
Qed.

Lemma setSoftDeleted_witness :
  fst (setSoftDeletedHandler roleAccess (moderatorCtx 9) 1 true freshWorld) =
    Returned tt.
Proof.
  refine (proj1 (setSoftDeleted_sets_visibility roleAccess (moderatorCtx 9)
            (mkUser 50 roleModerator None None) 1 true
            (plainComment 7 100 None) freshWorld _ _ _)); reflexivity.
Defined.

(** X6.  A restore does not reset the report counter: once a moderator has
    restored a comment that carries 3 reports or more, the next report that
    goes through hides it again. *)
Theorem restore_then_report_hides_again (acc : Access) (ctxM ctxR : Ctx)
    (moderator reporter : User) (commentId : Id) (reason : string)
    (c : Comment) (w : World) :
  session ctxM = Some moderator ->
  moderatorGate acc moderator = true ->
  comments (db w) !! commentId = Some c ->
  AUTO_HIDE_REPORT_THRESHOLD <= default 0 (c_reportCount c) ->
  let w1 := snd (setSoftDeletedHandler acc ctxM commentId false w) in
  let step := reportHandler ctxR commentId reason w1 in
  session ctxR = Some reporter ->
  fst step = Returned REPORTED ->
  exists c1 c2,
    comments (db w1) !! commentId = Some c1 /\ isCommentVisible c1 = true /\
    comments (db (snd step)) !! commentId = Some c2 /\
    isCommentVisible c2 = false /\
    c_moderationReason c2 = Some "auto.reports" /\
    c_reportCount c2 = Some (default 0 (c_reportCount c) + 1).
Proof.
  intros Hm Hgate Hc Hcount w1 step Hr Hrep.
  assert (Hw1 : db w1 = afterSoftDelete (db w) commentId c moderator false (now ctxM)).
  { unfold w1. by rewrite (softDelete_run acc ctxM moderator _ _ Hm false c Hgate Hc). }
  set (c1 := softDeletePatch (now ctxM) (u_id moderator) false c).
  assert (Hc1 : comments (db w1) !! commentId = Some c1).
  { rewrite Hw1. apply lookup_insert_eq. }
  destruct (report_outcome ctxR commentId reason w1)
    as [(Hne & _) | (_ & user & c0 & Hs & Hc0 & Hv0 & He)]; [done |].
  fold step in He. rewrite Hc1 in Hc0. injection Hc0 as <-.
  destruct He as (_ & Hcs & _).
  assert (Hhide : crossesThreshold c1 = true).
  { unfold crossesThreshold, nextCount, c1, AUTO_HIDE_REPORT_THRESHOLD in *.
    cbn. apply Z.gtb_lt. lia. }
  rewrite Hhide in Hcs.
  exists c1, (reportPatch (now ctxR) (nextCount c1) true c1).
  split_and!; try done.
  - rewrite Hcs. apply lookup_insert_eq.
  - apply reportPatch_hidden.
Qed.

Lemma restore_then_report_witness :
  exists c2,
    comments (db (snd (reportHandler (mkCtx (Some (plainUser 15)) 7) 1 "spam"
       (snd (setSoftDeletedHandler roleAccess (moderatorCtx 6) 1 false
               (snd (runReports 1 fourReports freshWorld))))))) !! 1%nat = Some c2 /\
    isCommentVisible c2 = false.
Proof.
  destruct (restore_then_report_hides_again roleAccess (moderatorCtx 6)
              (mkCtx (Some (plainUser 15)) 7)
              (mkUser 50 roleModerator None None) (plainUser 15) 1 "spam"
              (reportPatch 4 4 true thriceReported)
              (snd (runReports 1 fourReports freshWorld)))
    as (c1 & c2 & _ & _ & Hc2 & Hv2 & _).
  - reflexivity.
  - reflexivity.
  - vm_compute. reflexivity.
  - vm_compute. discriminate.
  - reflexivity.
  - vm_compute. reflexivity.
  - exists c2. split; [exact Hc2 | exact Hv2].
Defined.

(** ** Hard delete *)

Lemma NoDup_map_inj {A B} (f : A -> B) (l : list A) (x y : A) :
  NoDup (map f l) -> x ∈ l -> y ∈ l -> f x = f y -> x = y.
Proof.
  induction l as [| a l IH]; intros Hnd Hx Hy Hf; [by apply elem_of_nil in Hx |].
  cbn in Hnd. apply NoDup_cons in Hnd as [Ha Hnd].
  apply elem_of_cons in Hx as [-> | Hx]; apply elem_of_cons in Hy as [-> | Hy].
  - done.
  - exfalso. apply Ha. rewrite Hf. by apply (list_elem_of_fmap_2 f).
  - exfalso. apply Ha. rewrite <- Hf. by apply (list_elem_of_fmap_2 f).
  - by apply IH.
Qed.

Lemma filter_iff_in {A} (P Q : A -> Prop) `{!forall x, Decision (P x)}
    `{!forall x, Decision (Q x)} (l : list A) :
  (forall x, x ∈ l -> (P x <-> Q x)) -> filter P l = filter Q l.
Proof.
  induction l as [| a l IH]; intros Hall; [done |].
  rewrite !filter_cons, IH by (intros x Hx; apply Hall; by right).
  destruct (Hall a) as [H1 H2]; [by left |].
  repeat case_decide; tauto || done.
Qed.

Lemma filter_none {A} (P : A -> Prop) `{!forall x, Decision (P x)} (l : list A) :
  (forall x, ~ P x) -> filter P l = [].
Proof.
  intros HP. induction l as [| x l IH]; [done |].
  by rewrite filter_cons_False.
Qed.

Lemma purge_by_ids (d : Db) (commentId : Id) :
  NoDup (map r_id (commentReports d)) ->
  filter (fun r => r_id r ∉ map r_id (reportsOfComment d commentId))
         (commentReports d) =
  filter (fun r => r_commentId r <> commentId) (commentReports d).
Proof.
  intros Hnd. apply filter_iff_in. intros r Hr. unfold reportsOfComment. split.
  - intros Hnot Heq. apply Hnot. apply (list_elem_of_fmap_2 r_id).
    by apply list_elem_of_filter.
  - intros Hne Hin. apply list_elem_of_fmap in Hin as (r' & Hid & Hr').
    apply list_elem_of_filter in Hr' as [Hcid Hr'].
    by rewrite (NoDup_map_inj r_id _ r r' Hnd Hr Hr' Hid) in Hne.
Qed.

(** X7.  A hard delete of an existing comment purges it: the comment is
    gone, no report of it is left, and the reports of the other comments and
    the other comments are untouched; the audit entry carries the number of
    reports deleted, and an [uncomment] stat event is emitted exactly when
    the comment was visible.  From then on the comment is unknown to a
    report call. *)
Theorem hardDelete_purges (acc : Access) (ctx : Ctx) (user : User)
    (commentId : Id) (c : Comment) (w : World) :
  session ctx = Some user ->
  adminGate acc user = true ->
  comments (db w) !! commentId = Some c ->
  NoDup (map r_id (commentReports (db w))) ->
  let step := hardDeleteHandler acc ctx commentId w in
  let d' := db (snd step) in
  fst step = Returned (mkHardDeleteResult true) /\
  comments d' = delete commentId (comments (db w)) /\
  commentReports d' =
    filter (fun r => r_commentId r <> commentId) (commentReports (db w)) /\
  reportsOfComment d' commentId = [] /\
  (forall other, other <> commentId ->
     reportsOfComment d' other = reportsOfComment (db w) other) /\
  auditLogs d' =
    (auditLogs (db w) ++
     [mkAuditLog (u_id user) "comment.hard_delete" "comment" commentId
        (mkMetadata (c_skillId c)
           (Some (Z.of_nat (length (reportsOfComment (db w) commentId)))))
        (now ctx)])%list /\
  statEvents d' =
    (statEvents (db w) ++
     if isCommentVisible c then [mkStatEvent (c_skillId c) statUncomment] else [])%list /\
  (forall ctx' reason, is_Some (session ctx') ->
     fst (reportHandler ctx' commentId reason (snd step)) = Threw CommentNotFound).
Proof.
  intros Hs Hgate Hc Hnd. cbn zeta.
  rewrite (hardDelete_run acc ctx user _ _ c Hs Hgate Hc).
  unfold afterHardDelete. cbn [fst snd db comments commentReports auditLogs statEvents].
  rewrite (purge_by_ids (db w) commentId Hnd).
  split_and!; try done.
  - unfold reportsOfComment. cbn [commentReports]. rewrite list_filter_filter.
    apply filter_none. tauto.
  - intros other Hne. unfold reportsOfComment. cbn [commentReports].
    rewrite list_filter_filter. apply list_filter_iff. intros r. split; [tauto |].
    intros ->. done.
  - intros ctx' reason [user' Hs'].
    rewrite (report_missing ctx' user' _ _ _ Hs'); [done |].
    cbn [db comments]. apply lookup_delete_eq.
Qed.

Lemma hardDelete_purges_witness :
  reportsOfComment
    (db (snd (hardDeleteHandler roleAccess (adminCtx 9) 1
                (snd (runReports 1 fourReports freshWorld))))) 1 = [].
Proof.
  refine (proj1 (proj2 (proj2 (proj2 (hardDelete_purges roleAccess (adminCtx 9)
            (mkUser 60 roleAdmin None None) 1 (reportPatch 4 4 true thriceReported)
            (snd (runReports 1 fourReports freshWorld)) _ _ _ _))))).
  - reflexivity.
  - reflexivity.
  - vm_compute. reflexivity.
  - apply (bool_decide_eq_true_1 _). vm_compute. reflexivity.
Defined.

(** ** Invariants of the mutations *)

Lemma mutation_db_cases (acc : Access) (ctx : Ctx) (req : Request) (w : World) :
  db (snd (mutation acc ctx req w)) = db w \/
  mutationEffect ctx req w (snd (mutation acc ctx req w)).
Proof.
  destruct (mutation_outcome acc ctx req w) as [Hq | [_ He]];
    [left; by apply quiet_db | by right].
Qed.

Lemma mutation_preserves_uniquePairs (acc : Access) (ctx : Ctx) (req : Request)
    (w : World) :
  uniquePairs (db w) -> uniquePairs (db (snd (mutation acc ctx req w))).
Proof.
  intros Hu.
  destruct (mutation_db_cases acc ctx req w) as [-> | (user & c & Hs & He)];
    [done |].
  set (w' := snd (mutation acc ctx req w)) in *.
  destruct req as [cid | cid reason | cid deleted | cid].
  - destruct He as (_ & _ & ->). exact Hu.
  - destruct He as (_ & _ & Hp & _ & (_ & _ & _ & Hr & _)).
    intros cid' uid. unfold reportsOfPair. rewrite Hr, filter_app, length_app.
    fold (reportsOfPair (db w) cid' uid).
    destruct (decide (cid' = cid /\ uid = u_id user)) as [[-> ->] | Hne].
    + rewrite Hp. cbn [length]. rewrite filter_cons_True by done. cbn. lia.
    + rewrite filter_cons_False; [cbn; specialize (Hu cid' uid); lia |].
      cbn. intros [<- <-]. by apply Hne.
  - destruct He as (_ & ->). exact Hu.
  - destruct He as (_ & ->). intros cid' uid.
    unfold reportsOfPair, afterHardDelete. cbn [commentReports].
    rewrite list_filter_filter.
    etrans; [| apply (Hu cid' uid)]. unfold reportsOfPair.
    rewrite <- (list_filter_filter_l
                  (fun r => (r_commentId r = cid' /\ r_userId r = uid) /\
                            r_id r ∉ map r_id (reportsOfComment (db w) cid))
                  (fun r => r_commentId r = cid' /\ r_userId r = uid))
      by tauto.
    apply length_filter.
Qed.

Lemma mutation_preserves_uniqueIds (acc : Access) (ctx : Ctx) (req : Request)
    (w : World) :
  uniqueIds (db w) -> uniqueIds (db (snd (mutation acc ctx req w))).
Proof.
  intros [Hnd Hlt].
  destruct (mutation_db_cases acc ctx req w) as [-> | (user & c & Hs & He)];
    [done |].
  set (w' := snd (mutation acc ctx req w)) in *.
  destruct req as [cid | cid reason | cid deleted | cid].
  - destruct He as (_ & _ & ->). by split.
  - destruct He as (_ & _ & _ & Hnext & (_ & _ & _ & Hr & _)).
    unfold uniqueIds. rewrite Hr, Hnext, map_app. cbn [map newReport r_id]. split.
    + apply NoDup_app. split_and!; [done | | apply NoDup_singleton].
      intros id Hin ->%list_elem_of_singleton.
      apply list_elem_of_fmap in Hin as (r & Hid & Hin).
      rewrite Forall_forall in Hlt. specialize (Hlt r Hin). lia.
    + apply Forall_app. split; [| by repeat constructor; cbn; lia].
      eapply Forall_impl; [exact Hlt |]. cbn. lia.
  - destruct He as (_ & ->). by split.
  - destruct He as (_ & ->). unfold uniqueIds, afterHardDelete.
    cbn [commentReports nextReportId]. split.
    + apply (sublist_NoDup _ (map r_id (commentReports (db w))));
        first [exact Hnd | apply (fmap_sublist r_id), sublist_filter].
    + rewrite Forall_forall in *. intros r [_ Hr]%list_elem_of_filter. auto.
Qed.

(** X8.  Whatever requests are served, in whatever order and by whomever,
    the report table keeps at most one report per comment and reporter, and
    its ids stay distinct and below the next id. *)
Theorem runMutations_reports_wellformed (acc : Access) (reqs : list (Ctx * Request)) :
  forall w : World,
    uniquePairs (db w) -> uniqueIds (db w) ->
    uniquePairs (db (runMutations acc reqs w)) /\
    uniqueIds (db (runMutations acc reqs w)).
Proof.
  induction reqs as [| [ctx req] rest IH]; intros w Hp Hi; [done |].
  cbn [runMutations]. apply IH.
  - by apply mutation_preserves_uniquePairs.
  - by apply mutation_preserves_uniqueIds.
Qed.

Lemma runMutations_wellformed_witness :
  uniquePairs
    (db (runMutations roleAccess
           [(mkCtx (Some (plainUser 11)) 1, ReqReport 1 "spam");
            (mkCtx (Some (plainUser 11)) 2, ReqReport 1 "spam");
            (adminCtx 3, ReqHardDelete 1)] freshWorld)).
Proof.
  refine (proj1 (runMutations_reports_wellformed roleAccess _ freshWorld _ _)).
  - intros cid uid. cbn. lia.
  - split; [apply NoDup_nil_2 | apply Forall_nil_2].
Defined.

Lemma mutation_append_only (acc : Access) (ctx : Ctx) (req : Request) (w : World) :
  let d' := db (snd (mutation acc ctx req w)) in
  auditLogs (db w) `prefix_of` auditLogs d' /\
  statEvents (db w) `prefix_of` statEvents d' /\
  users d' = users (db w) /\
  (nextReportId (db w) <= nextReportId d')%nat.
Proof.
  cbn zeta.
  destruct (mutation_db_cases acc ctx req w) as [-> | (user & c & Hs & He)];
    [done |].
  set (w' := snd (mutation acc ctx req w)) in *.
  destruct req as [cid | cid reason | cid deleted | cid].
  - destruct He as (_ & _ & ->). cbn. split_and!; try done; by apply prefix_app_r.
  - destruct He as (_ & _ & _ & Hnext & (_ & _ & -> & _ & -> & ->)).
    rewrite Hnext. split_and!; try done; [by apply prefix_app_r .. | lia].
  - destruct He as (_ & ->). cbn. split_and!; try done; by apply prefix_app_r.
  - destruct He as (_ & ->). cbn. split_and!; try done; by apply prefix_app_r.
Qed.

(** X9.  The audit log and the stat events are append-only, and no
    mutation touches the users: after any run of requests the earlier audit
    entries and stat events are still there, in order, at the front. *)
Theorem runMutations_append_only (acc : Access) (reqs : list (Ctx * Request)) :
  forall w : World,
    let d' := db (runMutations acc reqs w) in
    auditLogs (db w) `prefix_of` auditLogs d' /\
    statEvents (db w) `prefix_of` statEvents d' /\
    users d' = users (db w) /\
    (nextReportId (db w) <= nextReportId d')%nat.
Proof.
  induction reqs as [| [ctx req] rest IH]; intros w; [done |].
  cbn [runMutations]. cbn zeta.
  destruct (mutation_append_only acc ctx req w) as (Ha & Hst & Hu & Hn).
  destruct (IH (snd (mutation acc ctx req w))) as (Ha' & Hst' & Hu' & Hn').
  split_and!; [by etrans | by etrans | congruence | lia].
Qed.

(** ** Stat events and the number of visible comments *)

Lemma visible_lookup (skill : Id) (m : gmap nat Comment) (i : nat) (c : Comment) :
  m !! i = Some c ->
  filter (visibleOfSkill skill) m !! i =
    if decide (isCommentVisible c = true /\ c_skillId c = skill) then Some c else None.
Proof.
  intros Hc. case_decide as Hd.
  - apply map_lookup_filter_Some. by split.
  - apply map_lookup_filter_None. right. intros c' Hc'.
    assert (c' = c) as -> by congruence. done.
Qed.

Lemma visible_size_delete (skill : Id) (m : gmap nat Comment) (i : nat) (c : Comment) :
  m !! i = Some c ->
  Z.of_nat (size (filter (visibleOfSkill skill) (delete i m))) =
    Z.of_nat (size (filter (visibleOfSkill skill) m)) - counted skill c.
Proof.
  intros Hc. rewrite map_filter_delete, map_size_delete.
  pose proof (visible_lookup skill m i c Hc) as Hl. unfold counted.
  case_decide; rewrite Hl; cbn; [| lia].
  pose proof (map_size_ne_0_lookup_2 (filter (visibleOfSkill skill) m) i) as Hne.
  rewrite Hl in Hne. specialize (Hne (mk_is_Some _ _ eq_refl)). lia.
Qed.

Lemma visible_size_insert (skill : Id) (m : gmap nat Comment) (i : nat)
    (c c' : Comment) :
  m !! i = Some c ->
  Z.of_nat (size (filter (visibleOfSkill skill) (<[i:=c']> m))) =
    Z.of_nat (size (filter (visibleOfSkill skill) m)) - counted skill c
    + counted skill c'.
Proof.
  intros Hc.
  pose proof (visible_size_delete skill m i c Hc) as Hd.
  unfold counted at 2.
  destruct (decide (isCommentVisible c' = true /\ c_skillId c' = skill)) as [Hp | Hp].
  - rewrite map_filter_insert_True by done.
    rewrite <- insert_delete_eq, map_size_insert_None by apply lookup_delete_eq.
    rewrite <- map_filter_delete. lia.
  - rewrite map_filter_insert_False by done. lia.
Qed.

Lemma statNet_app (skill : Id) (l1 l2 : list StatEvent) :
  statNet skill (l1 ++ l2) = statNet skill l1 + statNet skill l2.
Proof. induction l1 as [| e l1 IH]; cbn [statNet app]; lia. Qed.

Lemma counted_visible (skill : Id) (c : Comment) :
  counted skill c =
    if isCommentVisible c then (if decide (c_skillId c = skill) then 1 else 0) else 0.
Proof.
  unfold counted. destruct (isCommentVisible c).
  - destruct (decide (c_skillId c = skill)).
    + by rewrite decide_True.
    + rewrite decide_False; [done | tauto].
  - rewrite decide_False; [done |]. by intros [? _].
Qed.

Lemma removePatch_hidden (now : Z) (userId : Id) (isOwner : bool) (c : Comment) :
  isCommentVisible (removePatch now userId isOwner c) = false.
Proof. unfold isCommentVisible, getCommentStatus. cbn. apply andb_false_r. Qed.

Lemma softDeletePatch_visible (now : Z) (userId : Id) (deleted : bool) (c : Comment) :
  isCommentVisible (softDeletePatch now userId deleted c) = negb deleted.
Proof.
  unfold isCommentVisible, getCommentStatus. destruct deleted; cbn; [| done].
  apply andb_false_r.
Qed.

Lemma reportPatch_keeps (now n : Z) (c : Comment) :
  isCommentVisible (reportPatch now n false c) = isCommentVisible c.
Proof. done. Qed.

Lemma reportPatch_skill (now n : Z) (hide : bool) (c : Comment) :
  c_skillId (reportPatch now n hide c) = c_skillId c.
Proof. by destruct hide. Qed.

Lemma softDeletePatch_skill (now : Z) (userId : Id) (deleted : bool) (c : Comment) :
  c_skillId (softDeletePatch now userId deleted c) = c_skillId c.
Proof. by destruct deleted. Qed.

Lemma mutation_balance (acc : Access) (ctx : Ctx) (req : Request) (w : World)
    (skill : Id) :
  let d' := db (snd (mutation acc ctx req w)) in
  visibleCount d' skill - statNet skill (statEvents d') =
  visibleCount (db w) skill - statNet skill (statEvents (db w)).
Proof.
  cbn zeta.
  destruct (mutation_db_cases acc ctx req w) as [-> | (user & c & Hs & He)];
    [done |].
  set (w' := snd (mutation acc ctx req w)) in *.
  unfold visibleCount.
  destruct req as [cid | cid reason | cid deleted | cid].
  - destruct He as (Hc & Hv & ->). unfold afterRemove. cbn [comments statEvents].
    rewrite (visible_size_insert skill _ cid c _ Hc), statNet_app, !counted_visible.
    rewrite Hv, removePatch_hidden. cbn [statNet]. unfold statDelta.
    cbn [e_skillId e_kind]. case_decide; lia.
  - destruct He as (Hc & Hv & _ & _ & (_ & -> & _ & _ & -> & _)).
    rewrite (visible_size_insert skill _ cid c _ Hc), statNet_app, !counted_visible.
    rewrite reportPatch_skill, Hv. destruct (crossesThreshold c).
    + rewrite reportPatch_hidden. cbn [statNet]. unfold statDelta, autoHideStat.
      cbn [e_skillId e_kind]. case_decide; lia.
    + rewrite reportPatch_keeps, Hv. cbn [statNet]. case_decide; lia.
  - destruct He as (Hc & ->). unfold afterSoftDelete. cbn [comments statEvents].
    rewrite (visible_size_insert skill _ cid c _ Hc), statNet_app, !counted_visible.
    rewrite softDeletePatch_visible, softDeletePatch_skill. unfold softDeleteStats.
    destruct (isCommentVisible c), deleted; cbn [negb andb statNet];
      unfold statDelta; cbn [e_skillId e_kind]; try case_decide; lia.
  - destruct He as (Hc & ->). unfold afterHardDelete. cbn [comments statEvents].
    rewrite (visible_size_delete skill _ cid c Hc), statNet_app, counted_visible.
    destruct (isCommentVisible c); cbn [statNet]; unfold statDelta;
      cbn [e_skillId e_kind]; try case_decide; lia.
Qed.

(** X10.  The stat events track the visible comments: over any run of
    requests, and for every skill, the number of visible comments of the
    skill changes by exactly the [comment] events minus the [uncomment]
    events emitted for it. *)
Theorem stat_events_track_visibility (acc : Access) (reqs : list (Ctx * Request))
    (skill : Id) :
  forall w : World,
    let d' := db (runMutations acc reqs w) in
    visibleCount d' skill - visibleCount (db w) skill =
    statNet skill (statEvents d') - statNet skill (statEvents (db w)).
Proof.
  induction reqs as [| [ctx req] rest IH]; intros w; cbn zeta; [cbn; lia |].
  cbn [runMutations]. specialize (IH (snd (mutation acc ctx req w))). cbn zeta in IH.
  pose proof (mutation_balance acc ctx req w skill) as Hstep. cbn zeta in Hstep.
  lia.
Qed.

(** ** What [stripFrontmatter] and [tokenizeWords] return *)

Lemma dropPrefix_length (p l r : list ascii) :
  dropPrefix p l = Some r -> (length r <= length l)%nat.
Proof.
  revert l. induction p as [| a p IH]; intros [| b l] H; cbn in H; try done.
  - injection H as <-. done.
  - injection H as <-. done.
  - destruct (Ascii.eqb a b); [| done]. apply IH in H. cbn. lia.
Qed.

Lemma skipSpaces_length (l : list ascii) : (length (skipSpaces l) <= length l)%nat.
Proof.
  induction l as [| c l IH]; [done |]. cbn. destruct (isSpace c); cbn; lia.
Qed.

Lemma afterFirst_length (p l r : list ascii) :
  afterFirst p l = Some r -> (length r <= length l)%nat.
Proof.
  induction l as [| c l IH]; cbn [afterFirst].
  - destruct (dropPrefix p []) eqn:Hd; [| done]. intros [= <-].
    by apply dropPrefix_length in Hd.
  - destruct (dropPrefix p (c :: l)) eqn:Hd.
    + intros [= <-]. by apply dropPrefix_length in Hd.
    + intros H. apply IH in H. cbn. lia.
Qed.

Lemma closeFence_length (l r : list ascii) :
  closeFence l = Some r -> (length r <= length l)%nat.
Proof.
  unfold closeFence. destruct (afterFirst _ l) as [rest |] eqn:Ha; [| done].
  intros [= <-]. apply afterFirst_length in Ha.
  pose proof (skipSpaces_length rest). lia.
Qed.

Lemma openFence_length (l r : list ascii) :
  openFence l = Some r -> (length r <= length l)%nat.
Proof.
  revert r. induction l as [| c l IH]; intros r; cbn [openFence]; [done |].
  destruct (isSpace c); [| done].
  destruct (openFence l) as [rest |].
  - intros [= <-]. specialize (IH rest eq_refl). cbn. lia.
  - destruct (isNewline c); [| done]. intros H%closeFence_length. cbn. lia.
Qed.

Lemma matchBlock_length (l r : list ascii) :
  matchBlock l = Some r -> (length r <= length l)%nat.
Proof.
  unfold matchBlock. destruct (dropPrefix _ l) as [rest |] eqn:Hd; [| done].
  intros H%openFence_length. apply dropPrefix_length in Hd. lia.
Qed.

Lemma stripScan_length (l : list ascii) :
  forall atLineStart, (length (stripScan atLineStart l) <= length l)%nat.
Proof.
  induction l as [| c l IH]; intros b; cbn [stripScan].
  - destruct b; [| done]. destruct (matchBlock []) eqn:Hm; [| done].
    by apply matchBlock_length in Hm.
  - destruct (if b then matchBlock (c :: l) else None) eqn:Hm.
    + destruct b; [| done]. by apply matchBlock_length in Hm.
    + cbn. specialize (IH (isLineTerminator c)). lia.
Qed.

Lemma wordChar_not_space (c : ascii) : isWordChar c = true -> isSpace c = false.
Proof.
  unfold isWordChar, isLowerAlnum, isDigit, isSpace. cbn zeta.
  generalize (code c). intros n.
  repeat match goal with
  | |- context [N.leb ?x ?y] => destruct (N.leb_spec x y)
  | |- context [N.eqb ?x ?y] => destruct (N.eqb_spec x y)
  end; cbn; first [done | lia].
Qed.

Lemma lowerAlnum_wordChar (c : ascii) : isLowerAlnum c = true -> isWordChar c = true.
Proof. unfold isWordChar. by intros ->. Qed.

(** The words of [scanWords] are cut out of the text: together they are no
    longer than its non-space code units (and the pending word). *)
Lemma scanWords_total (l : list ascii) :
  forall cur,
    (length (concat (scanWords cur l)) <= length cur + nonSpaces l)%nat.
Proof.
  unfold nonSpaces.
  induction l as [| c l IH]; intros cur.
  - destruct cur as [| a cur]; cbn [scanWords concat]; [cbn; lia |].
    rewrite app_nil_r, length_rev. lia.
  - cbn [scanWords]. destruct cur as [| a cur].
    + destruct (isLowerAlnum c) eqn:Hc.
      * specialize (IH [c]). rewrite filter_cons_True
          by (by apply wordChar_not_space, lowerAlnum_wordChar).
        cbn in *. lia.
      * specialize (IH []). rewrite filter_cons. case_decide; cbn in *; lia.
    + destruct (isWordChar c) eqn:Hc.
      * specialize (IH (c :: a :: cur)).
        rewrite filter_cons_True by (by apply wordChar_not_space).
        cbn in *. lia.
      * specialize (IH []). cbn [concat]. rewrite length_app, length_rev.
        rewrite filter_cons. case_decide; cbn in *; lia.
Qed.

Lemma concat_long_words (words : list (list ascii)) :
  (2 * length (filter (fun word => (1 <? length word)%nat = true) words)
   <= length (concat words))%nat.
Proof.
  induction words as [| word words IH]; [done |].
  rewrite filter_cons. cbn [concat]. rewrite length_app.
  case_decide as Hlen; cbn [length]; [apply Nat.ltb_lt in Hlen |]; lia.
Qed.

Lemma lowerChar_space (c : ascii) : isSpace (lowerChar c) = isSpace c.
Proof.
  destruct c as [[] [] [] [] [] [] [] []]; reflexivity.
Qed.

Lemma nonSpaces_lower (l : list ascii) : nonSpaces (toLowerCase l) = nonSpaces l.
Proof.
  unfold nonSpaces, toLowerCase. induction l as [| c l IH]; [done |].
  cbn [map]. rewrite !filter_cons, lowerChar_space.
  case_decide; cbn [length]; lia.
Qed.

Lemma tokenizeWords_chars (text : list ascii) :
  (2 * length (tokenizeWords text) <= nonSpaces text)%nat.
Proof.
  unfold tokenizeWords.
  pose proof (concat_long_words (scanWords [] (toLowerCase text))).
  pose proof (scanWords_total (toLowerCase text) []).
  rewrite nonSpaces_lower in *. cbn in *. lia.
Qed.

Lemma length_remove_dups {A} `{EqDecision A} (l : list A) :
  (length (remove_dups l) <= length l)%nat.
Proof.
  induction l as [| x l IH]; [done |]. cbn. case_decide; cbn; lia.
Qed.

Lemma remove_dups_nonempty {A} `{EqDecision A} (l : list A) :
  l <> [] -> (0 < length (remove_dups l))%nat.
Proof.
  induction l as [| x l IH]; [done |]. intros _. cbn.
  destruct (decide_rel elem_of x l) as [Hin | Hin]; [| cbn; lia].
  apply IH. intros ->. by apply elem_of_nil in Hin.
Qed.

(** X11.  The signals of [computeQualitySignals] are in range for every
    document: the counts are not negative, the body has at most as many
    non-space characters as the document and at least two per word, the
    unique-word ratio lies in [0, 1] and is 0 only without words, there are
    at most 8 marketing-phrase hits, and so the score lies in [0, 100]. *)
Theorem computeQualitySignals_ranges (readmeText : string) (summary : option string) :
  let s := computeQualitySignals readmeText summary in
  0 <= bodyWords s /\
  2 * bodyWords s <= bodyChars s <= Z.of_nat (String.length readmeText) /\
  (0 <= uniqueWordRatio s <= 1)%Q /\
  (bodyWords s = 0 <-> (uniqueWordRatio s == 0)%Q) /\
  0 <= headingCount s /\ 0 <= bulletCount s /\
  0 <= templateMarkerHits s <= 8 /\
  0 <= scoreQuality s <= 100.
Proof.
  cbn zeta.
  set (body := stripFrontmatter (chars readmeText)).
  assert (Hhits : 0 <= templateMarkerHits (computeQualitySignals readmeText summary) <= 8).
  { unfold computeQualitySignals. cbn [templateMarkerHits].
    split; [lia |]. etrans; [apply inj_le, length_filter |]. done. }
  assert (Hwords : bodyWords (computeQualitySignals readmeText summary) =
                   Z.of_nat (length (tokenizeWords body))) by done.
  assert (Hchars : bodyChars (computeQualitySignals readmeText summary) =
                   Z.of_nat (nonSpaces body)) by done.
  assert (Hratio : uniqueWordRatio (computeQualitySignals readmeText summary) =
                   match length (tokenizeWords body) with
                   | O => 0%Q
                   | S _ => Z.of_nat (length (remove_dups (tokenizeWords body)))
                            # Pos.of_nat (length (tokenizeWords body))
                   end) by done.
  rewrite Hwords, Hchars, Hratio.
  pose proof (tokenizeWords_chars body) as Htc.
  pose proof (length_remove_dups (tokenizeWords body)) as Hdup.
  assert (Hbody : (nonSpaces body <= String.length readmeText)%nat).
  { unfold nonSpaces. etrans; [apply length_filter |].
    etrans; [apply stripScan_length |].
    unfold chars. clear. induction readmeText; cbn; lia. }
  split_and!.
  - lia.
  - lia.
  - lia.
  - destruct (length (tokenizeWords body)); [done |]. unfold Qle. cbn. lia.
  - destruct (length (tokenizeWords body)) as [| n] eqn:Hlen; [done |].
    unfold Qle. cbn [Qnum Qden]. rewrite Z.mul_1_r, Z.mul_1_l. lia.
  - destruct (tokenizeWords body) as [| word words] eqn:Hw; [done |].
    cbn [length]. split; [lia |]. unfold Qeq. cbn [Qnum Qden].
    pose proof (remove_dups_nonempty (word :: words)) as Hp.
    specialize (Hp ltac:(done)). lia.
  - unfold computeQualitySignals. cbn [headingCount]. lia.
  - unfold computeQualitySignals. cbn [bulletCount]. lia.
  - apply Hhits.
  - apply Hhits.
  - pose proof (scoreQuality_range _ (proj1 Hhits)). lia.
  - pose proof (scoreQuality_range _ (proj1 Hhits)). lia.
Qed.

(** ** Lines of the fingerprint *)

Lemma splitLines_app (a b : list ascii) (c : ascii) :
  isNewline c = true ->
  forall cur,
    splitLines cur (a ++ c :: b) = (splitLines cur a ++ splitLines [] b)%list.
Proof.
  intros Hc. induction a as [| x a IH]; intros cur.
  - cbn. by rewrite Hc.
  - cbn [app splitLines]. destruct (isNewline x); [by rewrite IH | apply IH].
Qed.

Lemma nonBlankLines_app (a b : list ascii) (c : ascii) :
  isNewline c = true ->
  nonBlankLines (a ++ c :: b) = (nonBlankLines a ++ nonBlankLines b)%list.
Proof.
  intros Hc. unfold nonBlankLines.
  by rewrite (splitLines_app a b c Hc), map_app, filter_app.
Qed.

(** X12.  Only the first 80 non-blank lines of the body count: two
    documents whose bodies agree up to a line break that comes after 80
    non-blank lines or more have the same fingerprint, whatever follows. *)
Theorem fingerprint_first_80_lines (md1 md2 : string) (tail : list ascii) :
  stripFrontmatter (chars md2) =
    (stripFrontmatter (chars md1) ++ chars nl ++ tail)%list ->
  (80 <= length (nonBlankLines (stripFrontmatter (chars md1))))%nat ->
  toStructuralFingerprint md2 = toStructuralFingerprint md1.
Proof.
  intros Hbody Hlen. unfold toStructuralFingerprint, fingerprintOfBody.
  fold (nonBlankLines (stripFrontmatter (chars md2))).
  fold (nonBlankLines (stripFrontmatter (chars md1))).
  rewrite Hbody. cbn [chars nl list_ascii_of_string app].
  rewrite nonBlankLines_app by done. by rewrite take_app_le.
Qed.

(** ** Letter case and the fingerprint *)

Ltac by_code_units c := destruct c as [[] [] [] [] [] [] [] []]; reflexivity.

Lemma lowerChar_newline (c : ascii) : isNewline (lowerChar c) = isNewline c.
Proof. by_code_units c. Qed.

Lemma lowerChar_terminator (c : ascii) :
  isLineTerminator (lowerChar c) = isLineTerminator c.
Proof. by_code_units c. Qed.

Lemma lowerChar_digit (c : ascii) : isDigit (lowerChar c) = isDigit c.
Proof. by_code_units c. Qed.

Lemma lowerChar_marker (c : ascii) :
  ((code (lowerChar c) =? 45) || (code (lowerChar c) =? 42))%N =
  ((code c =? 45) || (code c =? 42))%N.
Proof. by_code_units c. Qed.

Lemma lowerChar_dot (c : ascii) : (code (lowerChar c) =? 46)%N = (code c =? 46)%N.
Proof. by_code_units c. Qed.

Lemma lowerChar_idemp (c : ascii) : lowerChar (lowerChar c) = lowerChar c.
Proof. by_code_units c. Qed.

Lemma caseless_dash : caseless "-".
Proof. intros c. by_code_units c. Qed.

Lemma caseless_hash : caseless "#".
Proof. intros c. by_code_units c. Qed.

Lemma caseless_blank : caseless " ".
Proof. intros c. by_code_units c. Qed.

Lemma caseless_newline : caseless "010".
Proof. intros c. by_code_units c. Qed.

Lemma toLowerCase_idemp (l : list ascii) : toLowerCase (toLowerCase l) = toLowerCase l.
Proof.
  unfold toLowerCase. rewrite map_map. apply map_ext. apply lowerChar_idemp.
Qed.

Lemma skipSpaces_lower (l : list ascii) :
  skipSpaces (toLowerCase l) = toLowerCase (skipSpaces l).
Proof.
  induction l as [| c l IH]; [done |]. cbn. rewrite lowerChar_space.
  by destruct (isSpace c).
Qed.

Lemma skipDigits_lower (l : list ascii) :
  skipDigits (toLowerCase l) = toLowerCase (skipDigits l).
Proof.
  induction l as [| c l IH]; [done |]. cbn. rewrite lowerChar_digit.
  by destruct (isDigit c).
Qed.

Lemma dropPrefix_lower (p l : list ascii) :
  Forall caseless p ->
  dropPrefix p (toLowerCase l) = option_map toLowerCase (dropPrefix p l).
Proof.
  intros Hp. revert l. induction Hp as [| a p Ha _ IH]; intros [| c l]; try done.
  cbn. rewrite Ha. destruct (Ascii.eqb a c); [apply IH | done].
Qed.

Lemma afterFirst_lower (p l : list ascii) :
  Forall caseless p ->
  afterFirst p (toLowerCase l) = option_map toLowerCase (afterFirst p l).
Proof.
  intros Hp. induction l as [| c l IH].
  - cbn [afterFirst toLowerCase map].
    change (@nil ascii) with (toLowerCase []) at 1.
    rewrite (dropPrefix_lower p [] Hp). by destruct (dropPrefix p []).
  - cbn [afterFirst]. change (toLowerCase (c :: l)) with (lowerChar c :: toLowerCase l).
    cbn [afterFirst].
    change (lowerChar c :: toLowerCase l) with (toLowerCase (c :: l)).
    rewrite (dropPrefix_lower p (c :: l) Hp).
    destruct (dropPrefix p (c :: l)); [done | apply IH].
Qed.

Lemma closeFence_lower (l : list ascii) :
  closeFence (toLowerCase l) = option_map toLowerCase (closeFence l).
Proof.
  unfold closeFence. rewrite afterFirst_lower.
  - destruct (afterFirst _ l); cbn; [by rewrite skipSpaces_lower | done].
  - change (chars (nl ++ "---")) with ["010"; "-"; "-"; "-"]%char.
    repeat constructor; first [apply caseless_newline | apply caseless_dash].
Qed.

Lemma openFence_lower (l : list ascii) :
  openFence (toLowerCase l) = option_map toLowerCase (openFence l).
Proof.
  induction l as [| c l IH]; [done |].
  change (toLowerCase (c :: l)) with (lowerChar c :: toLowerCase l).
  cbn [openFence]. rewrite lowerChar_space, lowerChar_newline, IH, closeFence_lower.
  destruct (isSpace c); [| done].
  destruct (openFence l); [done |]. by destruct (isNewline c).
Qed.

Lemma matchBlock_lower (l : list ascii) :
  matchBlock (toLowerCase l) = option_map toLowerCase (matchBlock l).
Proof.
  unfold matchBlock. rewrite dropPrefix_lower
    by (unfold chars; cbn; repeat constructor; apply caseless_dash).
  destruct (dropPrefix _ l); cbn; [apply openFence_lower | done].
Qed.

Lemma stripScan_lower (l : list ascii) :
  forall atLineStart,
    stripScan atLineStart (toLowerCase l) = toLowerCase (stripScan atLineStart l).
Proof.
  induction l as [| c l IH]; intros b.
  - cbn [toLowerCase map stripScan]. destruct b; [| done].
    change (@nil ascii) with (toLowerCase []) at 1. rewrite matchBlock_lower.
    by destruct (matchBlock []).
  - change (toLowerCase (c :: l)) with (lowerChar c :: toLowerCase l).
    cbn [stripScan].
    change (lowerChar c :: toLowerCase l) with (toLowerCase (c :: l)).
    destruct b.
    + rewrite matchBlock_lower. destruct (matchBlock (c :: l)); [done |].
      cbn [option_map]. rewrite lowerChar_terminator, IH. done.
    + rewrite lowerChar_terminator, IH. done.
Qed.

Lemma splitLines_lower (l : list ascii) :
  forall cur,
    splitLines (toLowerCase cur) (toLowerCase l) =
    map toLowerCase (splitLines cur l).
Proof.
  unfold toLowerCase.
  induction l as [| c l IH]; intros cur.
  - cbn. by rewrite map_rev.
  - cbn [map splitLines]. rewrite lowerChar_newline.
    destruct (isNewline c).
    + cbn [map]. rewrite map_rev. f_equal. apply (IH []).
    + apply (IH (c :: cur)).
Qed.

Lemma trimChars_lower (l : list ascii) :
  trimChars (toLowerCase l) = toLowerCase (trimChars l).
Proof.
  unfold trimChars. rewrite skipSpaces_lower.
  unfold toLowerCase at 1. rewrite <- map_rev.
  fold (toLowerCase (rev (skipSpaces l))). rewrite skipSpaces_lower.
  unfold toLowerCase. by rewrite map_rev.
Qed.

Lemma tokenizeWords_lower (l : list ascii) :
  tokenizeWords (toLowerCase l) = tokenizeWords l.
Proof. unfold tokenizeWords. by rewrite toLowerCase_idemp. Qed.

Lemma wordBucket_lower (l : list ascii) : wordBucket (toLowerCase l) = wordBucket l.
Proof. unfold wordBucket. by rewrite tokenizeWords_lower. Qed.

Lemma bulletRest_lower (l : list ascii) :
  bulletRest (toLowerCase l) = option_map toLowerCase (bulletRest l).
Proof.
  destruct l as [| c [| s rest]]; try done. cbn.
  rewrite lowerChar_marker, lowerChar_space.
  destruct (_ && _); [| done]. cbn. f_equal. apply skipSpaces_lower.
Qed.

Lemma numberedRest_lower (l : list ascii) :
  numberedRest (toLowerCase l) = option_map toLowerCase (numberedRest l).
Proof.
  destruct l as [| d l]; [done |].
  change (toLowerCase (d :: l)) with (lowerChar d :: toLowerCase l).
  cbn [numberedRest]. rewrite lowerChar_digit, skipDigits_lower.
  destruct (isDigit d); [| done].
  destruct (skipDigits l) as [| dot [| s rest]]; try done. cbn.
  rewrite lowerChar_dot, lowerChar_space.
  destruct (_ && _); [| done]. cbn. f_equal. apply skipSpaces_lower.
Qed.

Lemma lineToken_lower (line : list ascii) :
  lineToken (toLowerCase line) = lineToken line.
Proof.
  assert (Hprefix : forall p, Forall caseless (chars p) ->
            dropPrefix (chars p) (toLowerCase line) =
            option_map toLowerCase (dropPrefix (chars p) line)).
  { intros p Hp. by apply dropPrefix_lower. }
  unfold lineToken.
  rewrite !Hprefix, bulletRest_lower, numberedRest_lower
    by (unfold chars; cbn; repeat constructor;
        first [apply caseless_hash | apply caseless_blank]).
  repeat match goal with
  | |- context [option_map _ ?o] => destruct o; cbn [option_map]
  end; by rewrite wordBucket_lower.
Qed.

Lemma nonBlankLines_lower (body : list ascii) :
  nonBlankLines (toLowerCase body) = map toLowerCase (nonBlankLines body).
Proof.
  unfold nonBlankLines.
  change (splitLines [] (toLowerCase body))
    with (splitLines (toLowerCase []) (toLowerCase body)).
  rewrite (splitLines_lower body []), map_map.
  induction (splitLines [] body) as [| line lines IH]; [done |].
  cbn [map]. rewrite !filter_cons, trimChars_lower.
  assert (Hne : nonEmpty (toLowerCase (trimChars line)) = nonEmpty (trimChars line))
    by (by destruct (trimChars line)).
  rewrite Hne. case_decide; cbn [map]; by rewrite IH.
Qed.

Lemma fingerprintOfBody_lower (body : list ascii) :
  fingerprintOfBody (toLowerCase body) = fingerprintOfBody body.
Proof.
  unfold fingerprintOfBody.
  fold (nonBlankLines (toLowerCase body)). fold (nonBlankLines body).
  rewrite nonBlankLines_lower. f_equal.
  rewrite <- fmap_take. change (fmap toLowerCase) with (map toLowerCase).
  rewrite map_map. apply map_ext. apply lineToken_lower.
Qed.

(** X13.  The fingerprint does not see the case of letters: two documents
    that become equal under [toLowerCase] have the same fingerprint. *)
Theorem fingerprint_ignores_case (md1 md2 : string) :
  toLowerCase (chars md1) = toLowerCase (chars md2) ->
  toStructuralFingerprint md1 = toStructuralFingerprint md2.
Proof.
  intros Heq. unfold toStructuralFingerprint, stripFrontmatter.
  rewrite <- (fingerprintOfBody_lower (stripScan true (chars md1))).
  rewrite <- (fingerprintOfBody_lower (stripScan true (chars md2))).
  by rewrite <- !stripScan_lower, Heq.
Qed.

Lemma fingerprint_ignores_case_witness :
  toStructuralFingerprint ("# Title" ++ nl ++ "- Use The Tool") =
  toStructuralFingerprint ("# TITLE" ++ nl ++ "- use the tool").
Proof. apply fingerprint_ignores_case. vm_compute. reflexivity. Defined.

Lemma fingerprint_first_80_witness :
  toStructuralFingerprint (eightyBullets ++ nl ++ "## Anything else") =
  toStructuralFingerprint eightyBullets.
Proof.
  apply (fingerprint_first_80_lines eightyBullets _ (chars "## Anything else")).
  - vm_compute. reflexivity.
  - vm_compute. lia.
Defined.

(** ** Metadata of a published version *)

(** X14.  [mergeSourceIntoMetadata] returns nothing exactly when there is
    nothing to store (no field, no source, no assessment).  Otherwise the
    result holds the source under [source] and the assessment under
    [_clawhubQuality], each in place of a field of that name in the input,
    and every other field of the input unchanged; without an assessment a
    [_clawhubQuality] field of the input is passed on as it is.  Metadata
    that is not an object counts as an object without fields. *)
Theorem mergeSourceIntoMetadata_fields {V : Type} (fields : gmap string V)
    (source : option Source) (qa : option QualityAssessment) (now : Z) :
  let result := mergeSourceIntoMetadata (JsObject fields) source qa now in
  (result = None <-> fields = ∅ /\ source = None /\ qa = None) /\
  (forall r, result = Some r ->
     (forall s, source = Some s -> r !! "source" = Some (SourceValue s)) /\
     (source = None -> r !! "source" = UserValue <$> fields !! "source") /\
     (forall a, qa = Some a ->
        r !! "_clawhubQuality" =
          Some (QualityValue (mkQualityStamp (score a) (decision a) (trustTier a)
                                (similarRecentCount a) (signals a) (reason a) now))) /\
     (qa = None ->
        r !! "_clawhubQuality" = UserValue <$> fields !! "_clawhubQuality") /\
     (forall key, key <> "source" -> key <> "_clawhubQuality" ->
        r !! key = UserValue <$> fields !! key)) /\
  mergeSourceIntoMetadata (V := V) JsOther source qa now =
    mergeSourceIntoMetadata (JsObject ∅) source qa now.
Proof.
  cbn zeta. unfold mergeSourceIntoMetadata.
  set (base0 := UserValue <$> fields).
  set (base1 := match source with Some s => _ | None => base0 end).
  set (base2 := match qa with Some a => _ | None => base1 end).
  assert (Hsize : size base2 = 0%nat <-> fields = ∅ /\ source = None /\ qa = None).
  { rewrite map_size_empty_iff. unfold base2, base1, base0. split.
    - destruct qa; [intros H; by apply insert_non_empty in H |].
      destruct source; [intros H; by apply insert_non_empty in H |].
      intros H. by apply fmap_empty_inv in H.
    - intros (-> & -> & ->). apply fmap_empty. }
  split_and!.
  3: { unfold mergeSourceIntoMetadata. by rewrite fmap_empty. }
  - case_bool_decide; split; try done; tauto.
  - intros r Hr. case_bool_decide; [done |]. injection Hr as <-.
    unfold base2, base1, base0. split_and!.
    + intros [] ->. destruct qa; cbn.
      * by rewrite lookup_insert_ne, lookup_insert_eq.
      * by rewrite lookup_insert_eq.
    + intros ->. destruct qa.
      * by rewrite lookup_insert_ne, lookup_fmap.
      * by rewrite lookup_fmap.
    + intros a ->. by rewrite lookup_insert_eq.
    + intros ->. destruct source.
      * by rewrite lookup_insert_ne, lookup_fmap.
      * by rewrite lookup_fmap.
    + intros key Hs Hq. destruct qa, source;
        rewrite ?lookup_insert_ne by done; by rewrite lookup_fmap.
Qed.

(** ** Limits and order of the list of reported comments *)

Lemma listLimit_cases (limit : option (Number Q)) :
  (limit = Some JsNaN /\ listLimit limit = JsNaN) \/
  (limit <> Some JsNaN /\
   exists n, 1 <= n <= MAX_LIST_BULK_LIMIT /\ listLimit limit = JsNum n).
Proof.
  unfold listLimit, clampInt, MAX_LIST_BULK_LIMIT.
  destruct limit as [[| | | q] |]; cbn.
  - by left.
  - right. split; [done |]. exists 1. split; [lia | done].
  - right. split; [done |]. exists 200. split; [lia | done].
  - right. split; [done |]. eexists. split; [| reflexivity]. lia.
  - right. split; [done |]. exists 25. split; [lia | done].
Qed.

(** X15.  The limits of [listReportedCommentsHandler].  A limit of [NaN]
    stays [NaN], and so does the number of comments to read.  For every
    other limit, the infinities included, the handler lists between 1 and
    200 comments out of 5 to 1000 it reads (five times the limit, capped);
    without a limit it lists 25 out of 125, a fractional limit is rounded
    down, and the infinities give 200 and 1. *)
Theorem list_limits (limit : option (Number Q)) :
  (limit = Some JsNaN ->
     listLimit limit = JsNaN /\ listTakeLimit limit = JsNaN) /\
  (limit <> Some JsNaN ->
     exists n,
       listLimit limit = JsNum n /\ 1 <= n <= MAX_LIST_BULK_LIMIT /\
       listTakeLimit limit = JsNum (Z.min (5 * n) MAX_LIST_TAKE) /\
       5 <= Z.min (5 * n) MAX_LIST_TAKE <= MAX_LIST_TAKE /\
       n <= Z.min (5 * n) MAX_LIST_TAKE) /\
  (limit = None ->
     listLimit limit = JsNum 25 /\ listTakeLimit limit = JsNum 125) /\
  (forall q, limit = Some (JsNum q) -> (1 <= q)%Q -> (q <= 200)%Q ->
     listLimit limit = JsNum (Qfloor q)) /\
  (limit = Some JsPosInf -> listLimit limit = JsNum MAX_LIST_BULK_LIMIT) /\
  (limit = Some JsNegInf -> listLimit limit = JsNum 1).
Proof.
  split_and!.
  - by intros ->.
  - intros Hnan.
    destruct (listLimit_cases limit) as [[Heq _] | (_ & n & Hn & Heq)]; [done |].
    exists n. unfold listTakeLimit. rewrite Heq.
    unfold MAX_LIST_BULK_LIMIT, MAX_LIST_TAKE in *. cbn.
    split_and!; try done; try lia. f_equal. lia.
  - by intros ->.
  - intros q -> Hlo Hhi.
    unfold listLimit, clampInt, MAX_LIST_BULK_LIMIT. cbn.
    pose proof (Qfloor_resp_le 1 q Hlo) as H1.
    pose proof (Qfloor_resp_le q 200 Hhi) as H2.
    change (Qfloor 1) with 1 in H1. change (Qfloor 200) with 200 in H2.
    f_equal. lia.
  - by intros ->.
  - by intros ->.
Qed.

Lemma insertByLastReported_perm (x : Comment) (l : list Comment) :
  insertByLastReported x l ≡ₚ x :: l.
Proof.
  induction l as [| y l IH]; [done |]. cbn.
  destruct (lastReported y >? lastReported x); [| done].
  rewrite IH. apply Permutation_swap.
Qed.

Lemma sortByLastReported_perm (l : list Comment) : sortByLastReported l ≡ₚ l.
Proof.
  induction l as [| x l IH]; [done |]. cbn.
  by rewrite insertByLastReported_perm, IH.
Qed.

Lemma insertByLastReported_sorted (x : Comment) (l : list Comment) :
  StronglySorted laterFirst l -> StronglySorted laterFirst (insertByLastReported x l).
Proof.
  induction 1 as [| y l Hl IH Hy]; [by repeat constructor |].
  cbn. destruct (Z.gtb_spec (lastReported y) (lastReported x)) as [Hgt | Hle].
  - constructor; [done |].
    rewrite Forall_forall. intros z Hz.
    rewrite insertByLastReported_perm in Hz.
    apply elem_of_cons in Hz as [-> | Hz]; [unfold laterFirst; lia |].
    rewrite Forall_forall in Hy. by apply Hy.
  - constructor; [by constructor |]. constructor; [done |].
    rewrite Forall_forall in *. intros z Hz. specialize (Hy z Hz).
    unfold laterFirst in *. lia.
Qed.

Lemma sortByLastReported_sorted (l : list Comment) :
  StronglySorted laterFirst (sortByLastReported l).
Proof.
  induction l as [| x l IH]; [constructor |]. by apply insertByLastReported_sorted.
Qed.

Lemma sortByLastReported_sorted_id (l : list Comment) :
  StronglySorted laterFirst l -> sortByLastReported l = l.
Proof.
  induction 1 as [| x l Hl IH Hx]; [done |].
  cbn. fold (sortByLastReported l). rewrite IH.
  destruct l as [| y l']; [done |]. cbn.
  apply Forall_cons in Hx as [Hy _]. unfold laterFirst in Hy.
  destruct (Z.gtb_spec (lastReported y) (lastReported x)); [lia | done].
Qed.

Lemma laterFirst_app (l1 l2 : list Comment) :
  StronglySorted laterFirst (l1 ++ l2) ->
  StronglySorted laterFirst l1 /\
  forall x y, x ∈ l1 -> y ∈ l2 -> laterFirst x y.
Proof.
  induction l1 as [| a l1 IH]; cbn; intros H.
  - split; [constructor |]. intros x y Hx. by apply elem_of_nil in Hx.
  - inversion H as [| ? ? Hs Ha]; subst. destruct (IH Hs) as [IH1 IH2].
    rewrite Forall_app, !Forall_forall in Ha. destruct Ha as [Ha1 Ha2].
    split; [constructor; [done | by rewrite Forall_forall] |].
    intros x y Hx Hy. apply elem_of_cons in Hx as [-> | Hx]; eauto.
Qed.

(** The first [k] of the reported entries, the latest reported first. *)
Lemma reported_take (k : nat) (entries : list Comment) :
  let result := take k (sortByLastReported (filter isReported entries)) in
  let reported := filter isReported entries in
  length result = Nat.min k (length reported) /\
  Forall isReported result /\
  result ⊆+ entries /\
  StronglySorted laterFirst result /\
  (forall c d, c ∈ reported -> c ∉ result -> d ∈ result -> laterFirst d c) /\
  (StronglySorted laterFirst reported -> result = take k reported).
Proof.
  cbn zeta.
  set (reported := filter isReported entries).
  pose proof (sortByLastReported_perm reported) as Hperm.
  pose proof (sortByLastReported_sorted reported) as Hsorted.
  split_and!.
  - by rewrite length_take, Hperm.
  - rewrite Forall_forall. intros c Hc.
    apply elem_of_take in Hc as (i & Hc & _). apply list_elem_of_lookup_2 in Hc.
    rewrite Hperm in Hc. unfold reported in Hc.
    by apply list_elem_of_filter in Hc as [Hc _].
  - transitivity (sortByLastReported reported).
    + apply sublist_submseteq, sublist_take.
    + rewrite Hperm. apply sublist_submseteq, sublist_filter.
  - rewrite <- (take_drop k (sortByLastReported reported)) in Hsorted.
    by apply laterFirst_app in Hsorted as [Hsorted _].
  - intros c d Hc Hnot Hd.
    rewrite <- Hperm, <- (take_drop k (sortByLastReported reported)) in Hc.
    apply elem_of_app in Hc as [Hc | Hc]; [done |].
    rewrite <- (take_drop k (sortByLastReported reported)) in Hsorted.
    apply laterFirst_app in Hsorted as [_ Hsorted]. by apply Hsorted.
  - intros Hin. by rewrite sortByLastReported_sorted_id.
Qed.

(** X16.  The comments [listReportedCommentsHandler] lists, out of the
    [entries] the query returned.  With a limit of [NaN] it lists none.
    With any other limit it lists as many as the clamped limit allows, as
    far as there are reported entries.  In every case it lists at most 200,
    each one reported at least once and taken from [entries], the latest
    reported first; a reported comment that is left out was last reported
    no later than every listed one; and when the reported entries are
    already in that order, the list is a slice of them in the order
    read. *)
Theorem reportedComments_selection (limit : option (Number Q))
    (entries : list Comment) :
  let result := reportedComments (listLimit limit) entries in
  let reported := filter isReported entries in
  (limit = Some JsNaN -> result = []) /\
  (limit <> Some JsNaN ->
     exists n, listLimit limit = JsNum n /\ 1 <= n <= MAX_LIST_BULK_LIMIT /\
               length result = Nat.min (Z.to_nat n) (length reported)) /\
  (length result <= 200)%nat /\
  Forall isReported result /\
  result ⊆+ entries /\
  StronglySorted laterFirst result /\
  (forall c d, c ∈ reported -> c ∉ result -> d ∈ result -> laterFirst d c) /\
  (StronglySorted laterFirst reported ->
   result = sliceTo (listLimit limit) reported).
Proof.
  cbn zeta. unfold reportedComments. fold isReported.
  assert (Hk : exists k : nat,
             (k <= 200)%nat /\
             (forall l : list Comment, sliceTo (listLimit limit) l = take k l) /\
             (limit = Some JsNaN -> k = 0%nat) /\
             (forall n, listLimit limit = JsNum n -> k = Z.to_nat n)).
  { destruct (listLimit_cases limit) as [[Hl Heq] | (Hl & n & Hn & Heq)];
      rewrite Heq.
    - exists 0%nat. split_and!; [lia | done | done | done].
    - exists (Z.to_nat n). unfold MAX_LIST_BULK_LIMIT in Hn.
      split_and!; [lia | | done | by intros ? [= <-]].
      intros l. cbn. destruct (Z.ltb_spec n 0); [lia | done]. }
  destruct Hk as (k & Hk & Hslice & Hnan & Hnum). rewrite !Hslice.
  destruct (reported_take k entries) as (Hlen & Hrep & Hsub & Hsort & Hout & Hid).
  split_and!; try done.
  - intros Hl. rewrite (Hnan Hl). apply take_0.
  - intros Hl.
    destruct (listLimit_cases limit) as [[Hl' _] | (_ & n & Hn & Heq)]; [done |].
    exists n. split_and!; try done; try lia. by rewrite <- (Hnum n Heq).
  - rewrite Hlen. lia.
Qed.

(** ** Invariants between the report table and the comment table *)

Lemma mutation_report_db (acc : Access) (ctx : Ctx) (commentId : Id)
    (reason : string) (w : World) :
  db (snd (mutation acc ctx (ReqReport commentId reason) w)) =
    db (snd (reportHandler ctx commentId reason w)).
Proof.
  unfold mutation, mbind, M_bind.
  by destruct (reportHandler ctx commentId reason w) as [[r | e] w'].
Qed.

Lemma reported_reason (ctx : Ctx) (commentId : Id) (reason : string) (w : World) :
  fst (reportHandler ctx commentId reason w) = Returned REPORTED ->
  trim reason <> "".
Proof.
  intros Hrep Hb.
  destruct (report_outcome ctx commentId reason w)
    as [(Hne & _) | (_ & user & c & Hs & Hc & Hv & _)]; [done |].
  by rewrite (report_blank ctx user _ _ _ Hs c) in Hrep.
Qed.

Lemma removePatch_count (now : Z) (userId : Id) (isOwner : bool) (c : Comment) :
  c_reportCount (removePatch now userId isOwner c) = c_reportCount c /\
  c_skillId (removePatch now userId isOwner c) = c_skillId c.
Proof. done. Qed.

Lemma softDeletePatch_count (now : Z) (userId : Id) (deleted : bool) (c : Comment) :
  c_reportCount (softDeletePatch now userId deleted c) = c_reportCount c.
Proof. by destruct deleted. Qed.

Lemma reportPatch_count (now n : Z) (hide : bool) (c : Comment) :
  c_reportCount (reportPatch now n hide c) = Some n.
Proof. by destruct hide. Qed.

(** Patching a comment without touching its skill or its count keeps the
    book. *)
Lemma reportBook_patch (d d' : Db) (commentId : Id) (c c' : Comment) :
  comments d !! commentId = Some c ->
  comments d' = <[commentId := c']> (comments d) ->
  commentReports d' = commentReports d ->
  c_skillId c' = c_skillId c ->
  c_reportCount c' = c_reportCount c ->
  reportBook d -> reportBook d'.
Proof.
  intros Hc Hcs Hrs Hskill Hcount [Href Hcnt]. split.
  - intros r Hr. rewrite Hrs in Hr. destruct (Href r Hr) as (c0 & Hc0 & Hs0).
    rewrite Hcs. destruct (decide (r_commentId r = commentId)) as [He | Hne].
    + exists c'. rewrite He, lookup_insert_eq. split; [done |]. congruence.
    + exists c0. by rewrite lookup_insert_ne.
  - intros cid c0. rewrite Hcs. unfold reportsOfComment. rewrite Hrs.
    destruct (decide (cid = commentId)) as [-> | Hne].
    + rewrite lookup_insert_eq. intros [= <-]. rewrite Hcount. by apply Hcnt.
    + rewrite lookup_insert_ne by done. apply Hcnt.
Qed.

Lemma mutation_preserves_reportBook (acc : Access) (ctx : Ctx) (req : Request)
    (w : World) :
  NoDup (map r_id (commentReports (db w))) ->
  reportBook (db w) -> reportBook (db (snd (mutation acc ctx req w))).
Proof.
  intros Hnd Hbook.
  destruct (mutation_db_cases acc ctx req w) as [-> | (user & c & Hs & He)];
    [done |].
  set (w' := snd (mutation acc ctx req w)) in *.
  destruct req as [cid | cid reason | cid deleted | cid].
  - destruct He as (Hc & _ & ->).
    by apply (reportBook_patch (db w) _ cid c
                (removePatch (now ctx) (u_id user)
                   (Nat.eqb (c_userId c) (u_id user)) c)).
  - destruct He as (Hc & _ & _ & _ & (_ & Hcs & _ & Hrs & _)).
    destruct Hbook as [Href Hcnt]. split.
    + intros r. rewrite Hrs, Hcs, elem_of_app, list_elem_of_singleton.
      intros [Hr | ->].
      * destruct (Href r Hr) as (c0 & Hc0 & Hs0).
        destruct (decide (r_commentId r = cid)) as [Heq | Hne].
        -- eexists. rewrite Heq, lookup_insert_eq. split; [done |].
           rewrite reportPatch_skill. congruence.
        -- exists c0. by rewrite lookup_insert_ne.
      * eexists. cbn [newReport r_commentId r_skillId].
        rewrite lookup_insert_eq. split; [done |]. by rewrite reportPatch_skill.
    + intros cid' c0. rewrite Hcs. unfold reportsOfComment.
      rewrite Hrs, filter_app, length_app.
      fold (reportsOfComment (db w) cid').
      destruct (decide (cid' = cid)) as [-> | Hne].
      * rewrite lookup_insert_eq. intros [= <-]. rewrite reportPatch_count.
        rewrite filter_cons_True by done. cbn [default length filter].
        unfold nextCount. rewrite (Hcnt cid c Hc). cbn. lia.
      * rewrite lookup_insert_ne by done. intros Hc0.
        rewrite filter_cons_False by (cbn; congruence).
        rewrite (Hcnt cid' c0 Hc0). cbn. lia.
  - destruct He as (Hc & ->).
    apply (reportBook_patch (db w) _ cid c
             (softDeletePatch (now ctx) (u_id user) deleted c));
      try done; [apply softDeletePatch_skill | apply softDeletePatch_count].
  - destruct He as (Hc & ->). destruct Hbook as [Href Hcnt].
    unfold reportBook, reportsOfComment, afterHardDelete.
    cbn [comments commentReports]. rewrite (purge_by_ids (db w) cid Hnd). split.
    + intros r [Hne Hr]%list_elem_of_filter.
      destruct (Href r Hr) as (c0 & Hc0 & Hs0).
      exists c0. by rewrite lookup_delete_ne.
    + intros cid' c0 [Hne Hc0]%lookup_delete_Some.
      rewrite (Hcnt cid' c0 Hc0). unfold reportsOfComment.
      rewrite list_filter_filter. f_equal. f_equal.
      apply filter_iff_in. intros r _. split; [| tauto].
      intros <-. split; [done | congruence].
Qed.

(** The reporters of one comment, when no pair of comment and reporter has
    two reports. *)
Lemma reporters_NoDup (commentId : Id) (l : list Report) :
  (forall userId,
     (length (filter (fun r => r_commentId r = commentId /\ r_userId r = userId) l)
      <= 1)%nat) ->
  NoDup (map r_userId (filter (fun r => r_commentId r = commentId) l)).
Proof.
  induction l as [| a l IH]; intros Hu; [constructor |].
  assert (Hl : forall userId,
             (length (filter (fun r => r_commentId r = commentId /\
                                       r_userId r = userId) l) <= 1)%nat).
  { intros uid. specialize (Hu uid). rewrite filter_cons in Hu.
    case_decide; cbn [length] in Hu; lia. }
  rewrite filter_cons. case_decide as Ha; [| by apply IH].
  cbn. apply NoDup_cons. split; [| by apply IH].
  intros Hin. apply list_elem_of_fmap in Hin as (r & Hid & Hr).
  apply list_elem_of_filter in Hr as [Hcid Hr].
  specialize (Hu (r_userId a)). rewrite filter_cons_True in Hu by done.
  assert (Hx : r ∈ filter (fun r0 => r_commentId r0 = commentId /\
                                    r_userId r0 = r_userId a) l)
    by (by apply list_elem_of_filter).
  apply list_elem_of_split in Hx as (l1 & l2 & Heq).
  rewrite Heq, length_cons, length_app, length_cons in Hu. lia.
Qed.

(** X17.  Whatever requests are served, in any order and by anyone, the
    report table stays in step with the comment table: every report
    belongs to a stored comment of the same skill, a comment's
    [reportCount] is the number of reports stored against it, and these
    come from as many different users (restoring or removing a comment
    does not reset the count, deleting it for good takes its reports
    along). *)
Theorem runMutations_report_book (acc : Access) (reqs : list (Ctx * Request)) :
  forall w : World,
    uniqueIds (db w) -> uniquePairs (db w) -> reportBook (db w) ->
    let d' := db (runMutations acc reqs w) in
    reportBook d' /\
    forall commentId c, comments d' !! commentId = Some c ->
      NoDup (map r_userId (reportsOfComment d' commentId)) /\
      default 0 (c_reportCount c) =
        Z.of_nat (length (map r_userId (reportsOfComment d' commentId))).
Proof.
  induction reqs as [| [ctx req] rest IH]; intros w Hi Hp Hb.
  - cbn. split; [done |]. intros cid c Hc. split.
    + apply reporters_NoDup. intros uid. apply (Hp cid uid).
    + rewrite length_map. by apply Hb.
  - cbn [runMutations]. apply IH.
    + by apply mutation_preserves_uniqueIds.
    + by apply mutation_preserves_uniquePairs.
    + apply mutation_preserves_reportBook; [apply Hi | done].
Qed.

Lemma runMutations_report_book_witness :
  reportBook
    (db (runMutations roleAccess
           [(mkCtx (Some (plainUser 11)) 1, ReqReport 1 "spam");
            (moderatorCtx 2, ReqSetSoftDeleted 1 true);
            (moderatorCtx 3, ReqSetSoftDeleted 1 false);
            (mkCtx (Some (plainUser 12)) 4, ReqReport 1 "more spam")]
           freshWorld)).
Proof.
  refine (proj1 (runMutations_report_book roleAccess _ freshWorld _ _ _)).
  - split; [apply NoDup_nil_2 | apply Forall_nil_2].
  - intros cid uid. cbn. lia.
  - split.
    + intros r Hr. by apply elem_of_nil in Hr.
    + intros cid c Hc. cbn in Hc.
      apply lookup_singleton_Some in Hc as [<- <-]. reflexivity.
Defined.

(** ** Stored reasons *)

Lemma skipSpaces_split (l : list ascii) :
  exists pre, l = (pre ++ skipSpaces l)%list /\ Forall (fun c => isSpace c = true) pre.
Proof.
  induction l as [| c l (pre & Hl & Hpre)]; [by exists [] |].
  cbn. destruct (isSpace c) eqn:Hc.
  - exists (c :: pre). split; [cbn; congruence | by constructor].
  - by exists [].
Qed.

Lemma skipSpaces_head (l : list ascii) (c : ascii) (rest : list ascii) :
  skipSpaces l = c :: rest -> isSpace c = false.
Proof.
  induction l as [| a l IH]; [done |]. cbn.
  destruct (isSpace a) eqn:Ha; [done |]. by intros [= <- _].
Qed.

Lemma trimChars_head (l : list ascii) (c : ascii) (rest : list ascii) :
  trimChars l = c :: rest -> isSpace c = false.
Proof.
  unfold trimChars. intros Ht.
  destruct (skipSpaces l) as [| a m] eqn:Hm; [done |].
  pose proof (skipSpaces_head l a m Hm) as Ha.
  destruct (skipSpaces_split (rev (a :: m))) as (pre & Hsplit & Hpre).
  apply (f_equal (@rev ascii)) in Hsplit.
  rewrite rev_involutive, rev_app_distr, Ht in Hsplit. cbn in Hsplit.
  by injection Hsplit as -> _.
Qed.

Lemma substring_head (n : nat) (a : ascii) (s : string) :
  substring 0 (S n) (String a s) = String a (substring 0 n s).
Proof. done. Qed.

Lemma substring_length_le (n : nat) (s : string) :
  (String.length (substring 0 n s) <= n)%nat.
Proof.
  revert s. induction n as [| n IH]; intros [| a s]; cbn; try lia.
  specialize (IH s). lia.
Qed.

Lemma trim_head (s : string) :
  trim s <> "" -> exists a rest, trim s = String a rest /\ isSpace a = false.
Proof.
  unfold trim. destruct (trimChars (list_ascii_of_string s)) as [| a l] eqn:Ht;
    [done |].
  intros _. exists a, (string_of_list_ascii l). split; [done |].
  by apply (trimChars_head _ _ _ Ht).
Qed.

Lemma mutation_reasons (acc : Access) (ctx : Ctx) (req : Request) (w : World) :
  Forall (fun r => storedReason (r_reason r)) (commentReports (db w)) ->
  Forall (fun r => storedReason (r_reason r))
         (commentReports (db (snd (mutation acc ctx req w)))).
Proof.
  intros Hall.
  destruct req as [cid | cid reason | cid deleted | cid].
  2: { rewrite mutation_report_db.
       destruct (report_outcome ctx cid reason w)
         as [(_ & -> & _) | (Hrep & user & c & _ & _ & _ & He)]; [done |].
       destruct He as (_ & _ & _ & -> & _).
       apply Forall_app. split; [done |]. constructor; [| constructor].
       cbn [newReport r_reason].
       destruct (trim_head reason (reported_reason _ _ _ _ Hrep))
         as (a & rest & -> & Ha).
       split; [| apply substring_length_le].
       exists a, (substring 0 499 rest). by split. }
  all: match goal with
       | |- context [mutation ?a ?x ?req ?w0] =>
           destruct (mutation_db_cases a x req w0)
             as [-> | (user & c & Hs & He)]; [done |]
       end.
  - by destruct He as (_ & _ & ->).
  - by destruct He as (_ & ->).
  - destruct He as (_ & ->). unfold afterHardDelete. cbn [commentReports].
    rewrite Forall_forall in *. intros r [_ Hr]%list_elem_of_filter. by apply Hall.
Qed.

(** X18.  Requests never leave a blank or oversized reason behind: if the
    stored reasons start with a character that is not white space and have
    at most 500 code units, they still do after any requests, whoever
    sends them. *)
Theorem runMutations_reasons (acc : Access) (reqs : list (Ctx * Request)) :
  forall w : World,
    Forall (fun r => storedReason (r_reason r)) (commentReports (db w)) ->
    Forall (fun r => storedReason (r_reason r))
           (commentReports (db (runMutations acc reqs w))).
Proof.
  induction reqs as [| [ctx req] rest IH]; intros w Hall; [done |].
  cbn [runMutations]. by apply IH, mutation_reasons.
Qed.

Lemma runMutations_reasons_witness :
  Forall (fun r => storedReason (r_reason r))
    (commentReports
       (db (runMutations roleAccess
              [(mkCtx (Some (plainUser 11)) 1, ReqReport 1 "  spam  ");
               (mkCtx (Some (plainUser 12)) 2, ReqReport 1 "   ")]
              freshWorld))).
Proof.
  apply (runMutations_reasons roleAccess _ freshWorld). apply Forall_nil_2.
Defined.

(** ** Moderation and the report limit *)

Lemma filter_length_lt {A} (P Q : A -> Prop) `{!forall x, Decision (P x)}
    `{!forall x, Decision (Q x)} (l : list A) (x : A) :
  (forall y, P y -> Q y) -> x ∈ l -> Q x -> ~ P x ->
  (length (filter P l) < length (filter Q l))%nat.
Proof.
  intros Himp Hx HQ HP.
  assert (Hle : forall l', (length (filter P l') <= length (filter Q l'))%nat).
  { induction l' as [| a l' IH]; [done |]. rewrite !filter_cons.
    repeat case_decide; cbn [length]; try lia. exfalso; auto. }
  induction l as [| a l IH]; [by apply elem_of_nil in Hx |].
  rewrite !filter_cons. apply elem_of_cons in Hx as [<- | Hx].
  - rewrite decide_False, decide_True by done. cbn [length].
    specialize (Hle l). lia.
  - specialize (IH Hx). repeat case_decide; cbn [length]; try lia.
    exfalso; auto.
Qed.

Lemma hide_lowers_active_count (d : Db) (hiddenId : Id) (c0 : Comment)
    (moderator : User) (now : Z) (userId : Id) (r : Report) :
  r ∈ reportsOf d userId ->
  r_commentId r = hiddenId ->
  activeReport d r = true ->
  (activeReportCount (afterSoftDelete d hiddenId c0 moderator true now) userId
   < activeReportCount d userId)%nat.
Proof.
  intros Hr Hid Hact. unfold activeReportCount, reportsOf, afterSoftDelete.
  cbn [commentReports].
  assert (Hlookup : forall r' : Report,
             activeReport (afterSoftDelete d hiddenId c0 moderator true now) r' =
               if decide (r_commentId r' = hiddenId) then false
               else activeReport d r').
  { intros r'. unfold activeReport, afterSoftDelete. cbn [comments users].
    case_decide as He.
    - rewrite He, lookup_insert_eq.
      by rewrite softDeletePatch_visible.
    - by rewrite lookup_insert_ne. }
  apply (filter_length_lt _ _ _ r); [| exact Hr | exact Hact |].
  - intros r'. fold (afterSoftDelete d hiddenId c0 moderator true now).
    rewrite Hlookup. by case_decide.
  - fold (afterSoftDelete d hiddenId c0 moderator true now).
    rewrite Hlookup, decide_True by done. done.
Qed.

(** X19.  A reporter stopped by the limit of 20 active reports can report
    again once a moderator has hidden one of the comments they reported:
    the same call that failed with the rate-limit error goes through after
    [setSoftDeletedHandler] has hidden that comment. *)
Theorem hide_frees_report_slot (acc : Access) (ctxM ctxU : Ctx)
    (moderator user : User) (hiddenId commentId : Id) (c0 c : Comment)
    (reason : string) (w : World) (r : Report) :
  session ctxM = Some moderator ->
  moderatorGate acc moderator = true ->
  session ctxU = Some user ->
  comments (db w) !! hiddenId = Some c0 ->
  comments (db w) !! commentId = Some c ->
  commentId <> hiddenId ->
  isCommentVisible c = true ->
  trim reason <> "" ->
  reportsOfPair (db w) commentId (u_id user) = [] ->
  activeReportCount (db w) (u_id user) = 20%nat ->
  r ∈ reportsOf (db w) (u_id user) ->
  r_commentId r = hiddenId ->
  activeReport (db w) r = true ->
  fst (reportHandler ctxU commentId reason w) = Threw ReportLimitReached /\
  fst (reportHandler ctxU commentId reason
         (snd (setSoftDeletedHandler acc ctxM hiddenId true w))) =
    Returned REPORTED.
Proof.
  intros HsM Hgate HsU Hc0 Hc Hne Hv Hb Hp Hn Hr Hid Hact. split.
  - destruct (report_limit ctxU user commentId reason w HsU c Hc Hv Hb Hp)
      as (t & _ & ->); [lia | done].
  - rewrite (softDelete_run acc ctxM moderator hiddenId w HsM true c0 Hgate Hc0).
    cbn [snd].
    set (w1 := mkWorld _ _).
    destruct (report_fresh ctxU user commentId reason w1 HsU c)
      as (w' & -> & _); try done.
    + unfold w1, afterSoftDelete. cbn [db comments].
      by rewrite lookup_insert_ne.
    + pose proof (hide_lowers_active_count (db w) hiddenId c0 moderator
                    (now ctxM) (u_id user) r Hr Hid Hact) as Hlt.
      unfold w1. cbn [db]. lia.
Qed.

Lemma hide_frees_report_slot_witness :
  fst (reportHandler (mkCtx (Some (plainUser 9)) 9) 1 "spam"
         (snd (setSoftDeletedHandler roleAccess (moderatorCtx 8) 101 true
                 busyWorld))) =
    Returned REPORTED.
Proof.
  refine (proj2 (hide_frees_report_slot roleAccess (moderatorCtx 8)
                   (mkCtx (Some (plainUser 9)) 9) _ (plainUser 9) 101 1
                   (plainComment 7 100 (Some 1)) (plainComment 7 100 None)
                   "spam" busyWorld (mkReport 0 101 7 9 "spam" 5)
                   _ _ _ _ _ _ _ _ _ _ _ _ _)).
  - reflexivity.
  - reflexivity.
  - reflexivity.
  - vm_compute. reflexivity.
  - vm_compute. reflexivity.
  - lia.
  - reflexivity.
  - vm_compute. discriminate.
  - vm_compute. reflexivity.
  - vm_compute. reflexivity.
  - vm_compute. constructor.
  - reflexivity.
  - vm_compute. reflexivity.
Defined.

(** ** The quality gate *)

Lemma countSimilar_spec (st : Store) (fingerprint : string)
    (candidates : list Activity) :
  forall n : Z,
    (countSimilar st fingerprint candidates n = None <->
     blobMissing st candidates) /\
    (~ blobMissing st candidates ->
     countSimilar st fingerprint candidates n =
       Some (n + Z.of_nat
                   (length (filter (fun entry =>
                                      sameStructure st fingerprint entry = true)
                                   candidates)))).
Proof.
  induction candidates as [| entry rest IH]; intros n.
  { cbn. split.
    - split; [done |]. intros (e & f & He & _). by apply elem_of_nil in He.
    - intros _. f_equal. lia. }
  assert (Hskip : readmeOf st entry = None ->
            (blobMissing st (entry :: rest) <-> blobMissing st rest) /\
            sameStructure st fingerprint entry = false).
  { intros Hnone. split; [| unfold sameStructure; by rewrite Hnone].
    split.
    - intros (e & f & He & Hf & Hb). apply elem_of_cons in He as [-> | He];
        [congruence |]. by exists e, f.
    - intros (e & f & He & Hf & Hb). exists e, f. split; [by right | done]. }
  cbn [countSimilar]. unfold readmeOf in Hskip.
  destruct (act_latestVersionId entry ≫= (fun id => versions st !! id))
    as [files |] eqn:Hfiles; cbn [mbind option_bind] in Hskip.
  2: { destruct (Hskip eq_refl) as [Hiff Hsame]. rewrite Hiff.
       rewrite filter_cons_False by (by rewrite Hsame). apply IH. }
  destruct (List.find _ files) as [file |] eqn:Hfind.
  2: { destruct (Hskip eq_refl) as [Hiff Hsame]. rewrite Hiff.
       rewrite filter_cons_False by (by rewrite Hsame). apply IH. }
  clear Hskip.
  assert (Hreadme : readmeOf st entry = Some file).
  { unfold readmeOf. rewrite Hfiles. exact Hfind. }
  destruct (storage st !! f_storageId file) as [text |] eqn:Hblob.
  2: { split; [| intros Hno; exfalso; apply Hno].
       - split; [| done]. intros _. exists entry, file. split; [by left | done].
       - exists entry, file. split; [by left | done]. }
  assert (Hiff : blobMissing st (entry :: rest) <-> blobMissing st rest).
  { split.
    - intros (e & f & He & Hf & Hb). apply elem_of_cons in He as [-> | He];
        [congruence |]. by exists e, f.
    - intros (e & f & He & Hf & Hb). exists e, f. split; [by right | done]. }
  rewrite Hiff.
  assert (Hsame : sameStructure st fingerprint entry =
                    String.eqb (toStructuralFingerprint text) fingerprint).
  { unfold sameStructure. rewrite Hreadme. cbn. by rewrite Hblob. }
  destruct (String.eqb (toStructuralFingerprint text) fingerprint) eqn:Heq.
  - rewrite filter_cons_True by done. cbn [length].
    destruct (IH (n + 1)) as [IH1 IH2]. split; [done |].
    intros Hno. rewrite (IH2 Hno). f_equal. lia.
  - rewrite filter_cons_False by (by rewrite Hsame). apply IH.
Qed.

(** X20.  The quality gate of [publishVersionForUser].  A new version of
    an existing skill is not assessed.  For a new skill the gate fails with
    the storage error exactly when the README blob of one of the compared
    skills is missing; otherwise it assesses the README with the number of
    the owner's other skills of the last 24 hours whose README has the same
    structural fingerprint, and it rejects the skill as template spam
    exactly when that number reaches the ceiling of the owner's tier (5, 8
    or 12). *)
Theorem qualityGate_duplicates (st : Store) (now ownerCreatedAt : Z)
    (ownerActivity : list Activity) (slug readmeText : string)
    (summary : option string) :
  let tier := getTrustTier (now - ownerCreatedAt)
                (Z.of_nat (length ownerActivity)) in
  let recent := recentCandidates now slug ownerActivity in
  let similar :=
    Z.of_nat (length (filter (fun entry =>
                 sameStructure st (toStructuralFingerprint readmeText) entry = true)
               recent)) in
  let gate isNewSkill :=
    qualityGate st isNewSkill now ownerCreatedAt ownerActivity slug readmeText
      summary in
  gate false = GatePassed None /\
  (gate true = GateThrew FileMissing <-> blobMissing st recent) /\
  (~ blobMissing st recent ->
     let qa := evaluateQuality (computeQualitySignals readmeText summary)
                 tier similar in
     gate true =
       match decision qa with
       | reject => GateThrew (Rejected (reason qa))
       | _ => GatePassed (Some qa)
       end /\
     (gate true = GateThrew (Rejected REASON_SPAM) <->
      duplicateCeiling tier <= similar)) /\
  0 <= similar <= Z.of_nat (length ownerActivity).
Proof.
  cbn zeta. unfold qualityGate.
  change (structuralFingerprint (computeQualitySignals readmeText summary))
    with (toStructuralFingerprint readmeText).
  set (tier := getTrustTier _ _).
  set (recent := recentCandidates now slug ownerActivity).
  set (fp := toStructuralFingerprint readmeText).
  destruct (countSimilar_spec st fp recent 0) as [Hnone Hsome].
  split_and!.
  - done.
  - rewrite <- Hnone. destruct (countSimilar st fp recent 0) as [n |]; [| done].
    split; [| done]. by destruct (decision _).
  - intros Hno. rewrite (Hsome Hno), Z.add_0_l.
    set (similar := Z.of_nat _).
    set (qa := evaluateQuality _ tier similar).
    split; [done |].
    pose proof reasons_differ as Hne.
    assert (Hlow : REASON_LOW <> REASON_SPAM) by discriminate.
    assert (Hpass : REASON_PASS <> REASON_SPAM) by discriminate.
    unfold qa, evaluateQuality.
    generalize (scoreQuality (computeQualitySignals readmeText summary)) as sc.
    generalize (computeQualitySignals readmeText summary) as s.
    intros s sc.
    destruct tier; cbn -[Z.ltb Z.geb Z.gtb REASON_SPAM REASON_THIN];
      repeat match goal with
      | |- context [Z.ltb ?x ?y] => destruct (Z.ltb_spec x y)
      | |- context [Z.geb ?x ?y] =>
          rewrite (Z.geb_leb x y); destruct (Z.leb_spec y x)
      end; cbn -[REASON_SPAM REASON_THIN];
      (split; [intros [=]; first [lia | congruence] | intros; first [lia | done]]).
  - lia.
  - apply inj_le. etrans; [apply length_filter |]. apply length_filter.
Qed.
